(** * Edward Voice AI: turn-taking and conversation state

    A shallow embedding of the voice-activity detector ([vad.py]) and of the
    conversation manager and response orchestrator ([ai_brain.py], with the
    trait table of [audio_utils.py]), and the properties of the written
    specification checked against them.  Further sections embed the
    recording loop ([record_until_silence] of [vad.py], [voice_input.py])
    and the catalogue of recorded responses with the functions that speak
    from it ([voice_responses.py], [audio_utils.py], [text_to_speech.py]).

    Conventions of the embedding.
    - A Python [str] is a [string] whose characters are read as code points
      below 256; [isspace] and [lower] follow Python on that range, and
      [capitalize] on the letters whose capital stays in it.
    - Python [int] is [Z]; list lengths and indices that cannot be negative
      are [nat].
    - A NumPy frame is a list of samples: rationals for a float32 frame
      (the dtype of the input stream), integers for a 16-bit frame.  The
      product [x * 32767] is rounded to float32 as NumPy rounds it; the
      mean of the energy fallback is read exactly.
    - Code that raises, draws random numbers, reads the clock or touches
      files runs in the monad [M]: a state monad over [World] whose result
      is either a value or the exception raised.  The state survives a
      raise, as it does in Python. *)

From Stdlib Require Import ZArith QArith Qabs List String Ascii Lia Bool.
From stdpp Require Import base gmap sets strings.

#[local] Set Warnings "-clear-no-such-hyp".
Import ListNotations.

(* ================================================================== *)
(** ** Python built-ins used by the program *)
(* ================================================================== *)

Module Py.

(** [l[i:]] for a possibly negative [i]. *)
Definition slice_from {A : Type} (i : Z) (l : list A) : list A :=
  let n := Z.of_nat (length l) in
  let start := if (i <? 0)%Z then Z.max 0 (n + i) else Z.min i n in
  drop (Z.to_nat start) l.

(** [c.isspace()] on code points below 256. *)
Definition isspace (c : ascii) : bool :=
  let n := nat_of_ascii c in
  ((9 <=? n) && (n <=? 13)) || ((28 <=? n) && (n <=? 32))
  || (n =? 133) || (n =? 160).

Definition is_upper (n : nat) : bool :=
  ((65 <=? n) && (n <=? 90))
  || ((192 <=? n) && (n <=? 222) && negb (n =? 215)).

Definition is_lower (n : nat) : bool :=
  ((97 <=? n) && (n <=? 122))
  || ((224 <=? n) && (n <=? 254) && negb (n =? 247)).

Definition lower_char (c : ascii) : ascii :=
  let n := nat_of_ascii c in
  if is_upper n then ascii_of_nat (n + 32) else c.

Definition upper_char (c : ascii) : ascii :=
  let n := nat_of_ascii c in
  if is_lower n then ascii_of_nat (n - 32) else c.

Fixpoint map_string (f : ascii -> ascii) (s : string) : string :=
  match s with
  | EmptyString => EmptyString
  | String c r => String (f c) (map_string f r)
  end.

(** [s.lower()] *)
Definition lower (s : string) : string := map_string lower_char s.

(** [s.capitalize()] *)
Definition capitalize (s : string) : string :=
  match s with
  | EmptyString => EmptyString
  | String c r => String (upper_char c) (lower r)
  end.

Fixpoint lstrip_by (p : ascii -> bool) (s : string) : string :=
  match s with
  | EmptyString => EmptyString
  | String c r => if p c then lstrip_by p r else s
  end.

Fixpoint rstrip_by (p : ascii -> bool) (s : string) : string :=
  match s with
  | EmptyString => EmptyString
  | String c r =>
      match rstrip_by p r with
      | EmptyString => if p c then EmptyString else String c EmptyString
      | r' => String c r'
      end
  end.

(** [s.strip()] *)
Definition strip (s : string) : string := rstrip_by isspace (lstrip_by isspace s).

Fixpoint mem_char (c : ascii) (chars : string) : bool :=
  match chars with
  | EmptyString => false
  | String d r => Ascii.eqb c d || mem_char c r
  end.

(** [s.rstrip(chars)] *)
Definition rstrip_chars (chars s : string) : string :=
  rstrip_by (fun c => mem_char c chars) s.

(** [s.split()]: the maximal runs of non-whitespace characters. *)
Fixpoint split (s : string) : list string :=
  match s with
  | EmptyString => []
  | String c r =>
      if isspace c then split r
      else match r with
           | EmptyString => [String c EmptyString]
           | String d _ =>
               if isspace d then String c EmptyString :: split r
               else match split r with
                    | w :: ws => String c w :: ws
                    | [] => [String c EmptyString]
                    end
           end
  end.

(** [s.startswith(p)], returning what follows the prefix. *)
Fixpoint strip_prefix (p s : string) : option string :=
  match p with
  | EmptyString => Some s
  | String a p' =>
      match s with
      | EmptyString => None
      | String b s' => if Ascii.eqb a b then strip_prefix p' s' else None
      end
  end.

Definition startswith (p s : string) : bool :=
  match strip_prefix p s with Some _ => true | None => false end.

(** [s.endswith(p)]: some suffix of [s] is [p]. *)
Fixpoint endswith (p s : string) : bool :=
  String.eqb p s
  || match s with
     | EmptyString => false
     | String _ r => endswith p r
     end.

(** [s.partition(sep)] at the leftmost occurrence of a non-empty [sep];
    [None] when [sep] does not occur. *)
Fixpoint partition (sep s : string) : option (string * string) :=
  match strip_prefix sep s with
  | Some post => Some (EmptyString, post)
  | None =>
      match s with
      | EmptyString => None
      | String c r =>
          match partition sep r with
          | Some (pre, post) => Some (String c pre, post)
          | None => None
          end
      end
  end.

(** [s.split(sep, 1)] *)
Definition split1 (sep s : string) : list string :=
  match partition sep s with
  | Some (pre, post) => [pre; post]
  | None => [s]
  end.

(** [sub in s] *)
Definition contains (sub s : string) : bool :=
  match partition sub s with Some _ => true | None => false end.

(** [s[:n]] for [n >= 0] *)
Fixpoint take_string (n : nat) (s : string) : string :=
  match n, s with
  | S k, String c r => String c (take_string k r)
  | _, _ => EmptyString
  end.

(** [s[:-1]] *)
Fixpoint drop_last (s : string) : string :=
  match s with
  | EmptyString => EmptyString
  | String c EmptyString => EmptyString
  | String c r => String c (drop_last r)
  end.

(** [not s.strip()]: every character is whitespace. *)
Fixpoint blank (s : string) : bool :=
  match s with
  | EmptyString => true
  | String c r => isspace c && blank r
  end.

End Py.

(* ================================================================== *)
(** ** vad.py *)
(* ================================================================== *)

Module Vad.

Inductive exn : Type :=
| ValueError (msg : string).

(** The frame handed to [process_audio]: [dtype] [float32], as the input
    stream of [record_until_silence] delivers it, or [int16]. *)
Inductive ndarray : Type :=
| Float (samples : list Q)
| Int16 (samples : list Z).

(** The WebRTC engine, an external collaborator with a state of its own:
    on its [k]-th call [is_speech frame rate] answers or throws ([None]). *)
Definition Classifier : Type := nat -> list Z -> Z -> option bool.

Record VoiceActivityDetector : Type := mkVad {
  sample_rate : Z;
  is_speaking : bool;
  speech_buffer : list bool;
  frame_duration : Z;
  samples_per_frame : Z;
  vad : option Classifier
}.

(** Module state: the global [VAD_AVAILABLE], how often the engine has
    been called, and the detector at hand. *)
Record State : Type := mkState {
  VAD_AVAILABLE : bool;
  engine_calls : nat;
  self : VoiceActivityDetector
}.

(** [VoiceActivityDetector.__init__]; [engine] is what [Vad(aggressiveness)]
    yields, [None] when the constructor throws. *)
Definition init (available : bool) (engine : option Classifier)
    (rate : Z) : State :=
  let d := mkVad rate false [] 30 ((rate * 30) / 1000)%Z None in
  if available then
    match engine with
    | Some e =>
        mkState true 0 (mkVad rate false [] 30 ((rate * 30) / 1000)%Z (Some e))
    | None => mkState false 0 d
    end
  else mkState false 0 d.

Definition wrap16 (z : Z) : Z := ((z + 32768) mod 65536 - 32768)%Z.

(** The exponent [e] with [2^e <= n/d < 2^(e+1)]. *)
Definition floor_log2 (n d : positive) : Z :=
  let e0 := (Z.log2 (Zpos n) - Z.log2 (Zpos d))%Z in
  if (0 <=? e0)%Z
  then if (Zpos n <? Zpos d * 2 ^ e0)%Z then (e0 - 1)%Z else e0
  else if (Zpos n * 2 ^ (- e0) <? Zpos d)%Z then (e0 - 1)%Z else e0.

(** The integer nearest to [a / b], for [a >= 0]; a tie goes to the even
    one. *)
Definition round_half_even (a : Z) (b : positive) : Z :=
  let q := (a / Zpos b)%Z in
  match (2 * (a mod Zpos b) ?= Zpos b)%Z with
  | Lt => q
  | Gt => (q + 1)%Z
  | Eq => if Z.even q then q else (q + 1)%Z
  end.

(** The float32 nearest to the positive rational [n / d]: 24 significant
    bits, and a last place that never falls below [2^-149]. *)
Definition float32_nearest (n d : positive) : Q :=
  let e := Z.max (floor_log2 n d) (-126) in
  let s := (e - 23)%Z in
  if (0 <=? s)%Z
  then Qmake (round_half_even (Zpos n) (Z.to_pos (Zpos d * 2 ^ s)) * 2 ^ s) 1
  else Qmake (round_half_even (Zpos n * 2 ^ (- s)) d) (Z.to_pos (2 ^ (- s))).

(** Rounding to float32: to nearest, ties to even.  A value beyond the
    largest float32 stands for the infinity it rounds to. *)
Definition float32_round (x : Q) : Q :=
  match Qnum x with
  | Z0 => 0%Q
  | Zpos n => float32_nearest n (Qden x)
  | Zneg n => (- float32_nearest n (Qden x))%Q
  end.

(** [(x * 32767).astype(np.int16)] on one float32 sample: the product is
    rounded to float32, and the cast truncates it toward zero to 32 bits
    and keeps the low 16; a product outside the 32-bit range (or
    infinite) converts to the value whose low half is zero, as the x86-64
    conversion does. *)
Definition to_int16 (x : Q) : Z :=
  let y := float32_round (x * (32767 # 1))%Q in
  let t := Z.quot (Qnum y) (Zpos (Qden y)) in
  if ((- 2 ^ 31 <=? t) && (t <? 2 ^ 31))%Z then wrap16 t else 0%Z.

Definition as_int16 (a : ndarray) : list Z :=
  match a with
  | Float xs => map to_int16 xs
  | Int16 zs => zs
  end.

(** [np.mean(np.abs(a))]; [None] is the NaN of an empty frame. *)
Definition mean_abs (a : list Z) : option Q :=
  match a with
  | [] => None
  | _ => Some (Qmake (fold_right Z.add 0%Z (map (fun z => wrap16 (Z.abs z)) a)) 1
               / (Z.of_nat (length a) # 1))%Q
  end.

(** [energy > 0.01] *)
Definition energy_detect (a : list Z) : bool :=
  match mean_abs a with
  | None => false
  | Some e => negb (Qle_bool e (1 # 100))
  end.

(** The frames visited by [for i in range(0, len(a), n)] with
    [frame = a[i:i+n]]. *)
Definition chunks (n : nat) (a : list Z) : list (list Z) :=
  map (fun k => take n (drop (k * n) a)) (seq 0 (Nat.div (length a + (n - 1)) n)).

Inductive scan : Type := Speech | NoSpeech | Failed.

(** The body of the chunk loop, over the frames still to visit; [k]
    counts the calls of the engine. *)
Fixpoint scan_chunks (clf : Classifier) (rate : Z) (n : nat)
    (frames : list (list Z)) (k : nat) : scan * nat :=
  match frames with
  | [] => (NoSpeech, k)
  | frame :: rest =>
      if length frame <? n then scan_chunks clf rate n rest k
      else match clf k frame rate with
           | Some true => (Speech, S k)
           | Some false => scan_chunks clf rate n rest (S k)
           | None => (Failed, S k)
           end
  end.

(** Lines 89-102: the hysteresis on the raw decision. *)
Definition update_speech_state (detected : bool)
    (d : VoiceActivityDetector) : VoiceActivityDetector :=
  let buf := speech_buffer d ++ [detected] in
  let keep b sp :=
    mkVad (sample_rate d) sp b (frame_duration d) (samples_per_frame d) (vad d) in
  if detected then
    if 3 <? length buf then keep (Py.slice_from (-3) buf) true
    else keep buf (is_speaking d)
  else
    if 5 <? length buf then
      if negb (existsb id (Py.slice_from (-3) buf)) then keep [] false
      else keep buf (is_speaking d)
    else keep buf (is_speaking d).

Definition drop_engine (d : VoiceActivityDetector) : VoiceActivityDetector :=
  mkVad (sample_rate d) (is_speaking d) (speech_buffer d)
        (frame_duration d) (samples_per_frame d) None.

(** The raw decision of [process_audio] (lines 58-87), with the state after
    a classifier failure; [inl] when [range] rejects a zero step. *)
Definition raw_decision (st : State) (audio_data : ndarray)
    : exn + (bool * State) :=
  let a := as_int16 audio_data in
  match vad (self st) with
  | Some clf =>
      if (samples_per_frame (self st) =? 0)%Z
      then inl (ValueError "range() arg 3 must not be zero")
      else
        let n := Z.to_nat (samples_per_frame (self st)) in
        match scan_chunks clf (sample_rate (self st)) n (chunks n a)
                          (engine_calls st) with
        | (Speech, k) => inr (true, mkState (VAD_AVAILABLE st) k (self st))
        | (NoSpeech, k) => inr (false, mkState (VAD_AVAILABLE st) k (self st))
        | (Failed, k) => inr (false, mkState false k (drop_engine (self st)))
        end
  | None => inr (energy_detect a, st)
  end.

(** [VoiceActivityDetector.process_audio] *)
Definition process_audio (st : State) (audio_data : ndarray)
    : State * (exn + bool) :=
  match raw_decision st audio_data with
  | inl e => (st, inl e)
  | inr (detected, st1) =>
      let d := update_speech_state detected (self st1) in
      (mkState (VAD_AVAILABLE st1) (engine_calls st1) d, inr (is_speaking d))
  end.

(** Feeding a sequence of frames to one detector; the results are listed
    in call order. *)
Fixpoint process_all (st : State) (frames : list ndarray)
    : State * list (exn + bool) :=
  match frames with
  | [] => (st, [])
  | f :: rest =>
      let '(st1, r) := process_audio st f in
      let '(st2, rs) := process_all st1 rest in
      (st2, r :: rs)
  end.

(** The hysteresis alone, driven by raw decisions. *)
Fixpoint smooth (d : VoiceActivityDetector) (raw : list bool)
    : VoiceActivityDetector * list bool :=
  match raw with
  | [] => (d, [])
  | b :: rest =>
      let d1 := update_speech_state b d in
      let '(d2, out) := smooth d1 rest in
      (d2, is_speaking d1 :: out)
  end.


(** *** Definitions used by the statements about the detector *)

(** What the hysteresis keeps true of the rolling buffer: at most five
    entries, and nothing but silence beyond the third. *)
Definition buffer_ok (b : list bool) : Prop :=
  length b <= 5 /\ Forall (fun x => x = false) (drop 3 b).

(** The raw decision alone. *)
Definition raw_only (st : State) (f : ndarray) : exn + bool :=
  match raw_decision st f with
  | inl e => inl e
  | inr (detected, _) => inr detected
  end.

Definition silence : ndarray := Int16 [0%Z].
Definition loud : ndarray := Int16 [1000%Z].

(** The claim's reading of the fallback: mean absolute amplitude of the
    normalized samples above 0.01. *)
Definition normalized_energy_detect (xs : list Q) : bool :=
  match xs with
  | [] => false
  | _ => negb (Qle_bool (fold_right Qplus 0%Q (map Qabs xs)
                         / (Z.of_nat (length xs) # 1))%Q (1 # 100))
  end.

Definition faint_frame : list Q := repeat (1 # 1024)%Q 480.

End Vad.

(* ================================================================== *)
(** ** vad.py, [record_until_silence], and voice_input.py *)
(* ================================================================== *)

Module Recorder.
Import Vad.

(** The state that [audio_callback] shares with the polling loop of
    [record_until_silence]: the detector, the kept blocks and the count of
    silent blocks. *)
Record Recording : Type := mkRecording {
  detector : State;
  audio_buffer : list (list Q);
  silent_frames : nat
}.

(** [vad = VoiceActivityDetector(...)], [audio_buffer = []],
    [silent_frames = 0]. *)
Definition start (st : State) : Recording := mkRecording st [] 0.

(** [audio_callback], for the mono column [indata[:, 0]] of one block of
    the float32 input stream and no user callback (as [record_voice] calls
    it). *)
Definition audio_callback (r : Recording) (indata : list Q)
    : Recording * (exn + bool) :=
  let '(st, res) :=
    if 0 <? length indata then process_audio (detector r) (Float indata)
    else (detector r, inr false) in
  match res with
  | inl e => (mkRecording st (audio_buffer r) (silent_frames r), inl e)
  | inr true => (mkRecording st (audio_buffer r ++ [indata]) 0, inr true)
  | inr false =>
      if 0 <? length (audio_buffer r)
      then (mkRecording st (audio_buffer r ++ [indata]) (S (silent_frames r)),
            inr false)
      else (mkRecording st (audio_buffer r) (silent_frames r), inr false)
  end.

(** The blocks the stream delivers, one callback each; a callback that
    raises ends the stream.  The flags are the [is_speech] of the callbacks
    that completed. *)
Fixpoint run_callbacks (r : Recording) (blocks : list (list Q))
    : Recording * list bool :=
  match blocks with
  | [] => (r, [])
  | indata :: rest =>
      match audio_callback r indata with
      | (r1, inl _) => (r1, [])
      | (r1, inr is_speech) =>
          let '(r2, flags) := run_callbacks r1 rest in
          (r2, is_speech :: flags)
      end
  end.

(** The test of the polling loop. *)
Definition should_stop (frames_before_silence max_frames : Z)
    (r : Recording) : bool :=
  ((frames_before_silence <=? Z.of_nat (silent_frames r))%Z
   && (0 <? length (audio_buffer r)))
  || ((0 <? max_frames)%Z
      && (max_frames <=? Z.of_nat (length (audio_buffer r)))%Z).

(** What [record_until_silence] returns once the loop is left:
    [np.concatenate(audio_buffer)], or the empty array. *)
Definition recorded (r : Recording) : list Q := concat (audio_buffer r).

(** [record_voice] with [use_vad=True], given the array recorded: the
    file name and the 16-bit samples written, or [None]. *)
Definition record_voice (filename : string) (audio : list Q)
    : option (string * list Z) :=
  if 0 <? length audio then Some (filename, map to_int16 audio) else None.

(** The blocks before the first one reported as speech. *)
Fixpoint leading_quiet (flags : list bool) : nat :=
  match flags with
  | false :: rest => S (leading_quiet rest)
  | _ => 0
  end.

(** The blocks since the last one reported as speech. *)
Definition trailing_quiet (flags : list bool) : nat :=
  leading_quiet (rev flags).

End Recorder.

(** *** Definitions used by the statements about the engine and the
        fallback *)

Module VadSpec.
Import Vad.

(** The sum of the magnitudes of the samples. *)
Definition total_magnitude (a : list Z) : Z :=
  fold_right Z.add 0%Z (map Z.abs a).

(** A sample that [np.abs] leaves in the 16-bit range. *)
Definition in_range (z : Z) : Prop := (-32767 <= z <= 32767)%Z.

(** The chunks that the loop of [process_audio] hands to the engine: the
    ones of full length, in order. *)
Definition handed_to_engine (n : nat) (frames : list (list Z))
    : list (list Z) :=
  List.filter (fun frame => n <=? length frame) frames.

End VadSpec.

(* ================================================================== *)
(** ** ai_brain.py and the trait table of audio_utils.py *)
(* ================================================================== *)

Module Brain.

(** Exceptions, by the classes that the handlers of [get_response] tell
    apart; [OtherException] is any other subclass of [Exception]. *)
Inductive exn_class : Type :=
| IndexError
| KeyError
| ValueError
| JSONDecodeError
| APIError
| OSError
| OtherException (type_name : string).

Inductive exn : Type :=
| Exn (cls : exn_class) (msg : string).

Definition exn_cls (e : exn) : exn_class := let 'Exn c _ := e in c.
Definition exn_msg (e : exn) : string := let 'Exn _ m := e in m.

(** [type(e).__name__] *)
Definition class_name (c : exn_class) : string :=
  match c with
  | IndexError => "IndexError"
  | KeyError => "KeyError"
  | ValueError => "ValueError"
  | JSONDecodeError => "JSONDecodeError"
  | APIError => "APIError"
  | OSError => "OSError"
  | OtherException n => n
  end.

(** A message dictionary; the system message has neither timestamp nor
    emotion. *)
Record Message : Type := mkMessage {
  role : string;
  content : string;
  timestamp : option Z;
  emotion : option string
}.

Record ConversationManager : Type := mkManager {
  max_history : Z;
  conversation_history : list Message;
  last_interaction_time : Z;
  user_name : string;
  conversation_topics : gset string;
  user_preferences : gmap string string;
  conversation_mood : string
}.

(** [CONVERSATION_HISTORY_FILE] on disk. *)
Inductive FileState : Type :=
| Absent
| Unreadable
| Saved (records : list Message).

Record ErrorContext : Type := mkErrorContext {
  err_timestamp : Z;
  error_type : string;
  error_message : string;
  last_user_message : string;
  conversation_length : nat
}.

(** What the program cannot decide: the random source, the clock (read in
    microseconds) and whether the files it writes can be written. *)
Record Env : Type := mkEnv {
  random : nat -> Q;
  choice_index : nat -> nat;
  now : nat -> Z;
  thoughts_log_writable : bool;
  error_log_writable : bool;
  history_file_writable : bool
}.

(** The mutable state: the module-level [conversation], how far the random
    source and the clock have been read, and the files. *)
Record World : Type := mkWorld {
  conversation : ConversationManager;
  n_random : nat;
  n_choice : nat;
  n_now : nat;
  history_file : FileState;
  ai_thoughts_log : list (Z * string);
  error_log : list ErrorContext
}.

Definition M (A : Type) : Type := World -> (exn + A) * World.

Definition ret {A : Type} (a : A) : M A := fun w => (inr a, w).

Definition raise {A : Type} (e : exn) : M A := fun w => (inl e, w).

Definition bind {A B : Type} (m : M A) (k : A -> M B) : M B :=
  fun w =>
    match m w with
    | (inl e, w1) => (inl e, w1)
    | (inr a, w1) => k a w1
    end.

(** [try: m except Exception as e: h e] *)
Definition try_catch {A : Type} (m : M A) (h : exn -> M A) : M A :=
  fun w =>
    match m w with
    | (inl e, w1) => h e w1
    | (inr a, w1) => (inr a, w1)
    end.

Declare Scope py_scope.
Delimit Scope py_scope with py.
Notation "x <- m ;; k" := (bind m (fun x => k))
  (at level 100, m at next level, right associativity) : py_scope.
Notation "m ;; k" := (bind m (fun _ => k))
  (at level 100, right associativity) : py_scope.
Open Scope py_scope.

Definition get_conversation : M ConversationManager :=
  fun w => (inr (conversation w), w).

Definition set_conversation (c : ConversationManager) : M unit :=
  fun w => (inr tt, mkWorld c (n_random w) (n_choice w) (n_now w)
                            (history_file w) (ai_thoughts_log w) (error_log w)).

Definition with_history (h : list Message) (c : ConversationManager) :=
  mkManager (max_history c) h (last_interaction_time c) (user_name c)
            (conversation_topics c) (user_preferences c) (conversation_mood c).

Definition with_last_interaction (t : Z) (c : ConversationManager) :=
  mkManager (max_history c) (conversation_history c) t (user_name c)
            (conversation_topics c) (user_preferences c) (conversation_mood c).

Definition with_mood (m : string) (c : ConversationManager) :=
  mkManager (max_history c) (conversation_history c) (last_interaction_time c)
            (user_name c) (conversation_topics c) (user_preferences c) m.

Definition with_name (n : string) (c : ConversationManager) :=
  mkManager (max_history c) (conversation_history c) (last_interaction_time c)
            n (conversation_topics c) (<["name" := n]> (user_preferences c))
            (conversation_mood c).

Definition with_topic (t : string) (c : ConversationManager) :=
  mkManager (max_history c) (conversation_history c) (last_interaction_time c)
            (user_name c) ({[ t ]} ∪ conversation_topics c)
            (user_preferences c) (conversation_mood c).

Definition modify_conversation (f : ConversationManager -> ConversationManager)
    : M unit :=
  c <- get_conversation ;; set_conversation (f c).

(** [l[i]] for [i >= 0] *)
Definition index {A : Type} (l : list A) (i : nat) : M A :=
  match l !! i with
  | Some x => ret x
  | None => raise (Exn IndexError "list index out of range")
  end.

Definition Qlt_bool (x y : Q) : bool := negb (Qle_bool y x).

(** [ANGLO_PROFILE], the fields the system message quotes. *)
Definition ANGLO_name : string := "Anglo".
Definition ANGLO_owner : string := "Edward Asimeng".
Definition ANGLO_style : string := "calm, confident, and professional".
Definition ANGLO_accent : string := "Neutral Ghanaian/African English".

Definition newline : string := String (ascii_of_nat 10) EmptyString.

Definition system_message : Message :=
  mkMessage "system"
    ("You are " +:+ ANGLO_name +:+ ", a personal assistant voice AI representing "
     +:+ ANGLO_owner +:+ ". "
     +:+ "You are " +:+ ANGLO_style +:+ " with a " +:+ ANGLO_accent +:+ " accent. "
     +:+ "You are intelligent but humble, helpful and respectful, clear and confident, patient and explanatory. "
     +:+ "You assist with daily tasks, planning, technical explanations, and general questions. "
     +:+ "Always be polite, helpful, and honest. If unsure, say you do not know and ask for clarification. "
     +:+ "Avoid offensive, illegal, or harmful content. "
     +:+ "When explaining technical topics, start simple and go deeper if the user asks. "
     +:+ "Use the following format for your responses: " +:+ newline
     +:+ "[THOUGHTS: Your internal monologue about the conversation]" +:+ newline
     +:+ "[RESPONSE: Your actual response to the user]")
    None None.

(** [HUMAN_TRAITS] of audio_utils.py, lines 79-80: one key. *)
Definition HUMAN_TRAITS : gmap string (list string) :=
  {[ "EMOTIONS" :=
       ["angry"; "disust"; "fear"; "joy"; "sadness"; "surprise"; "neutral"] ]}.

Definition one_hour : Z := 3600000000.

(** [_analyze_sentiment] *)
Definition positive_words : gset string :=
  {[ "happy"; "great"; "awesome"; "amazing"; "love"; "wonderful" ]}.

Definition negative_words : gset string :=
  {[ "sad"; "bad"; "terrible"; "awful"; "hate"; "angry" ]}.

Definition _analyze_sentiment (text : string) : string :=
  let words : gset string := list_to_set (Py.split (Py.lower text)) in
  let pos_count := size (words ∩ positive_words) in
  let neg_count := size (words ∩ negative_words) in
  if neg_count + 1 <? pos_count then "happy"
  else if pos_count + 1 <? neg_count then "concerned"
  else "neutral".

Section Program.

Variable env : Env.

(** [random.random()] *)
Definition random_random : M Q :=
  fun w => (inr (random env (n_random w)),
            mkWorld (conversation w) (S (n_random w)) (n_choice w) (n_now w)
                    (history_file w) (ai_thoughts_log w) (error_log w)).

(** [random.choice(l)] *)
Definition random_choice {A : Type} (l : list A) : M A :=
  fun w =>
    match l !! (choice_index env (n_choice w) mod length l) with
    | Some x => (inr x,
                 mkWorld (conversation w) (n_random w) (S (n_choice w)) (n_now w)
                         (history_file w) (ai_thoughts_log w) (error_log w))
    | None => (inl (Exn IndexError "Cannot choose from an empty sequence"), w)
    end.

(** [datetime.now()] *)
Definition datetime_now : M Z :=
  fun w => (inr (now env (n_now w)),
            mkWorld (conversation w) (n_random w) (n_choice w) (S (n_now w))
                    (history_file w) (ai_thoughts_log w) (error_log w)).

(** [HUMAN_TRAITS[key]] *)
Definition trait (key : string) : M (list string) :=
  match HUMAN_TRAITS !! key with
  | Some l => ret l
  | None => raise (Exn KeyError ("'" +:+ key +:+ "'"))
  end.

Definition get_random_emotion (emotion_type : string) : M string :=
  emotions <- trait "EMOTIONS" ;;
  if bool_decide (emotion_type ∈ emotions) then ret emotion_type
  else random_choice emotions.

Definition lower_first (s : string) : string :=
  match s with
  | EmptyString => EmptyString
  | String c r => String (Py.lower_char c) r
  end.

Definition humanize_text (text emotion : string) : M string :=
  if Py.blank text then ret text
  else
    r1 <- random_random ;;
    text <- (if Qlt_bool r1 (1 # 10) then
               fillers <- trait "fillers" ;;
               filler <- random_choice fillers ;;
               ret (Py.capitalize filler +:+ ", " +:+ lower_first text)
             else ret text) ;;
    r2 <- random_random ;;
    text <- (if Qlt_bool r2 (5 # 100) && (5 <? length (Py.split text)) then
               phrases <- trait "thinking_phrases" ;;
               thinking <- random_choice phrases ;;
               ret (thinking +:+ " " +:+ text)
             else ret text) ;;
    r3 <- random_random ;;
    text <- (if Qlt_bool r3 (5 # 100) && (8 <? length (Py.split text)) then
               acks <- trait "acknowledgments" ;;
               ack <- random_choice acks ;;
               ret (text +:+ " " +:+ Py.lower ack +:+ ".")
             else ret text) ;;
    r4 <- random_random ;;
    if Qlt_bool r4 (2 # 10) then
      emoji <- get_random_emotion emotion ;;
      if String.eqb emoji "" then ret text else ret (text +:+ " " +:+ emoji)
    else ret text.

(** [ConversationManager._initialize_conversation] *)
Definition _initialize_conversation (mh : Z) : M (list Message) :=
  fun w =>
    match history_file w with
    | Saved saved_history =>
        (inr (system_message :: Py.slice_from (- (mh * 2)) saved_history), w)
    | Absent | Unreadable => (inr [system_message], w)
    end.

(** [conversation = ConversationManager(max_history=mh)] *)
Definition ConversationManager_init (mh : Z) : M unit :=
  history <- _initialize_conversation mh ;;
  t <- datetime_now ;;
  set_conversation (mkManager mh history t "User" ∅ ∅ "neutral").

(** [ConversationManager._update_conversation_meta] *)
Definition _update_conversation_meta (content role : string) : M unit :=
  t <- datetime_now ;;
  c <- get_conversation ;;
  let time_since_last := (t - last_interaction_time c)%Z in
  modify_conversation (with_last_interaction t) ;;
  (if (one_hour <? time_since_last)%Z
   then modify_conversation (with_mood "warm") else ret tt) ;;
  if String.eqb role "user" then
    if Py.contains "my name is " (Py.lower content) then
      after <- index (Py.split1 "my name is " content) 1 ;;
      token <- index (Py.split after) 0 ;;
      let name_part := Py.rstrip_chars ".,!?" token in
      if negb (String.eqb name_part "") && (1 <? String.length name_part)
      then modify_conversation (with_name name_part)
      else ret tt
    else ret tt
  else ret tt.

(** [emotion or self.conversation_mood] *)
Definition emotion_or (emotion : option string) (mood : string) : string :=
  match emotion with
  | Some e => if String.eqb e "" then mood else e
  | None => mood
  end.

(** [ConversationManager.add_message] *)
Definition add_message (role content : string) (emotion : option string)
    : M unit :=
  if Py.blank content then ret tt
  else
    c <- get_conversation ;;
    content <- (if String.eqb role "assistant"
                   && negb (Py.startswith "[THOUGHTS:" content)
                then humanize_text content (conversation_mood c)
                else ret content) ;;
    t <- datetime_now ;;
    c <- get_conversation ;;
    let message :=
      mkMessage role content (Some t)
                (Some (emotion_or emotion (conversation_mood c))) in
    modify_conversation (fun c => with_history (conversation_history c ++ [message]) c) ;;
    _update_conversation_meta content role ;;
    c <- get_conversation ;;
    let h := conversation_history c in
    if (max_history c * 2 + 1 <? Z.of_nat (length h))%Z then
      first <- index h 0 ;;
      set_conversation
        (with_history (first :: Py.slice_from (- (max_history c * 2)) h) c)
    else ret tt.

(** [ConversationManager.save_conversation]; a failed write is printed and
    leaves the file as it was. *)
Definition save_conversation : M unit :=
  fun w =>
    let conversation_to_save :=
      Py.slice_from 1 (conversation_history (conversation w)) in
    if history_file_writable env then
      (inr tt, mkWorld (conversation w) (n_random w) (n_choice w) (n_now w)
                       (Saved conversation_to_save)
                       (ai_thoughts_log w) (error_log w))
    else (inr tt, w).

(** What the completion collaborator does on one request: the text of
    [response.choices[0].message.content], a value that is not a string,
    or an exception (raised by the client, the call or the access). *)
Inductive completion : Type :=
| Reply (text : string)
| NotAString
| Fails (e : exn).

(** Appending a line to ai_thoughts.log. *)
Definition write_thoughts (thoughts : string) : M unit :=
  if thoughts_log_writable env then
    t <- datetime_now ;;
    fun w => (inr tt, mkWorld (conversation w) (n_random w) (n_choice w) (n_now w)
                              (history_file w)
                              (ai_thoughts_log w ++ [(t, thoughts)]) (error_log w))
  else raise (Exn OSError "ai_thoughts.log").

(** Lines 301-326.  [ai_response] is a local variable: when the block fails
    after the reassignment (while logging), the reassigned value stays. *)
Definition extract_response (raw : string) : M string :=
  if Py.contains "[THOUGHTS:" raw && Py.contains "[RESPONSE:" raw then
    try_catch
      (thoughts_part <- index (Py.split1 "[THOUGHTS:" raw) 1 ;;
       inner <- index (Py.split1 "]" thoughts_part) 0 ;;
       let thoughts := Py.strip inner in
       let response_part := Py.split1 "[RESPONSE:" raw in
       let ai_response :=
         match response_part with
         | _ :: after :: _ =>
             let r := Py.strip after in
             if Py.endswith "]" r then Py.strip (Py.drop_last r) else r
         | _ => raw
         end in
       try_catch
         (if negb (String.eqb thoughts "") then write_thoughts thoughts
          else ret tt)
         (fun _ => ret tt) ;;
       ret ai_response)
      (fun _ => ret raw)
  else ret raw.

(** The body of the [try] of [get_response]. *)
Definition respond (user_text : string) (answer : completion) : M string :=
  let sentiment := _analyze_sentiment user_text in
  modify_conversation (with_mood sentiment) ;;
  add_message "user" user_text None ;;
  _ <- datetime_now ;;
  ai_response <- (match answer with
                  | Fails e => raise e
                  | NotAString =>
                      raise (Exn ValueError "Empty or invalid AI response received")
                  | Reply text =>
                      if Py.blank text
                      then raise (Exn ValueError "Empty or invalid AI response received")
                      else ret text
                  end) ;;
  ai_response <- extract_response ai_response ;;
  c <- get_conversation ;;
  (if 3 <? length (conversation_history c)
   then modify_conversation
          (with_topic (Py.strip (Py.take_string 30 ai_response)))
   else ret tt) ;;
  add_message "assistant" ai_response (Some sentiment) ;;
  ret ai_response.

(** The error record each handler appends to error_log.txt; a failed
    write is printed and swallowed. *)
Definition log_error (error_type : string) (e : exn) : M unit :=
  t <- datetime_now ;;
  fun w =>
    let h := conversation_history (conversation w) in
    let ctx :=
      mkErrorContext t error_type (exn_msg e)
        (match last h with
         | Some m => content m
         | None => "No conversation history"
         end)
        (length h) in
    if error_log_writable env then
      (inr tt, mkWorld (conversation w) (n_random w) (n_choice w) (n_now w)
                       (history_file w) (ai_thoughts_log w) (error_log w ++ [ctx]))
    else (inr tt, w).

(** The four [except] clauses, in the order Python tries them. *)
Definition handle (e : exn) : M string :=
  match exn_cls e with
  | APIError =>
      emo <- get_random_emotion "sad" ;;
      let error_msg :=
        "I'm having trouble connecting to the AI service. " +:+ emo
        +:+ " Let's try again in a moment." in
      log_error "API Error" e ;;
      humanize_text error_msg "concerned"
  | JSONDecodeError =>
      emo <- get_random_emotion "confused" ;;
      let error_msg :=
        "I had trouble understanding the response. " +:+ emo
        +:+ " Could you rephrase that?" in
      log_error "JSON Decode Error" e ;;
      humanize_text error_msg "confused"
  | ValueError =>
      emo <- get_random_emotion "confused" ;;
      let error_msg :=
        "I received an unexpected response format. " +:+ emo
        +:+ " Let me try that again." in
      log_error "Value Error" e ;;
      humanize_text error_msg "confused"
  | cls =>
      let error_type := class_name cls in
      emo <- get_random_emotion "thinking" ;;
      let error_msg :=
        "Hmm, something unexpected happened (" +:+ error_type +:+ "). " +:+ emo
        +:+ " Let's try that again." in
      log_error error_type e ;;
      humanize_text error_msg "thinking"
  end.

(** [get_response] *)
Definition get_response (user_text : string) (answer : completion) : M string :=
  try_catch (respond user_text answer) handle.

End Program.

(** A world in which the module has just been loaded with
    [ConversationManager(max_history=mh)] and the given history file. *)
Definition boot (env : Env) (mh : Z) (file : FileState) : World :=
  snd (ConversationManager_init env mh
         (mkWorld (mkManager mh [] 0 "User" ∅ ∅ "neutral") 0 0 0 file [] [])).


(* ------------------------------------------------------------------ *)
(** *** Definitions used by the statements about the conversation *)
(* ------------------------------------------------------------------ *)

Definition history (w : World) : list Message :=
  conversation_history (conversation w).

Definition depth (w : World) : Z := max_history (conversation w).

(** The key of the truncation rule: the depth and the history. *)
Definition bounds (w : World) : Z * list Message := (depth w, history w).

(** [f] reads the same in the world a run leaves as in the one it found. *)
Definition preserves {X A : Type} (f : World -> X) (m : M A) : Prop :=
  forall w, f (snd (m w)) = f w.

(** The run returns a value from every world. *)
Definition returns {A : Type} (m : M A) : Prop :=
  forall w, exists a w', m w = (inr a, w').

(** From a world in [P] the run ends, by return or raise, in [Q]. *)
Definition establishes {A : Type} (P Q : World -> Prop) (m : M A) : Prop :=
  forall w, P w -> Q (snd (m w)).

(** [m] is the newest entry of a history that keeps at least one turn. *)
Definition latest (m : Message) (w : World) : Prop :=
  (1 <= depth w)%Z /\ last (history w) = Some m.

Definition recorded (m : Message) (w : World) : Prop := m ∈ history w.

Definition positive_list : list string :=
  ["happy"; "great"; "awesome"; "amazing"; "love"; "wonderful"].

Definition negative_list : list string :=
  ["sad"; "bad"; "terrible"; "awful"; "hate"; "angry"].

(** How many words of a vocabulary occur among the tokens. *)
Definition distinct_count (vocabulary tokens : list string) : nat :=
  length (filter (fun v => v ∈ tokens) vocabulary).

(** The text up to the next closing bracket, trimmed. *)
Definition thought_of (after_marker : string) : string :=
  Py.strip (match Py.partition "]" after_marker with
            | Some (inner, _) => inner
            | None => after_marker
            end).

(** The text after the response marker, trimmed, less one trailing
    bracket. *)
Definition reply_of (after_marker : string) : string :=
  let r := Py.strip after_marker in
  if Py.endswith "]" r then Py.strip (Py.drop_last r) else r.

(** The world once the mood has been assigned. *)
Definition assign_mood (mood : string) (w : World) : World :=
  mkWorld (with_mood mood (conversation w)) (n_random w) (n_choice w) (n_now w)
          (history_file w) (ai_thoughts_log w) (error_log w).

(** The world after one reading of the clock. *)
Definition tick (w : World) : World :=
  mkWorld (conversation w) (n_random w) (n_choice w) (S (n_now w))
          (history_file w) (ai_thoughts_log w) (error_log w).

Section Derived.

Variable env : Env.

(** A random source that never falls below 0.1 keeps the humanizer away
    from the traits that [HUMAN_TRAITS] lacks. *)
Definition calm_draws : Prop := forall n, (1 # 10 <= random env n)%Q.

(** The message that [add_message] builds in world [w]. *)
Definition new_message (role content : string) (emotion : option string)
    (w : World) : Message :=
  mkMessage role content (Some (now env (n_now w)))
            (Some (emotion_or emotion (conversation_mood (conversation w)))).

(** The world after the append, before the metadata update. *)
Definition appended (role content : string) (emotion : option string)
    (w : World) : World :=
  mkWorld (with_history (history w ++ [new_message role content emotion w])
                        (conversation w))
          (n_random w) (n_choice w) (S (n_now w))
          (history_file w) (ai_thoughts_log w) (error_log w).

(** The closing truncation of [add_message]. *)
Definition truncate : M unit :=
  c <- get_conversation ;;
  let h := conversation_history c in
  if (max_history c * 2 + 1 <? Z.of_nat (length h))%Z then
    first <- index h 0 ;;
    set_conversation
      (with_history (first :: Py.slice_from (- (max_history c * 2)) h) c)
  else ret tt.

(** The tail of [add_message], from the timestamp on. *)
Definition append_and_update (role content : string) (emotion : option string)
    : M unit :=
  t <- datetime_now env ;;
  c <- get_conversation ;;
  let message :=
    mkMessage role content (Some t)
              (Some (emotion_or emotion (conversation_mood c))) in
  modify_conversation (fun c => with_history (conversation_history c ++ [message]) c) ;;
  _update_conversation_meta env content role ;;
  c <- get_conversation ;;
  let h := conversation_history c in
  if (max_history c * 2 + 1 <? Z.of_nat (length h))%Z then
    first <- index h 0 ;;
    set_conversation
      (with_history (first :: Py.slice_from (- (max_history c * 2)) h) c)
  else ret tt.

(** The world after the clock reading and the mood rule of
    [_update_conversation_meta]. *)
Definition meta_base (w : World) : World :=
  let t := now env (n_now w) in
  let c := conversation w in
  let c1 := with_last_interaction t c in
  mkWorld (if (one_hour <? t - last_interaction_time c)%Z
           then with_mood "warm" c1 else c1)
          (n_random w) (n_choice w) (S (n_now w))
          (history_file w) (ai_thoughts_log w) (error_log w).

(** The log after one attempt to record a thought. *)
Definition log_thought (thoughts : string) (w : World) : World :=
  if String.eqb thoughts "" then w
  else if thoughts_log_writable env then
    mkWorld (conversation w) (n_random w) (n_choice w) (S (n_now w))
            (history_file w)
            (ai_thoughts_log w ++ [(now env (n_now w), thoughts)]) (error_log w)
  else w.

(** What [respond] does once the user message is in. *)
Definition after_user_message (sentiment : string) (answer : completion)
    : M string :=
  _ <- datetime_now env ;;
  ai_response <- (match answer with
                  | Fails e => raise e
                  | NotAString =>
                      raise (Exn ValueError "Empty or invalid AI response received")
                  | Reply text =>
                      if Py.blank text
                      then raise (Exn ValueError "Empty or invalid AI response received")
                      else ret text
                  end) ;;
  ai_response <- extract_response env ai_response ;;
  c <- get_conversation ;;
  (if 3 <? length (conversation_history c)
   then modify_conversation
          (with_topic (Py.strip (Py.take_string 30 ai_response)))
   else ret tt) ;;
  add_message env "assistant" ai_response (Some sentiment) ;;
  ret ai_response.

(** A sequence of [add_message] calls, with the outcome of each. *)
Fixpoint add_messages (calls : list (string * string * option string))
    (w : World) : list (exn + unit) * World :=
  match calls with
  | [] => ([], w)
  | (role, content, emotion) :: rest =>
      let '(r, w1) := add_message env role content emotion w in
      let '(rs, w2) := add_messages rest w1 in
      (r :: rs, w2)
  end.

(** [save()], then a fresh [ConversationManager(max_history=mh)]. *)
Definition save_and_reload (mh : Z) (w : World) : World :=
  boot env mh (history_file (snd (save_conversation env w))).

End Derived.

(** Three environments for the concrete runs: in [calm_env] every draw of
    [random.random()] is 0.5, in [eager_env] every draw is 0.05, in
    [startled_env] the first draw is 0.05 and every later one 0.5; the
    clock ticks once per reading and every file can be written. *)
Definition calm_env : Env :=
  mkEnv (fun _ => 1 # 2)%Q (fun _ => 0) (fun n => Z.of_nat n) true true true.

Definition eager_env : Env :=
  mkEnv (fun _ => 1 # 20)%Q (fun _ => 0) (fun n => Z.of_nat n) true true true.

Definition startled_env : Env :=
  mkEnv (fun n => if n =? 0 then 1 # 20 else 1 # 2)%Q
        (fun _ => 0) (fun n => Z.of_nat n) true true true.

Definition example_payload : string :=
  "[THOUGHTS: I should be concise][RESPONSE: Hello there]".

End Brain.

(* ================================================================== *)
(** ** ai_brain.py, continued: [clear_conversation] and sequences of
       [get_response] calls *)
(* ================================================================== *)

Module BrainMore.
Import Brain.
Open Scope py_scope.

(** [HUMAN_TRAITS['EMOTIONS']] *)
Definition EMOTIONS : list string :=
  ["angry"; "disust"; "fear"; "joy"; "sadness"; "surprise"; "neutral"].

(** [clear_conversation]; [deletable] says whether [os.remove] succeeds
    (a failure is printed). *)
Definition clear_conversation (deletable : bool) : M unit :=
  fun w =>
    let c := conversation w in
    let kept := with_history (take 1 (conversation_history c)) c in
    let file :=
      match history_file w with
      | Absent => Absent
      | present => if deletable then Absent else present
      end in
    (inr tt, mkWorld kept (n_random w) (n_choice w) (n_now w) file
                     (ai_thoughts_log w) (error_log w)).

(** A sequence of [get_response] calls, each with what the completion
    service does on it. *)
Fixpoint get_responses (env : Env) (turns : list (string * completion))
    (w : World) : list (exn + string) * World :=
  match turns with
  | [] => ([], w)
  | (user_text, answer) :: rest =>
      let '(r, w1) := get_response env user_text answer w in
      let '(rs, w2) := get_responses env rest w1 in
      (r :: rs, w2)
  end.

(** *** Definitions used by the statements *)

(** The words [humanize_text] counts. *)
Definition word_count (text : string) : nat := length (Py.split text).

(** The runs of the humanizer that reach a trait that [HUMAN_TRAITS]
    lacks, given the three draws that guard them. *)
Definition reaches_missing_trait (text : string) (r1 r2 r3 : Q) : bool :=
  negb (Py.blank text)
  && (Qlt_bool r1 (1 # 10)
      || (Qlt_bool r2 (5 # 100) && (5 <? word_count text))
      || (Qlt_bool r3 (5 # 100) && (8 <? word_count text))).

(** The text, or the text followed by a space and an emotion word. *)
Definition decorated (text t : string) : Prop :=
  t = text \/ exists e, e ∈ EMOTIONS /\ t = text +:+ " " +:+ e.

(** A name the rule accepts: two characters or more. *)
Definition acceptable_name (name : string) : bool :=
  negb (String.eqb name "") && (1 <? String.length name).

(** The [error_type] each handler writes. *)
Definition error_category (c : exn_class) : string :=
  match c with
  | APIError => "API Error"
  | JSONDecodeError => "JSON Decode Error"
  | ValueError => "Value Error"
  | other => class_name other
  end.

(** The apology each handler builds around the emotion word. *)
Definition apology (c : exn_class) (emo : string) : string :=
  match c with
  | APIError =>
      "I'm having trouble connecting to the AI service. " +:+ emo
      +:+ " Let's try again in a moment."
  | JSONDecodeError =>
      "I had trouble understanding the response. " +:+ emo
      +:+ " Could you rephrase that?"
  | ValueError =>
      "I received an unexpected response format. " +:+ emo
      +:+ " Let me try that again."
  | other =>
      "Hmm, something unexpected happened (" +:+ class_name other +:+ "). "
      +:+ emo +:+ " Let's try that again."
  end.

(** The exception with which a completion fails before any reply is
    used. *)
Definition failure_of (answer : completion) : option exn :=
  match answer with
  | Fails e => Some e
  | NotAString => Some (Exn ValueError "Empty or invalid AI response received")
  | Reply text =>
      if Py.blank text
      then Some (Exn ValueError "Empty or invalid AI response received")
      else None
  end.

(** Every known topic has at most thirty characters. *)
Definition topics_short (w : World) : Prop :=
  forall t, t ∈ conversation_topics (conversation w) -> String.length t <= 30.

(** What each handler asks [get_random_emotion] for, and the emotion it
    hands to [humanize_text]. *)
Definition hint (c : exn_class) : string :=
  match c with
  | APIError => "sad"
  | JSONDecodeError | ValueError => "confused"
  | _ => "thinking"
  end.

Definition tone (c : exn_class) : string :=
  match c with
  | APIError => "concerned"
  | JSONDecodeError | ValueError => "confused"
  | _ => "thinking"
  end.

(** The record a handler writes at time [t] for exception [e], the
    history being [h]. *)
Definition error_record (t : Z) (e : exn) (h : list Message) : ErrorContext :=
  mkErrorContext t (error_category (exn_cls e)) (exn_msg e)
    (match last h with
     | Some m => content m
     | None => "No conversation history"
     end)
    (length h).

(** The topics of the conversation. *)
Definition topics (w : World) : gset string :=
  conversation_topics (conversation w).

(** The world after [k] further draws of [random.random()]. *)
Definition drawn (k : nat) (w : World) : World :=
  mkWorld (conversation w) (k + n_random w) (n_choice w) (n_now w)
          (history_file w) (ai_thoughts_log w) (error_log w).

(** The system message heads the history. *)
Definition system_first (w : World) : Prop :=
  head (history w) = Some system_message.

End BrainMore.

(* ================================================================== *)
(** ** voice_responses.py, and the speaking functions of audio_utils.py
       and text_to_speech.py *)
(* ================================================================== *)

Module Voice.

(** A response dictionary: its ['file'] and its ['text']. *)
Record Response : Type := mkResponse {
  file : string;
  text : string
}.

(** A value of [self.categories]: a list of responses, or (for the
    emotions) a dictionary of such lists, in insertion order. *)
Inductive Category : Type :=
| Regular (responses : list Response)
| Nested (sublists : list (string * list Response)).

Definition Categories : Type := list (string * Category).

Definition _get_introductions : list Response :=
  [ mkResponse "wav/anglo_intro_001.wav" "Hello, I'm Edward, your personal assistant.";
    mkResponse "wav/anglo_intro_002.wav"
      "I'm here to help you with your daily tasks, planning, and questions.";
    mkResponse "wav/anglo_intro_003.wav" "How can I help you today?" ].

Definition _get_greetings : list Response :=
  [ mkResponse "wav/anglo_greeting_001.wav" "Hello.";
    mkResponse "wav/anglo_greeting_002.wav" "Hi there.";
    mkResponse "wav/anglo_greeting_003.wav" "Good morning.";
    mkResponse "wav/anglo_greeting_004.wav" "Good afternoon.";
    mkResponse "wav/anglo_greeting_005.wav" "Good evening." ].

Definition _get_confirmations : list Response :=
  [ mkResponse "wav/anglo_confirm_001.wav" "Okay.";
    mkResponse "wav/anglo_confirm_002.wav" "Sure.";
    mkResponse "wav/anglo_confirm_003.wav" "No problem.";
    mkResponse "wav/anglo_confirm_004.wav" "I understand.";
    mkResponse "wav/anglo_confirm_005.wav" "Got it.";
    mkResponse "wav/anglo_confirm_006.wav" "That's fine." ].

Definition _get_assistance : list Response :=
  [ mkResponse "wav/anglo_assist_001.wav" "How can I help you?";
    mkResponse "wav/anglo_assist_002.wav" "What would you like me to do?";
    mkResponse "wav/anglo_assist_003.wav" "I'm here to assist you.";
    mkResponse "wav/anglo_assist_004.wav" "Let me know what you need." ].

Definition _get_clarifications : list Response :=
  [ mkResponse "wav/anglo_clarify_001.wav" "I need a bit more information.";
    mkResponse "wav/anglo_clarify_002.wav" "Could you please explain that again?";
    mkResponse "wav/anglo_clarify_003.wav" "I didn't fully understand.";
    mkResponse "wav/anglo_clarify_004.wav" "Let me try again in a simpler way." ].

Definition _get_tasks : list Response :=
  [ mkResponse "wav/anglo_task_001.wav" "I can help you plan your day.";
    mkResponse "wav/anglo_task_002.wav" "Let's do this step by step.";
    mkResponse "wav/anglo_task_003.wav" "You can start with your most important task.";
    mkResponse "wav/anglo_task_004.wav" "Take a short break and continue later." ].

Definition _get_motivation : list Response :=
  [ mkResponse "wav/anglo_motivation_001.wav" "You're doing well.";
    mkResponse "wav/anglo_motivation_002.wav" "Keep going, you're making progress.";
    mkResponse "wav/anglo_motivation_003.wav" "Every small effort matters.";
    mkResponse "wav/anglo_motivation_004.wav" "Stay consistent and focused." ].

Definition _get_safety : list Response :=
  [ mkResponse "wav/anglo_safety_001.wav" "I can't help with that.";
    mkResponse "wav/anglo_safety_002.wav" "That's not something I'm allowed to do.";
    mkResponse "wav/anglo_safety_003.wav" "I can help in a safe and legal way." ].

Definition _get_emotions : list (string * list Response) :=
  [ ("calm",
     [ mkResponse "wav/anglo_emotion_calm_001.wav"
         "Everything is under control. Let's take it one step at a time." ]);
    ("friendly",
     [ mkResponse "wav/anglo_emotion_friendly_001.wav"
         "That's a great question. I'm happy to help you with that." ]);
    ("serious",
     [ mkResponse "wav/anglo_emotion_serious_001.wav"
         "Please be careful. This is important and needs attention." ]) ].

Definition _get_outros : list Response :=
  [ mkResponse "wav/anglo_outro_001.wav" "You're welcome.";
    mkResponse "wav/anglo_outro_002.wav" "Anytime.";
    mkResponse "wav/anglo_outro_003.wav" "Goodbye.";
    mkResponse "wav/anglo_outro_004.wav" "Take care." ].

(** [VoiceResponses().categories], the module-level [voice_responses]. *)
Definition voice_responses : Categories :=
  [ ("introductions", Regular _get_introductions);
    ("greetings", Regular _get_greetings);
    ("confirmations", Regular _get_confirmations);
    ("assistance", Regular _get_assistance);
    ("clarifications", Regular _get_clarifications);
    ("tasks", Regular _get_tasks);
    ("motivation", Regular _get_motivation);
    ("safety", Regular _get_safety);
    ("emotions", Nested _get_emotions);
    ("outros", Regular _get_outros) ].

(** [d.get(key)] on a dictionary kept in insertion order. *)
Fixpoint dict_get {A : Type} (key : string) (d : list (string * A)) : option A :=
  match d with
  | [] => None
  | (k, v) :: rest => if String.eqb k key then Some v else dict_get key rest
  end.

(** [random.choice(l)] on a list that is not empty; [i] is the draw. *)
Definition choice {A : Type} (i : nat) (l : list A) : option A :=
  l !! (i mod length l).

(** [VoiceResponses.get_emotion_response] *)
Definition get_emotion_response (self : Categories) (i : nat)
    (emotion_type : string) : option Response :=
  match dict_get "emotions" self with
  | Some (Nested emotions) =>
      match dict_get emotion_type emotions with
      | Some (r :: l) => choice i (r :: l)
      | Some [] | None => None
      end
  | Some (Regular _) | None => None
  end.

(** The inner loop of [find_matching_response]: [for response in l]. *)
Fixpoint first_in_list (text_ : string) (l : list Response) : option Response :=
  match l with
  | [] => None
  | response :: rest =>
      if Py.contains text_ (Py.lower (text response)) then Some response
      else first_in_list text_ rest
  end.

(** [for sublist in category.values()] *)
Fixpoint first_in_sublists (text_ : string)
    (sublists : list (string * list Response)) : option Response :=
  match sublists with
  | [] => None
  | (_, sublist) :: rest =>
      match first_in_list text_ sublist with
      | Some response => Some response
      | None => first_in_sublists text_ rest
      end
  end.

(** [for category in self.categories.values()] *)
Fixpoint first_in_categories (text_ : string) (cats : Categories)
    : option Response :=
  match cats with
  | [] => None
  | (_, Nested sublists) :: rest =>
      match first_in_sublists text_ sublists with
      | Some response => Some response
      | None => first_in_categories text_ rest
      end
  | (_, Regular l) :: rest =>
      match first_in_list text_ l with
      | Some response => Some response
      | None => first_in_categories text_ rest
      end
  end.

(** [VoiceResponses.find_matching_response] *)
Definition find_matching_response (self : Categories) (text_ : string)
    : option Response :=
  first_in_categories (Py.lower text_) self.

(** What playing a file depends on: whether it exists, and whether the
    playback goes through without an exception. *)
Record Audio : Type := mkAudio {
  path_exists : string -> bool;
  playback_succeeds : string -> bool
}.

(** [AudioPlayer.play_audio_file] *)
Definition play_audio_file (audio : Audio) (file_path : string) : bool :=
  if negb (path_exists audio file_path) then false
  else playback_succeeds audio file_path.

(** [audio_utils.play_response] on a response of the catalogue. *)
Definition play_response (audio : Audio) (response : Response) : bool :=
  play_audio_file audio (file response).

(** [audio_utils.speak_text] *)
Definition speak_text (self : Categories) (audio : Audio) (i : nat)
    (text_ emotion : string) : bool :=
  let response := find_matching_response self text_ in
  let response :=
    match response with
    | Some r => Some r
    | None =>
        if negb (String.eqb emotion "neutral")
        then get_emotion_response self i emotion
        else None
    end in
  match response with
  | Some r => play_response audio r
  | None => false
  end.

(** [text_to_speech._tts_speak]: [enabled] is [ELEVENLABS_ENABLED], and
    [synthesis text] says whether the voice manager hands audio back
    (an exception is logged and counts as no). *)
Record Tts : Type := mkTts {
  enabled : bool;
  synthesis : string -> bool
}.

Definition _tts_speak (tts : Tts) (text_ : string) : bool :=
  if negb (enabled tts) then false else synthesis tts text_.

(** [text_to_speech.speak] *)
Definition speak (self : Categories) (audio : Audio) (tts : Tts) (i : nat)
    (text_ emotion : string) (use_tts_fallback : bool) : bool :=
  let response := find_matching_response self text_ in
  let response :=
    match response with
    | Some r => Some r
    | None =>
        if negb (String.eqb emotion "neutral")
        then get_emotion_response self i emotion
        else None
    end in
  match response with
  | Some r => play_response audio r
  | None =>
      if negb use_tts_fallback then false
      else _tts_speak tts text_
  end.

(** *** Definitions used by the statements about the catalogue *)

(** The responses in the order in which the search visits them. *)
Definition responses_of (c : Category) : list Response :=
  match c with
  | Regular l => l
  | Nested sublists => flat_map snd sublists
  end.

Definition all_responses (cats : Categories) : list Response :=
  flat_map (fun kv => responses_of (snd kv)) cats.

(** The lowered query occurs in the lowered text of the response. *)
Definition matches (query : string) (response : Response) : bool :=
  Py.contains (Py.lower query) (Py.lower (text response)).

End Voice.

(* ================================================================== *)
(** ** Slices *)
(* ================================================================== *)

Section SliceFacts.

Context {A : Type}.
Implicit Types l : list A.

Lemma slice_from_last_k (k : nat) l :
  0 < k -> Py.slice_from (- Z.of_nat k) l = drop (length l - k) l.
Proof.
  intros Hk. unfold Py.slice_from.
  destruct (Z.ltb_spec (- Z.of_nat k) 0) as [_|H]; [|lia].
  f_equal. lia.
Qed.

Lemma slice_from_last_k_length (k : nat) l :
  0 < k -> length (Py.slice_from (- Z.of_nat k) l) = Nat.min k (length l).
Proof.
  intros Hk. rewrite slice_from_last_k by done. rewrite length_drop. lia.
Qed.

Lemma slice_from_zero l : Py.slice_from 0 l = l.
Proof. unfold Py.slice_from. simpl. rewrite Z.min_l by lia. done. Qed.

Lemma slice_from_one l : Py.slice_from 1 l = drop 1 l.
Proof.
  unfold Py.slice_from. simpl (1 <? 0)%Z. cbv iota.
  destruct l as [|x l]; [done|].
  rewrite Z.min_l; [done|]. simpl length. lia.
Qed.

Lemma slice_from_depth (d : Z) l :
  (1 <= d)%Z ->
  Py.slice_from (- (d * 2)) l = drop (length l - Z.to_nat (d * 2)) l.
Proof.
  intros Hd. rewrite <- (slice_from_last_k (Z.to_nat (d * 2))) by lia.
  f_equal. lia.
Qed.

Lemma slice_from_depth_length (d : Z) l :
  (1 <= d)%Z ->
  (Z.of_nat (length (Py.slice_from (- (d * 2)) l)) <= d * 2)%Z.
Proof. intros Hd. rewrite slice_from_depth, length_drop by done. lia. Qed.

(** An entry among the last two survives [l[-(2*d):]] when [d >= 1]. *)
Lemma slice_keeps_recent (d : Z) l i x :
  (1 <= d)%Z -> l !! i = Some x -> length l <= i + 2 ->
  x ∈ Py.slice_from (- (d * 2)) l.
Proof.
  intros Hd Hi Hrecent. rewrite slice_from_depth by done.
  apply list_elem_of_lookup.
  exists (i - (length l - Z.to_nat (d * 2))).
  rewrite lookup_drop, <- Hi. f_equal.
  apply lookup_lt_Some in Hi. lia.
Qed.

Lemma slice_keeps_last (d : Z) l x :
  (1 <= d)%Z -> last l = Some x -> last (Py.slice_from (- (d * 2)) l) = Some x.
Proof.
  intros Hd Hl. rewrite slice_from_depth by done.
  rewrite last_lookup in Hl |- *. rewrite lookup_drop, <- Hl. f_equal.
  apply lookup_lt_Some in Hl. rewrite length_drop. lia.
Qed.

End SliceFacts.

(* ================================================================== *)
(** ** The voice-activity detector *)
(* ================================================================== *)

Module VadFacts.
Import Vad.

Lemma buffer_ok_nil : buffer_ok [].
Proof. split; simpl; [lia | constructor]. Qed.

Lemma silent_tail_no_speech (b : list bool) :
  Forall (fun x => x = false) b -> existsb id b = false.
Proof.
  induction 1 as [|x b Hx _ IH]; [done|].
  simpl. rewrite Hx, IH. done.
Qed.

Lemma update_speech_state_buffer_ok (detected : bool) d :
  buffer_ok (speech_buffer d) ->
  buffer_ok (speech_buffer (update_speech_state detected d)).
Proof.
  intros [Hlen Htail]. unfold update_speech_state.
  set (buf := speech_buffer d ++ [detected]).
  assert (Hbuf : length buf = S (length (speech_buffer d))).
  { unfold buf. rewrite length_app. simpl. lia. }
  destruct detected.
  - destruct (Nat.ltb_spec 3 (length buf)) as [H3|H3]; simpl.
    + split.
      * rewrite (slice_from_last_k_length 3) by lia. lia.
      * rewrite drop_ge; [constructor|].
        rewrite (slice_from_last_k_length 3) by lia. lia.
    + split; [lia|]. rewrite drop_ge by lia. constructor.
  - assert (Htail' : Forall (fun x => x = false) (drop 3 buf)).
    { unfold buf. destruct (Nat.le_gt_cases 3 (length (speech_buffer d))).
      - rewrite drop_app_le by done. apply Forall_app. split; [done|].
        repeat constructor.
      - rewrite drop_ge; [constructor|]. rewrite length_app. simpl. lia. }
    destruct (Nat.ltb_spec 5 (length buf)) as [H5|H5].
    + assert (Hs : Py.slice_from (-3) buf = drop 3 buf).
      { rewrite (slice_from_last_k 3) by lia. f_equal. lia. }
      rewrite Hs, silent_tail_no_speech by done. simpl. apply buffer_ok_nil.
    + simpl. split; [lia | done].
Qed.

Lemma process_audio_buffer_ok st frame :
  buffer_ok (speech_buffer (self st)) ->
  buffer_ok (speech_buffer (self (fst (process_audio st frame)))).
Proof.
  intros Hok. unfold process_audio.
  destruct (raw_decision st frame) as [e|[detected st1]] eqn:Hraw; simpl; [done|].
  apply update_speech_state_buffer_ok.
  unfold raw_decision in Hraw.
  destruct (vad (self st)) as [clf|].
  - destruct (samples_per_frame (self st) =? 0)%Z; [done|].
    destruct (scan_chunks _ _ _ _ _) as [[] k]; inversion Hraw; subst; done.
  - inversion Hraw; subst; done.
Qed.

Lemma process_all_buffer_ok frames : forall st,
  buffer_ok (speech_buffer (self st)) ->
  buffer_ok (speech_buffer (self (fst (process_all st frames)))).
Proof.
  induction frames as [|f rest IH]; intros st Hok; simpl; [done|].
  pose proof (process_audio_buffer_ok st f Hok) as H1.
  destruct (process_audio st f) as [st1 r]. simpl in H1.
  specialize (IH st1 H1).
  destruct (process_all st1 rest) as [st2 rs]. done.
Qed.

Lemma init_buffer_empty available engine rate :
  speech_buffer (self (init available engine rate)) = [].
Proof. unfold init. destruct available, engine; done. Qed.

(** C6. After every [process_audio] call of a detector, whatever frames it
    was fed and whatever the classifier did, the rolling buffer of raw
    decisions holds at most five entries. *)
Theorem C6_speech_buffer_at_most_five :
  forall (available : bool) (engine : option Classifier) (rate : Z)
         (frames : list ndarray),
    length (speech_buffer
              (self (fst (process_all (init available engine rate) frames)))) <= 5.
Proof.
  intros available engine rate frames.
  apply (process_all_buffer_ok frames).
  rewrite init_buffer_empty. apply buffer_ok_nil.
Qed.

(** The attack half of the hysteresis as the code has it: the smoothed
    output rises only on a positive frame that finds at least three entries
    in the buffer, whatever they are. *)
Lemma attack_needs_three_entries (detected : bool) d :
  is_speaking d = false ->
  is_speaking (update_speech_state detected d) = true ->
  detected = true /\ 3 <= length (speech_buffer d).
Proof.
  intros Hoff Hon. unfold update_speech_state in Hon.
  destruct detected.
  - destruct (Nat.ltb_spec 3 (length (speech_buffer d ++ [true]))) as [H3|H3].
    + rewrite length_app in H3. simpl in H3. split; [done|lia].
    + simpl in Hon. congruence.
  - destruct (_ <? _); [destruct (negb _)|]; simpl in Hon; congruence.
Qed.

(** The release half of the hysteresis: the smoothed output falls only on a
    silent frame that finds five entries in the buffer and makes the last
    three all silent. *)
Lemma release_needs_full_silent_buffer (detected : bool) d :
  is_speaking d = true ->
  is_speaking (update_speech_state detected d) = false ->
  detected = false /\ 5 <= length (speech_buffer d)
  /\ existsb id (Py.slice_from (-3) (speech_buffer d ++ [false])) = false.
Proof.
  intros Hon Hoff. unfold update_speech_state in Hoff.
  destruct detected.
  - destruct (_ <? _); simpl in Hoff; congruence.
  - destruct (Nat.ltb_spec 5 (length (speech_buffer d ++ [false]))) as [H5|H5].
    + rewrite length_app in H5. simpl in H5.
      destruct (existsb id _) eqn:He; simpl in Hoff; [congruence|].
      split; [done|]. split; [lia | done].
    + simpl in Hoff. congruence.
Qed.

(** From rest the output rises on the fourth positive frame in a row,
    and falls on the third silent frame after that. *)
Lemma attack_and_release_from_rest :
  snd (smooth (self (init false None 16000))
         [true; true; true; true; false; false; false])
  = [false; false; false; true; true; true; false].
Proof. vm_compute. done. Qed.

(** C1. Three silent frames followed by one speech frame: the smoothed
    output turns true on the fourth call, after a single positive raw
    decision since the last negative one. *)
Theorem C1_one_detection_after_three_silent_frames :
  let st0 := init false None 16000 in
  map (raw_only st0) [silence; silence; silence; loud]
    = [inr false; inr false; inr false; inr true]
  /\ snd (process_all st0 [silence; silence; silence; loud])
    = [inr false; inr false; inr false; inr true]
  /\ snd (smooth (self st0) [false; false; false; true])
    = [false; false; false; true].
Proof. vm_compute. done. Qed.

(** C5. A frame of 480 samples of amplitude 1/1024 has mean absolute
    amplitude below 0.01 on the normalized scale, yet the fallback reports
    speech: the threshold is applied to the samples after their conversion
    to 16-bit values (31 each). *)
Theorem C5_fallback_threshold_on_pcm_scale :
  normalized_energy_detect faint_frame = false
  /\ as_int16 (Float faint_frame) = repeat 31%Z 480
  /\ raw_decision (init false None 16000) (Float faint_frame)
     = inr (true, init false None 16000).
Proof. vm_compute. done. Qed.

End VadFacts.

(* ================================================================== *)
(** ** Strings *)
(* ================================================================== *)

Module PyFacts.
Import Py.

Lemma append_cons (c : ascii) (s t : string) :
  String c s +:+ t = String c (s +:+ t).
Proof. reflexivity. Qed.

Lemma append_nil_l (t : string) : "" +:+ t = t.
Proof. reflexivity. Qed.

Lemma append_nil_r (s : string) : s +:+ "" = s.
Proof.
  induction s as [|c s IH]; [done|]. by rewrite append_cons, IH.
Qed.

Lemma append_assoc (a b c : string) : (a +:+ b) +:+ c = a +:+ (b +:+ c).
Proof.
  induction a as [|x a IH]; [done|]. by rewrite !append_cons, IH.
Qed.

Lemma strip_prefix_sound (p : string) : forall s r,
  strip_prefix p s = Some r -> s = p +:+ r.
Proof.
  induction p as [|a p IH]; intros s r H; simpl in *.
  - by inversion H.
  - destruct s as [|b s]; [done|].
    destruct (Ascii.eqb_spec a b) as [->|]; [|done].
    by rewrite append_cons, (IH _ _ H).
Qed.

Lemma strip_prefix_complete (p r : string) : strip_prefix p (p +:+ r) = Some r.
Proof.
  induction p as [|a p IH]; [done|].
  rewrite append_cons. simpl. by rewrite Ascii.eqb_refl.
Qed.

(** [partition] splits at an occurrence of the separator... *)
Lemma partition_sound (sep : string) : forall s pre post,
  partition sep s = Some (pre, post) -> s = pre +:+ sep +:+ post.
Proof.
  induction s as [|c s IH]; intros pre post H.
  - simpl in H. destruct (strip_prefix sep "") eqn:Hp; [|done].
    inversion H; subst. rewrite append_nil_l. by apply strip_prefix_sound.
  - simpl in H. destruct (strip_prefix sep (String c s)) eqn:Hp.
    + inversion H; subst. rewrite append_nil_l. by apply strip_prefix_sound.
    + destruct (partition sep s) as [[pre' post']|] eqn:Hs; [|done].
      inversion H; subst. rewrite append_cons. f_equal. by apply IH.
Qed.

(** ... and it is the leftmost one: no occurrence starts earlier. *)
Lemma partition_leftmost (sep : string) : forall s pre post,
  partition sep s = Some (pre, post) ->
  forall pre' post', s = pre' +:+ sep +:+ post' ->
    String.length pre <= String.length pre'.
Proof.
  induction s as [|c s IH]; intros pre post H pre' post' Hocc.
  - simpl in H. destruct (strip_prefix sep ""); [|done].
    inversion H; subst. simpl. lia.
  - simpl in H. destruct (strip_prefix sep (String c s)) eqn:Hp.
    + inversion H; subst. simpl. lia.
    + destruct (partition sep s) as [[p1 q1]|] eqn:Hs; [|done].
      inversion H; subst.
      destruct pre' as [|c' pre'].
      * rewrite append_nil_l in Hocc.
        rewrite Hocc, strip_prefix_complete in Hp. done.
      * rewrite append_cons in Hocc. inversion Hocc; subst. simpl.
        apply le_n_S. by eapply IH.
Qed.

Lemma partition_unfold (sep s : string) :
  partition sep s =
  match strip_prefix sep s with
  | Some post => Some ("", post)
  | None =>
      match s with
      | "" => None
      | String c r =>
          match partition sep r with
          | Some (pre, post) => Some (String c pre, post)
          | None => None
          end
      end
  end.
Proof. destruct s; reflexivity. Qed.

(** [sub in s] holds exactly when [s] has an occurrence of [sub]. *)
Lemma partition_complete (sep : string) : forall pre post,
  exists pre' post', partition sep (pre +:+ sep +:+ post) = Some (pre', post').
Proof.
  induction pre as [|c pre IH]; intros post.
  - rewrite append_nil_l, partition_unfold, strip_prefix_complete.
    by eexists _, _.
  - destruct (IH post) as (p1 & q1 & H1).
    rewrite append_cons.
    destruct (partition sep (String c (pre +:+ sep +:+ post))) as [[p q]|] eqn:H.
    + by eexists _, _.
    + exfalso. simpl in H.
      destruct (strip_prefix sep (String c (pre +:+ sep +:+ post))); [done|].
      rewrite H1 in H. done.
Qed.

Lemma contains_spec (sub s : string) :
  contains sub s = true <-> exists pre post, s = pre +:+ sub +:+ post.
Proof.
  unfold contains. split.
  - destruct (partition sub s) as [[pre post]|] eqn:H; [|done].
    intros _. exists pre, post. by apply partition_sound.
  - intros (pre & post & ->).
    destruct (partition_complete sub pre post) as (p & q & ->). done.
Qed.

Lemma blank_app (a b : string) : blank (a +:+ b) = blank a && blank b.
Proof.
  induction a as [|c a IH]; [done|].
  rewrite append_cons. simpl. rewrite IH. by rewrite andb_assoc.
Qed.

Lemma isspace_lower_char (c : ascii) : isspace (lower_char c) = isspace c.
Proof. destruct c as [[] [] [] [] [] [] [] []]; vm_compute; reflexivity. Qed.

Lemma blank_lower (s : string) : blank (lower s) = blank s.
Proof.
  induction s as [|c s IH]; simpl; [done|].
  unfold lower in IH. by rewrite isspace_lower_char, IH.
Qed.

Lemma contains_not_blank (sub s : string) :
  blank sub = false -> contains sub s = true -> blank s = false.
Proof.
  intros Hsub (pre & post & ->)%contains_spec.
  rewrite !blank_app, Hsub. by rewrite andb_false_r.
Qed.

Lemma blank_split (s : string) : blank s = true -> split s = [].
Proof.
  induction s as [|c s IH]; simpl; [done|].
  intros [Hc Hs]%andb_true_iff. rewrite Hc. by apply IH.
Qed.

Lemma split_nil_blank (s : string) : split s = [] -> blank s = true.
Proof.
  induction s as [|c s IH]; simpl; [done|].
  destruct (isspace c); simpl; [done|].
  destruct s as [|d s]; [done|].
  destruct (isspace d); [done|].
  destruct (split (String d s)); done.
Qed.

(** [blank s] is Python's [not s.strip()]. *)
Lemma lstrip_blank (s : string) : blank s = true -> lstrip_by isspace s = "".
Proof.
  induction s as [|c s IH]; simpl; [done|].
  intros [Hc Hs]%andb_true_iff. rewrite Hc. by apply IH.
Qed.

Lemma lstrip_not_blank (s : string) :
  blank s = false ->
  exists c r, lstrip_by isspace s = String c r /\ isspace c = false.
Proof.
  induction s as [|c s IH]; simpl; [done|].
  destruct (isspace c) eqn:Hc; simpl; [done|].
  intros _. by exists c, s.
Qed.

Lemma blank_strip (s : string) : blank s = String.eqb (strip s) "".
Proof.
  unfold strip. destruct (blank s) eqn:Hb.
  - by rewrite lstrip_blank.
  - destruct (lstrip_not_blank s Hb) as (c & r & -> & Hc). simpl.
    rewrite Hc. by destruct (rstrip_by isspace r).
Qed.

(** [endswith] and [drop_last] on a trailing character. *)
Lemma endswith_spec (p s : string) :
  endswith p s = true <-> exists a, s = a +:+ p.
Proof.
  induction s as [|c s IH]; simpl.
  - rewrite orb_false_r. split.
    + intros ->%String.eqb_eq. by exists "".
    + intros [a Ha]. destruct a; [|done].
      rewrite append_nil_l in Ha. subst. apply String.eqb_refl.
  - rewrite orb_true_iff, IH. split.
    + intros [->%String.eqb_eq|[a ->]]; [by exists ""|].
      by exists (String c a).
    + intros [a Ha]. destruct a as [|d a].
      * left. rewrite append_nil_l in Ha. subst. apply String.eqb_refl.
      * right. rewrite append_cons in Ha. inversion Ha; subst. by exists a.
Qed.

Lemma drop_last_snoc (a : string) (c : ascii) :
  drop_last (a +:+ String c "") = a.
Proof.
  induction a as [|d a IH]; [done|].
  rewrite append_cons. simpl. rewrite IH.
  destruct a; reflexivity.
Qed.

End PyFacts.

(* ================================================================== *)
(** ** The conversation manager and the orchestrator *)
(* ================================================================== *)

Module BrainFacts.
Import Brain.

(** *** Frames *)

Section Frames.

Context {X : Type} (f : World -> X).

Lemma preserves_ret {A} (a : A) : preserves f (ret a).
Proof. done. Qed.

Lemma preserves_raise {A} (e : exn) : preserves f (raise (A:=A) e).
Proof. done. Qed.

Lemma preserves_bind {A B} (m : M A) (k : A -> M B) :
  preserves f m -> (forall a, preserves f (k a)) -> preserves f (bind m k).
Proof.
  intros Hm Hk w. unfold bind. specialize (Hm w).
  destruct (m w) as [[e|a] w1]; simpl in *; [done|].
  by rewrite Hk.
Qed.

Lemma preserves_try_catch {A} (m : M A) (h : exn -> M A) :
  preserves f m -> (forall e, preserves f (h e)) -> preserves f (try_catch m h).
Proof.
  intros Hm Hh w. unfold try_catch. specialize (Hm w).
  destruct (m w) as [[e|a] w1]; simpl in *; [|done].
  by rewrite Hh.
Qed.

Lemma preserves_through {Y A} (g : X -> Y) (m : M A) :
  preserves f m -> preserves (fun w => g (f w)) m.
Proof. intros Hm w. by rewrite Hm. Qed.

End Frames.

Ltac frame_step :=
  match goal with
  | |- preserves _ (bind _ _) => apply preserves_bind; [|intros ?]
  | |- preserves _ (try_catch _ _) => apply preserves_try_catch; [|intros ?]
  | |- preserves _ (ret _) => apply preserves_ret
  | |- preserves _ (raise _) => apply preserves_raise
  | |- preserves _ (if ?b then _ else _) => destruct b
  | |- preserves _ (match ?x with _ => _ end) => destruct x
  end.

Ltac frame_leaf :=
  try (intros w;
       cbv [random_random random_choice datetime_now get_conversation
            set_conversation modify_conversation bind ret raise];
       simpl;
       repeat (match goal with
               | |- context [match ?x with _ => _ end] => destruct x
               end; simpl);
       reflexivity).

Ltac frame := repeat frame_step; frame_leaf.

(** *** Invariants carried along a run *)

Lemma establishes_bind {A B} (P Q R : World -> Prop) (m : M A) (k : A -> M B) :
  establishes P Q m -> (forall w, Q w -> R w) ->
  (forall a, establishes Q R (k a)) -> establishes P R (bind m k).
Proof.
  intros Hm HQR Hk w HP. unfold bind. specialize (Hm w HP).
  destruct (m w) as [[e|a] w1]; simpl in *; [by apply HQR|].
  by apply Hk.
Qed.

Lemma establishes_try_catch {A} (P Q R : World -> Prop) (m : M A)
    (h : exn -> M A) :
  establishes P Q m -> (forall w, Q w -> R w) ->
  (forall e, establishes Q R (h e)) -> establishes P R (try_catch m h).
Proof.
  intros Hm HQR Hh w HP. unfold try_catch. specialize (Hm w HP).
  destruct (m w) as [[e|a] w1]; simpl in *; [by apply Hh|by apply HQR].
Qed.

Lemma establishes_frame {A} (P : Z * list Message -> Prop) (m : M A) :
  preserves bounds m ->
  establishes (fun w => P (bounds w)) (fun w => P (bounds w)) m.
Proof. intros Hm w HP. by rewrite Hm. Qed.

(** *** Runs that return *)

Lemma returns_ret {A} (a : A) : returns (ret a).
Proof. intros w. by eexists _, _. Qed.

Lemma returns_bind {A B} (m : M A) (k : A -> M B) :
  returns m -> (forall a, returns (k a)) -> returns (bind m k).
Proof.
  intros Hm Hk w. unfold bind.
  destruct (Hm w) as (a & w1 & ->). apply Hk.
Qed.

Lemma bind_ret {A B} (a : A) (k : A -> M B) : bind (ret a) k = k a.
Proof. reflexivity. Qed.

Section Runs.

Variable env : Env.

Lemma returns_draw {B} (k : Q -> M B) :
  (forall n, returns (k (random env n))) -> returns (bind (random_random env) k).
Proof. intros Hk w. unfold bind, random_random. apply Hk. Qed.

Lemma returns_choice {A} (l : list A) : l <> [] -> returns (random_choice env l).
Proof.
  intros Hl w. unfold random_choice.
  destruct (lookup_lt_is_Some_2 l (choice_index env (n_choice w) mod length l))
    as [x ->]; [|by eexists _, _].
  apply Nat.mod_upper_bound. by destruct l.
Qed.

Lemma trait_emotions :
  trait "EMOTIONS"
  = ret ["angry"; "disust"; "fear"; "joy"; "sadness"; "surprise"; "neutral"].
Proof. reflexivity. Qed.

Lemma get_random_emotion_returns emotion_type :
  returns (get_random_emotion env emotion_type).
Proof.
  unfold get_random_emotion. rewrite trait_emotions, bind_ret.
  destruct (bool_decide _); [apply returns_ret | by apply returns_choice].
Qed.

Lemma calm_not_below (x : Q) (a b : positive) :
  (1 # 10 <= x)%Q -> (Z.pos a * 10 <= Z.pos b)%Z ->
  Qlt_bool x (Z.pos a # b) = false.
Proof.
  intros Hx Hab. unfold Qlt_bool. apply negb_false_iff, Qle_bool_iff.
  apply Qle_trans with (1 # 10)%Q; [|done].
  unfold Qle. simpl. lia.
Qed.

(** The humanizer: what it leaves alone, and when it returns. *)
Lemma humanize_text_conversation text emotion :
  preserves conversation (humanize_text env text emotion).
Proof. unfold humanize_text, get_random_emotion, trait. frame. Qed.

Lemma humanize_text_thoughts_log text emotion :
  preserves ai_thoughts_log (humanize_text env text emotion).
Proof. unfold humanize_text, get_random_emotion, trait. frame. Qed.

Lemma humanize_text_returns text emotion :
  calm_draws env -> returns (humanize_text env text emotion).
Proof.
  intros Hcalm. unfold humanize_text.
  destruct (Py.blank text); [apply returns_ret|].
  apply returns_draw. intros n1.
  rewrite (calm_not_below _ 1 10) by (done || lia). cbv iota. rewrite bind_ret.
  apply returns_draw. intros n2.
  rewrite (calm_not_below _ 5 100) by (done || lia).
  simpl andb. cbv iota. rewrite bind_ret.
  apply returns_draw. intros n3.
  rewrite (calm_not_below _ 5 100) by (done || lia).
  simpl andb. cbv iota. rewrite bind_ret.
  apply returns_draw. intros n4.
  destruct (Qlt_bool _ _); [|apply returns_ret].
  apply returns_bind; [apply get_random_emotion_returns|].
  intros emoji. destruct (String.eqb emoji ""); apply returns_ret.
Qed.

(** The handlers leave the conversation alone. *)
Lemma get_random_emotion_conversation emotion :
  preserves conversation (get_random_emotion env emotion).
Proof. unfold get_random_emotion, trait. frame. Qed.

Lemma log_error_conversation ty e :
  preserves conversation (log_error env ty e).
Proof. unfold log_error. frame. Qed.

Lemma handle_conversation e : preserves conversation (handle env e).
Proof.
  unfold handle.
  destruct (exn_cls e); repeat frame_step;
    auto using humanize_text_conversation, get_random_emotion_conversation,
               log_error_conversation.
Qed.

Lemma extract_response_conversation raw :
  preserves conversation (extract_response env raw).
Proof. unfold extract_response, write_thoughts, index. frame. Qed.

(** *** [_update_conversation_meta] *)

Lemma meta_bounds content role :
  preserves bounds (_update_conversation_meta env content role).
Proof. unfold _update_conversation_meta, index, bounds, depth, history. frame. Qed.

Lemma meta_run content role w :
  _update_conversation_meta env content role w =
  (if String.eqb role "user" then
    if Py.contains "my name is " (Py.lower content) then
      after <- index (Py.split1 "my name is " content) 1 ;;
      token <- index (Py.split after) 0 ;;
      let name_part := Py.rstrip_chars ".,!?" token in
      if negb (String.eqb name_part "") && (1 <? String.length name_part)
      then modify_conversation (with_name name_part)
      else ret tt
    else ret tt
  else ret tt) (meta_base env w).
Proof.
  unfold _update_conversation_meta, meta_base, bind, datetime_now,
    get_conversation, modify_conversation, set_conversation, bind, ret.
  simpl. destruct (one_hour <? _)%Z; reflexivity.
Qed.

Lemma meta_returns_without_phrase content role w :
  String.eqb role "user" && Py.contains "my name is " (Py.lower content) = false ->
  _update_conversation_meta env content role w = (inr tt, meta_base env w).
Proof.
  intros H. rewrite meta_run.
  destruct (String.eqb role "user"); [|done].
  simpl in H. by rewrite H.
Qed.

Lemma meta_raises content w :
  Py.contains "my name is " (Py.lower content) = true ->
  (Py.contains "my name is " content = false
   \/ exists pre post, Py.partition "my name is " content = Some (pre, post)
                       /\ Py.blank post = true) ->
  _update_conversation_meta env content "user" w =
  (inl (Exn IndexError "list index out of range"), meta_base env w).
Proof.
  intros Hlow Hcase. rewrite meta_run.
  change (String.eqb "user" "user") with true. cbv iota. rewrite Hlow.
  unfold Py.split1, Py.contains in *.
  destruct Hcase as [Hno|(pre & post & Hp & Hb)].
  - destruct (Py.partition "my name is " content) as [[? ?]|]; done.
  - rewrite Hp. unfold bind, index. simpl.
    by rewrite (PyFacts.blank_split _ Hb).
Qed.

(** With the exact phrase and a token after it, the token less its
    trailing punctuation becomes the name when it has two characters or
    more. *)
Lemma meta_extracts content w pre post token rest :
  Py.contains "my name is " (Py.lower content) = true ->
  Py.partition "my name is " content = Some (pre, post) ->
  Py.split post = token :: rest ->
  let name_part := Py.rstrip_chars ".,!?" token in
  _update_conversation_meta env content "user" w =
  (inr tt,
   if negb (String.eqb name_part "") && (1 <? String.length name_part)
   then snd (modify_conversation (with_name name_part) (meta_base env w))
   else meta_base env w).
Proof.
  intros Hlow Hp Hs name_part. rewrite meta_run.
  change (String.eqb "user" "user") with true. cbv iota. rewrite Hlow.
  unfold Py.split1. rewrite Hp. unfold bind at 1. unfold index at 1. simpl.
  rewrite Hs. unfold bind, index. simpl. fold name_part.
  destruct (negb _ && _); reflexivity.
Qed.

(** *** [add_message] *)

Lemma add_message_unfold role content emotion :
  add_message env role content emotion =
  if Py.blank content then ret tt
  else
    c <- get_conversation ;;
    content <- (if String.eqb role "assistant"
                   && negb (Py.startswith "[THOUGHTS:" content)
                then humanize_text env content (conversation_mood c)
                else ret content) ;;
    append_and_update env role content emotion.
Proof. reflexivity. Qed.

Lemma add_message_run role content emotion w :
  add_message env role content emotion w =
  if Py.blank content then (inr tt, w)
  else if String.eqb role "assistant" && negb (Py.startswith "[THOUGHTS:" content)
  then match humanize_text env content (conversation_mood (conversation w)) w with
       | (inl e, w1) => (inl e, w1)
       | (inr content', w1) => append_and_update env role content' emotion w1
       end
  else append_and_update env role content emotion w.
Proof.
  rewrite add_message_unfold.
  destruct (Py.blank content); [done|].
  unfold bind, get_conversation. destruct (_ && _); reflexivity.
Qed.

Lemma append_and_update_run role content emotion w :
  append_and_update env role content emotion w =
  bind (_update_conversation_meta env content role) (fun _ => truncate)
       (appended env role content emotion w).
Proof. reflexivity. Qed.

Lemma truncate_run w :
  history w <> [] ->
  exists w', truncate w = (inr tt, w') /\ depth w' = depth w /\
    user_name (conversation w') = user_name (conversation w) /\
    user_preferences (conversation w') = user_preferences (conversation w) /\
    ((history w' = history w
      /\ (Z.of_nat (length (history w)) <= depth w * 2 + 1)%Z)
     \/ ((depth w * 2 + 1 < Z.of_nat (length (history w)))%Z /\
         history w' = take 1 (history w)
                      ++ Py.slice_from (- (depth w * 2)) (history w))).
Proof.
  intros Hne. unfold truncate, bind, get_conversation. cbv beta iota zeta.
  change (conversation_history (conversation w)) with (history w).
  change (max_history (conversation w)) with (depth w).
  destruct (Z.ltb_spec (depth w * 2 + 1) (Z.of_nat (length (history w))))
    as [Hlt|Hge].
  - unfold index. destruct (history w) as [|first rest] eqn:Eh; [done|].
    simpl. eexists. split; [reflexivity|]. simpl. auto 10.
  - eexists. split; [reflexivity|]. auto 10.
Qed.

(** The history after the append (and the truncation, when it runs). *)
Lemma append_and_update_history role content emotion w :
  let r := append_and_update env role content emotion w in
  let h1 := history w ++ [new_message env role content emotion w] in
  depth (snd r) = depth w /\
  ((history (snd r) = h1
    /\ (fst r = inr tt -> (Z.of_nat (length h1) <= depth w * 2 + 1)%Z))
   \/ (fst r = inr tt /\ (depth w * 2 + 1 < Z.of_nat (length h1))%Z /\
       history (snd r) = take 1 h1 ++ Py.slice_from (- (depth w * 2)) h1)).
Proof.
  intros r h1. subst r. rewrite append_and_update_run. unfold bind.
  set (w1 := appended env role content emotion w).
  assert (Hb1 : bounds w1 = (depth w, h1)) by done.
  pose proof (meta_bounds content role w1) as Hb.
  destruct (_update_conversation_meta env content role w1) as [[e|[]] w2];
    simpl in Hb; rewrite Hb1 in Hb; injection Hb as Hd Hh.
  - simpl. split; [done|]. left. split; [done|]. discriminate.
  - destruct (truncate_run w2) as (w3 & -> & Hd3 & _ & _ & Hh3).
    { rewrite Hh. unfold h1. by destruct (history w). }
    simpl. rewrite Hd3, Hd. split; [done|].
    rewrite Hh, Hd in Hh3. destruct Hh3 as [[-> Hle]|[Hlt ->]]; auto.
Qed.

Lemma append_and_update_returns role content emotion :
  String.eqb role "user" && Py.contains "my name is " (Py.lower content) = false ->
  returns (append_and_update env role content emotion).
Proof.
  intros H w. rewrite append_and_update_run. unfold bind.
  set (w1 := appended env role content emotion w).
  rewrite meta_returns_without_phrase by done.
  destruct (truncate_run (meta_base env w1)) as (w3 & -> & _).
  - unfold meta_base, w1, appended, history. simpl.
    destruct (one_hour <? _)%Z; simpl;
      by destruct (conversation_history (conversation w)).
  - by eexists _, _.
Qed.

Lemma add_message_returns role content emotion :
  calm_draws env ->
  String.eqb role "user" && Py.contains "my name is " (Py.lower content) = false ->
  returns (add_message env role content emotion).
Proof.
  intros Hcalm Hname. rewrite add_message_unfold.
  destruct (Py.blank content); [apply returns_ret|].
  apply returns_bind; [intros w; by eexists _, _|]. intros c.
  destruct (String.eqb_spec role "assistant") as [->|Hrole]; simpl andb.
  - destruct (negb _); cbv iota.
    + apply returns_bind; [by apply humanize_text_returns|].
      intros content'. by apply append_and_update_returns.
    + rewrite bind_ret. by apply append_and_update_returns.
  - cbv iota. rewrite bind_ret. by apply append_and_update_returns.
Qed.

Lemma add_message_thoughts_log role content emotion :
  preserves ai_thoughts_log (add_message env role content emotion).
Proof.
  unfold add_message, _update_conversation_meta, humanize_text,
    get_random_emotion, trait, index.
  frame.
Qed.

(** Every outcome of [add_message] on the history: untouched (blank
    content, or the humanizer raised), grown by one message, or grown and
    then cut back to the first message and the most recent entries. *)
Lemma add_message_history role content emotion w :
  let r := add_message env role content emotion w in
  depth (snd r) = depth w /\
  (history (snd r) = history w
   \/ exists msg,
        let h1 := history w ++ [msg] in
        (history (snd r) = h1
         /\ (fst r = inr tt -> (Z.of_nat (length h1) <= depth w * 2 + 1)%Z))
        \/ (fst r = inr tt /\ (depth w * 2 + 1 < Z.of_nat (length h1))%Z /\
            history (snd r) = take 1 h1 ++ Py.slice_from (- (depth w * 2)) h1)).
Proof.
  intros r. subst r. rewrite add_message_run.
  destruct (Py.blank content); [by auto|].
  destruct (_ && _).
  - pose proof (humanize_text_conversation content
                  (conversation_mood (conversation w)) w) as Hc.
    destruct (humanize_text env content _ w) as [[e|content'] w1]; simpl in Hc.
    + simpl. unfold depth, history. rewrite Hc. auto.
    + destruct (append_and_update_history role content' emotion w1) as [Hd Hh].
      unfold depth, history in *. rewrite Hc in *. split; [done|].
      right. eexists. exact Hh.
  - destruct (append_and_update_history role content emotion w) as [Hd Hh].
    split; [done|]. right. eexists. exact Hh.
Qed.

(** A user message is appended as is, with the mood of the moment. *)
Lemma add_message_user_last content emotion w :
  Py.blank content = false -> (1 <= depth w)%Z ->
  latest (new_message env "user" content emotion w)
         (snd (add_message env "user" content emotion w)).
Proof.
  intros Hb Hd. rewrite add_message_run, Hb.
  change (String.eqb "user" "assistant") with false. simpl andb. cbv iota.
  destruct (append_and_update_history "user" content emotion w) as [Hd' Hh].
  split; [by rewrite Hd'|].
  destruct Hh as [[-> _]|(_ & _ & ->)].
  - apply last_snoc.
  - rewrite last_app,
      slice_keeps_last with (x := new_message env "user" content emotion w);
      [done | done | apply last_snoc].
Qed.

(** With a depth of at least one, the latest message survives the next
    [add_message]. *)
Lemma add_message_keeps_latest role content emotion m :
  establishes (latest m) (recorded m) (add_message env role content emotion).
Proof.
  intros w [Hd Hm]. unfold recorded.
  destruct (add_message_history role content emotion w) as [_ Hh].
  assert (Hin : m ∈ history w) by by apply last_Some_elem_of.
  destruct Hh as [->|(msg & [[-> _]|(_ & _ & ->)])].
  - done.
  - apply elem_of_app. by left.
  - apply elem_of_app. right.
    apply last_Some in Hm as [l' Hl'].
    apply (slice_keeps_recent _ _ (length l')); [done| |].
    + rewrite Hl', <- app_assoc. by apply list_lookup_middle.
    + rewrite Hl', !length_app. simpl. lia.
Qed.

(** The first message of a history is never removed or replaced. *)
Lemma add_message_keeps_head role content emotion w :
  history w <> [] ->
  head (history (snd (add_message env role content emotion w))) = head (history w)
  /\ history (snd (add_message env role content emotion w)) <> [].
Proof.
  intros Hne.
  destruct (add_message_history role content emotion w) as [_ Hh].
  destruct (history w) as [|first rest] eqn:Eh; [done|].
  destruct Hh as [->|(msg & [[-> _]|(_ & _ & ->)])]; done.
Qed.

(** A call that returns leaves a bounded history behind. *)
Lemma add_message_bounded_on_return role content emotion w :
  (1 <= depth w)%Z ->
  (Z.of_nat (length (history w)) <= depth w * 2 + 1)%Z ->
  fst (add_message env role content emotion w) = inr tt ->
  (Z.of_nat (length (history (snd (add_message env role content emotion w))))
   <= depth w * 2 + 1)%Z.
Proof.
  intros Hd Hbound Hret.
  destruct (add_message_history role content emotion w) as [_ Hh].
  destruct Hh as [->|(msg & [[-> Hle]|(_ & _ & ->)])]; [done|by apply Hle|].
  rewrite length_app, length_take.
  pose proof (slice_from_depth_length (depth w) (history w ++ [msg]) Hd). lia.
Qed.

(** *** Construction and persistence *)

Lemma boot_history mh file :
  history (boot env mh file) =
  system_message ::
    match file with
    | Saved saved_history => Py.slice_from (- (mh * 2)) saved_history
    | Absent | Unreadable => []
    end.
Proof. by destruct file. Qed.

Lemma boot_depth mh file : depth (boot env mh file) = mh.
Proof. by destruct file. Qed.

Lemma boot_bounded mh file :
  (1 <= mh)%Z ->
  (Z.of_nat (length (history (boot env mh file))) <= mh * 2 + 1)%Z.
Proof.
  intros Hmh. rewrite boot_history. destruct file; simpl length; try lia.
  pose proof (slice_from_depth_length mh records Hmh). lia.
Qed.

(** Saving and constructing afresh with a depth of at least one: the
    system message, then the most recent [2 * mh] of what followed the
    first entry of the saved history, in order. *)
Lemma save_then_restore mh w :
  history_file_writable env = true ->
  history (save_and_reload env mh w)
  = system_message :: Py.slice_from (- (mh * 2)) (drop 1 (history w)).
Proof.
  intros Hw. unfold save_and_reload, save_conversation. rewrite Hw.
  rewrite boot_history. simpl. by rewrite slice_from_one.
Qed.

(** *** The THOUGHTS/RESPONSE payload *)

Lemma extract_response_structured raw a t p r w :
  Py.partition "[THOUGHTS:" raw = Some (a, t) ->
  Py.partition "[RESPONSE:" raw = Some (p, r) ->
  extract_response env raw w
  = (inr (reply_of r), log_thought env (thought_of t) w).
Proof.
  intros HT HR. unfold extract_response, Py.contains, Py.split1.
  rewrite HT, HR. simpl andb. cbv iota.
  unfold try_catch, bind, index, write_thoughts, log_thought, thought_of, reply_of.
  simpl.
  destruct (Py.partition "]" t) as [[inner rest]|]; simpl;
    destruct (String.eqb _ ""); simpl; try reflexivity;
    destruct (thoughts_log_writable env); reflexivity.
Qed.

Lemma extract_response_plain raw w :
  Py.contains "[THOUGHTS:" raw && Py.contains "[RESPONSE:" raw = false ->
  extract_response env raw w = (inr raw, w).
Proof. intros H. unfold extract_response. by rewrite H. Qed.

Lemma extract_response_returns raw : returns (extract_response env raw).
Proof.
  intros w.
  destruct (Py.contains "[THOUGHTS:" raw && Py.contains "[RESPONSE:" raw) eqn:H.
  - apply andb_true_iff in H as [HT HR]. unfold Py.contains in HT, HR.
    destruct (Py.partition "[THOUGHTS:" raw) as [[a t]|] eqn:ET; [|done].
    destruct (Py.partition "[RESPONSE:" raw) as [[p r]|] eqn:ER; [|done].
    rewrite (extract_response_structured _ _ _ _ _ _ ET ER). by eexists _, _.
  - rewrite extract_response_plain by done. by eexists _, _.
Qed.

(** *** [get_response] *)

(** [get_response] assigns the mood, then appends the user message, then
    does the rest. *)
Lemma get_response_unfold user_text answer w :
  get_response env user_text answer w =
  try_catch
    (add_message env "user" user_text None ;;
     after_user_message env (_analyze_sentiment user_text) answer)
    (handle env)
    (assign_mood (_analyze_sentiment user_text) w).
Proof. reflexivity. Qed.

(** With calm draws and no name phrase, a non-blank reply goes through:
    the value returned is what [extract_response] made of it, and nothing
    else writes to the thoughts log. *)
Lemma get_response_reply user_text raw w :
  calm_draws env ->
  Py.contains "my name is " (Py.lower user_text) = false ->
  Py.blank raw = false ->
  exists w1 w',
    ai_thoughts_log w1 = ai_thoughts_log w /\
    get_response env user_text (Reply raw) w
      = (fst (extract_response env raw w1), w') /\
    ai_thoughts_log w' = ai_thoughts_log (snd (extract_response env raw w1)).
Proof.
  intros Hcalm Hname Hraw. rewrite get_response_unfold.
  set (s := _analyze_sentiment user_text). unfold try_catch.
  unfold bind at 1.
  pose proof (add_message_thoughts_log "user" user_text None (assign_mood s w))
    as Hlog1.
  destruct (add_message_returns "user" user_text None Hcalm
              ltac:(by rewrite Hname) (assign_mood s w)) as ([] & w1 & Hw1).
  rewrite Hw1 in Hlog1 |- *. simpl in Hlog1.
  exists (tick w1).
  unfold after_user_message. unfold bind at 1. unfold datetime_now at 1.
  fold (tick w1). rewrite Hraw. unfold bind at 1. unfold ret at 1.
  unfold bind at 1.
  destruct (extract_response_returns raw (tick w1)) as (ai & w3 & Hw3).
  rewrite Hw3. unfold bind at 1. unfold get_conversation at 1.
  unfold bind at 1.
  set (topic := if 3 <? length (conversation_history (conversation w3))
                then _ else _).
  assert (Htopic : exists w4, topic w3 = (inr tt, w4)
                              /\ ai_thoughts_log w4 = ai_thoughts_log w3).
  { unfold topic. destruct (3 <? _); by eexists. }
  destruct Htopic as (w4 & -> & Hlog4).
  unfold bind at 1.
  pose proof (add_message_thoughts_log "assistant" ai (Some s) w4) as Hlog5.
  destruct (add_message_returns "assistant" ai (Some s) Hcalm
              ltac:(done) w4) as ([] & w5 & Hw5).
  rewrite Hw5 in Hlog5 |- *. simpl in Hlog5.
  exists w5. simpl. split; [done|]. split; [done|]. congruence.
Qed.

(** Once the user message is the latest entry, it is still in the history
    when [get_response] is over, however the rest goes. *)
Lemma after_user_message_keeps_latest sentiment answer m :
  establishes (latest m) (recorded m) (after_user_message env sentiment answer).
Proof.
  assert (Hweak : forall w, latest m w -> recorded m w).
  { intros w [_ Hm]. by apply last_Some_elem_of. }
  assert (Hframe : forall A (c : M A), preserves bounds c ->
                                       establishes (latest m) (latest m) c).
  { intros A c Hc.
    apply (establishes_frame
             (fun b => (1 <= b.1)%Z /\ last b.2 = Some m) c Hc). }
  unfold after_user_message.
  apply establishes_bind with (Q := latest m); [apply Hframe; frame|done|].
  intros _.
  apply establishes_bind with (Q := latest m); [|done|].
  { apply Hframe. destruct answer as [text| |e]; [destruct (Py.blank text)| |];
      frame. }
  intros ai0.
  apply establishes_bind with (Q := latest m); [|done|].
  { apply Hframe.
    apply (preserves_through conversation
             (fun c => (max_history c, conversation_history c))).
    apply extract_response_conversation. }
  intros ai.
  apply establishes_bind with (Q := latest m); [apply Hframe; frame|done|].
  intros c.
  apply establishes_bind with (Q := latest m); [|done|].
  { apply Hframe. destruct (3 <? _); frame. }
  intros _.
  apply establishes_bind with (Q := recorded m);
    [apply add_message_keeps_latest|done|].
  intros _ w Hw. exact Hw.
Qed.

Lemma get_response_records_user_message user_text answer w :
  Py.blank user_text = false -> (1 <= depth w)%Z ->
  recorded (mkMessage "user" user_text (Some (now env (n_now w)))
                      (Some (_analyze_sentiment user_text)))
           (snd (get_response env user_text answer w)).
Proof.
  intros Hb Hd. rewrite get_response_unfold.
  set (s := _analyze_sentiment user_text).
  set (m := mkMessage _ _ _ _).
  apply (establishes_try_catch (fun w0 => w0 = assign_mood s w)
                               (recorded m) (recorded m)); [| done | | done].
  - apply establishes_bind with (Q := latest m).
    + intros w0 ->.
      apply (add_message_user_last user_text None (assign_mood s w) Hb Hd).
    + intros w0 [_ Hm]. by apply last_Some_elem_of.
    + intros _. apply after_user_message_keeps_latest.
  - intros e w0 Hw0. unfold recorded, history in *.
    by rewrite handle_conversation.
Qed.

(** With calm draws every handler returns its apology, and so does
    [get_response]. *)
Lemma log_error_returns ty e : returns (log_error env ty e).
Proof.
  intros w. unfold log_error, bind, datetime_now.
  destruct (error_log_writable env); by eexists _, _.
Qed.

Lemma handle_returns e : calm_draws env -> returns (handle env e).
Proof.
  intros Hcalm. unfold handle.
  destruct (exn_cls e);
    (apply returns_bind; [apply get_random_emotion_returns|]; intros emo;
     apply returns_bind; [apply log_error_returns|]; intros _;
     by apply humanize_text_returns).
Qed.

Lemma get_response_returns_when_calm user_text answer :
  calm_draws env -> returns (get_response env user_text answer).
Proof.
  intros Hcalm w. unfold get_response, try_catch.
  destruct (respond env user_text answer w) as [[e|s] w1];
    [by apply handle_returns | by eexists _, _].
Qed.

End Runs.

(** *** Sentiment *)

Lemma positive_words_list : positive_words = list_to_set positive_list.
Proof. vm_compute. reflexivity. Qed.

Lemma negative_words_list : negative_words = list_to_set negative_list.
Proof. vm_compute. reflexivity. Qed.

(** The size of the intersection counts the vocabulary words that occur
    among the tokens, each once. *)
Lemma size_intersection_count (tokens vocabulary : list string) :
  NoDup vocabulary ->
  size ((list_to_set tokens : gset string) ∩ list_to_set vocabulary)
  = distinct_count vocabulary tokens.
Proof.
  unfold distinct_count. induction 1 as [|v vs Hv Hnd IH].
  - simpl. rewrite intersection_empty_r_L. apply size_empty.
  - rewrite list_to_set_cons, filter_cons.
    assert (Hsplit : (list_to_set tokens : gset string) ∩ ({[v]} ∪ list_to_set vs)
                     = (list_to_set tokens ∩ {[v]})
                       ∪ (list_to_set tokens ∩ list_to_set vs))
      by set_solver.
    rewrite Hsplit, size_union by set_solver. rewrite IH.
    destruct (decide (v ∈ tokens)) as [Hin|Hout].
    + assert (Hone : (list_to_set tokens : gset string) ∩ {[v]} = {[v]})
        by set_solver.
      rewrite Hone, size_singleton. done.
    + assert (Hnone : (list_to_set tokens : gset string) ∩ {[v]} = ∅)
        by set_solver.
      rewrite Hnone, size_empty. done.
Qed.

Lemma vocabularies_NoDup : NoDup positive_list /\ NoDup negative_list.
Proof. split; apply (bool_decide_unpack _); vm_compute; exact I. Qed.

Lemma sentiment_counts (text : string) :
  let tokens := Py.split (Py.lower text) in
  let pos := distinct_count positive_list tokens in
  let neg := distinct_count negative_list tokens in
  _analyze_sentiment text =
  if neg + 1 <? pos then "happy"
  else if pos + 1 <? neg then "concerned" else "neutral".
Proof.
  intros tokens pos neg. unfold _analyze_sentiment.
  rewrite positive_words_list, negative_words_list.
  destruct vocabularies_NoDup as [Hp Hn].
  by rewrite !size_intersection_count.
Qed.

(** *** Sequences of calls *)

Lemma add_messages_keep_system_message env calls : forall w,
  head (history w) = Some system_message ->
  head (history (snd (add_messages env calls w))) = Some system_message.
Proof.
  induction calls as [|[[role content] emotion] rest IH]; intros w Hw; [done|].
  simpl.
  destruct (add_message_keeps_head env role content emotion w) as [Hhead _].
  { intros E. by rewrite E in Hw. }
  destruct (add_message env role content emotion w) as [r w1]. simpl in Hhead.
  specialize (IH w1 ltac:(by rewrite Hhead)).
  destruct (add_messages env rest w1) as [rs w2]. done.
Qed.

Lemma add_messages_bounded env calls : forall w,
  (1 <= depth w)%Z ->
  (Z.of_nat (length (history w)) <= depth w * 2 + 1)%Z ->
  Forall (fun r => r = inr tt) (fst (add_messages env calls w)) ->
  (Z.of_nat (length (history (snd (add_messages env calls w))))
   <= depth w * 2 + 1)%Z.
Proof.
  induction calls as [|[[role content] emotion] rest IH]; intros w Hd Hb Hr;
    [done|].
  simpl in *.
  pose proof (add_message_bounded_on_return env role content emotion w Hd Hb) as Hb1.
  destruct (add_message_history env role content emotion w) as [Hd1 _].
  destruct (add_message env role content emotion w) as [r w1].
  simpl in Hb1, Hd1.
  specialize (IH w1).
  destruct (add_messages env rest w1) as [rs w2]. simpl in *.
  inversion Hr; subst. rewrite Hd1 in IH. by apply IH; auto.
Qed.

(** *** The claims *)

(** C2. With a depth of one the history may hold three messages.  Three
    user messages that spell the name phrase with a capital each raise
    [IndexError] after the append and before the truncation: the system
    message stays first, and the history holds four messages. *)
Theorem C2_raising_calls_outgrow_the_bound :
  let call := ("user", "My name is Kwame", None) in
  let run := add_messages calm_env [call; call; call] (boot calm_env 1 Absent) in
  fst run = [inl (Exn IndexError "list index out of range");
             inl (Exn IndexError "list index out of range");
             inl (Exn IndexError "list index out of range")]
  /\ head (history (snd run)) = Some system_message
  /\ (depth (snd run) * 2 + 1 = 3)%Z
  /\ length (history (snd run)) = 4.
Proof. vm_compute. done. Qed.

(** C3. With a depth of zero, one user message, a save and a fresh
    manager: every saved record comes back, where the claim allows none
    after the system message. *)
Theorem C3_depth_zero_reloads_every_record :
  let w1 := snd (add_message calm_env "user" "hi" None (boot calm_env 0 Absent)) in
  let hi := mkMessage "user" "hi" (Some 1%Z) (Some "neutral") in
  history w1 = [system_message; system_message; hi]
  /\ history_file (snd (save_conversation calm_env w1))
     = Saved [system_message; hi]
  /\ history (save_and_reload calm_env 0 w1)
     = [system_message; system_message; hi].
Proof. vm_compute. done. Qed.

(** C4. The completion service fails with an API error and the first draw
    of the humanizer is 0.05: the handler looks up the missing trait
    [fillers] and [get_response] raises [KeyError]. *)
Theorem C4_apology_path_raises_KeyError :
  fst (get_response eager_env "Hello" (Fails (Exn APIError "Connection error."))
         (boot eager_env 15 Absent))
  = inl (Exn KeyError "'fillers'").
Proof. vm_compute. done. Qed.

(** C7. The user message [My name is Kwame] holds the phrase up to case:
    [add_message] raises [IndexError] and the remembered name stays
    [User], where the claim records [Kwame]. *)
Theorem C7_capitalised_phrase_is_not_extracted :
  let r := add_message calm_env "user" "My name is Kwame" None
             (boot calm_env 15 Absent) in
  Py.contains "my name is " (Py.lower "My name is Kwame") = true
  /\ fst r = inl (Exn IndexError "list index out of range")
  /\ user_name (conversation (snd r)) = "User"
  /\ user_preferences (conversation (snd r)) !! "name" = None.
Proof. vm_compute. done. Qed.

(** The phrase followed by nothing but a space raises as well. *)
Lemma trailing_space_example :
  let r := add_message calm_env "user" "my name is " None
             (boot calm_env 15 Absent) in
  fst r = inl (Exn IndexError "list index out of range")
  /\ user_name (conversation (snd r)) = "User".
Proof. vm_compute. done. Qed.

(** The two examples of the name rule hold. *)
Lemma name_extraction_examples :
  let w0 := boot calm_env 15 Absent in
  let r1 := add_message calm_env "user" "Hi, my name is Kwame." None w0 in
  let r2 := add_message calm_env "user" "my name is" None w0 in
  fst r1 = inr tt
  /\ user_name (conversation (snd r1)) = "Kwame"
  /\ user_preferences (conversation (snd r1)) !! "name" = Some "Kwame"
  /\ fst r2 = inr tt
  /\ user_name (conversation (snd r2)) = "User".
Proof. vm_compute. done. Qed.

(** C8. The mood is [happy] exactly when the distinct positive words among
    the lower-cased, whitespace-separated tokens outnumber the distinct
    negative ones by more than one, [concerned] in the mirrored case and
    [neutral] otherwise; the three examples; and [get_response] runs the
    append of the user message in the world where this mood has been
    assigned, so that the message is recorded with it. *)
Theorem C8_sentiment_sets_the_mood :
  (forall text,
     let tokens := Py.split (Py.lower text) in
     let pos := distinct_count positive_list tokens in
     let neg := distinct_count negative_list tokens in
     (_analyze_sentiment text = "happy" <-> neg + 1 < pos)
     /\ (_analyze_sentiment text = "concerned" <-> pos + 1 < neg)
     /\ (_analyze_sentiment text = "neutral"
         <-> ~ neg + 1 < pos /\ ~ pos + 1 < neg))
  /\ _analyze_sentiment "I am happy and it was amazing" = "happy"
  /\ _analyze_sentiment "I feel sad and angry" = "concerned"
  /\ _analyze_sentiment "What time is it" = "neutral"
  /\ (forall env user_text answer w,
        get_response env user_text answer w =
        try_catch
          (add_message env "user" user_text None ;;
           after_user_message env (_analyze_sentiment user_text) answer)
          (handle env)
          (assign_mood (_analyze_sentiment user_text) w))
  /\ (forall env user_text answer w,
        Py.blank user_text = false -> (1 <= depth w)%Z ->
        recorded (mkMessage "user" user_text (Some (now env (n_now w)))
                            (Some (_analyze_sentiment user_text)))
                 (snd (get_response env user_text answer w))).
Proof.
  split; [|split; [|split; [|split; [|split]]]].
  - intros text tokens pos neg.
    rewrite (sentiment_counts text). fold tokens pos neg.
    destruct (Nat.ltb_spec (neg + 1) pos) as [H1|H1];
      [|destruct (Nat.ltb_spec (pos + 1) neg) as [H2|H2]];
      repeat split; intros; try done; try lia.
  - vm_compute. reflexivity.
  - vm_compute. reflexivity.
  - vm_compute. reflexivity.
  - intros. apply get_response_unfold.
  - intros. by apply get_response_records_user_message.
Qed.

Lemma C8_sentiment_witness :
  Py.blank "I am happy and it was amazing" = false
  /\ (1 <= depth (boot calm_env 15 Absent))%Z
  /\ recorded (mkMessage "user" "I am happy and it was amazing"
                         (Some 1%Z) (Some "happy"))
              (snd (get_response calm_env "I am happy and it was amazing"
                      (Reply example_payload) (boot calm_env 15 Absent))).
Proof.
  split; [reflexivity|]. split; [vm_compute; discriminate|].
  apply (proj2 (proj2 (proj2 (proj2 (proj2 C8_sentiment_sets_the_mood))))
           calm_env "I am happy and it was amazing" (Reply example_payload)
           (boot calm_env 15 Absent)).
  - reflexivity.
  - vm_compute. discriminate.
Defined.

(** What the extraction makes of a reply, for every payload, world and
    environment.  A reply that holds both markers: the visible reply is
    the text after the response marker, trimmed, less one trailing
    bracket, and the thought logged is the trimmed text between the
    thoughts marker and the next closing bracket; a reply without the pair
    of markers is used as it is and nothing is logged; the example
    payload. *)
Lemma extraction_of_marked_replies :
  forall env raw w,
    (forall a t p r,
       Py.partition "[THOUGHTS:" raw = Some (a, t) ->
       Py.partition "[RESPONSE:" raw = Some (p, r) ->
       extract_response env raw w
       = (inr (reply_of r), log_thought env (thought_of t) w))
    /\ (Py.contains "[THOUGHTS:" raw && Py.contains "[RESPONSE:" raw = false ->
        extract_response env raw w = (inr raw, w))
    /\ extract_response env example_payload w
       = (inr "Hello there", log_thought env "I should be concise" w).
Proof.
  intros env raw w. split; [|split].
  - intros a t p r HT HR. by apply (extract_response_structured env raw a t p r).
  - apply extract_response_plain.
  - by apply (extract_response_structured env example_payload ""
                " I should be concise][RESPONSE: Hello there]"
                "[THOUGHTS: I should be concise]" " Hello there]").
Qed.

Lemma calm_env_is_calm : calm_draws calm_env.
Proof. intros n. unfold Qle. simpl. lia. Qed.

(** C9. The example payload as the answer to the user text [Hello], when
    the first draw of [random.random()] is 0.05 and the later ones are
    0.5: the extraction yields [Hello there] and the thought is logged,
    but [add_message] hands the reply to [humanize_text], whose first draw
    reaches [HUMAN_TRAITS['fillers']]; the [KeyError] lands in the general
    handler and [get_response] returns its apology.  The reply is neither
    returned nor recorded.  When every draw is 0.05 the apology fails the
    same way and [get_response] raises. *)
Theorem C9_marked_reply_is_lost_to_the_humanizer :
  let r := get_response startled_env "Hello" (Reply example_payload)
             (boot startled_env 15 Absent) in
  (forall w, fst (extract_response startled_env example_payload w)
             = inr "Hello there")
  /\ fst r = inr "Hmm, something unexpected happened (KeyError). angry Let's try that again."
  /\ ai_thoughts_log (snd r) = [(4%Z, "I should be concise")]
  /\ map content (history (snd r)) = [content system_message; "Hello"]
  /\ fst (get_response eager_env "Hello" (Reply example_payload)
            (boot eager_env 15 Absent))
     = inl (Exn KeyError "'fillers'").
Proof.
  split.
  - intros w.
    by rewrite (proj2 (proj2 (extraction_of_marked_replies startled_env
                                example_payload w))).
  - vm_compute. done.
Qed.

(** The example end to end: the reply returned and the thoughts log. *)
Lemma example_payload_run :
  let r := get_response calm_env "Hello" (Reply example_payload)
             (boot calm_env 15 Absent) in
  fst r = inr "Hello there"
  /\ ai_thoughts_log (snd r) = [(4%Z, "I should be concise")]
  /\ map content (history (snd r))
     = [content system_message; "Hello"; "Hello there"].
Proof. vm_compute. done. Qed.

(** C10. A user message whose lower-cased content holds [my name is ],
    while the content itself does not hold it or holds it with nothing but
    whitespace after its first occurrence: [add_message] raises
    [IndexError]; the message has been appended, the name and the
    preferences are as before. *)
Theorem C10_name_extraction_raises_IndexError :
  forall env content emotion w,
    Py.contains "my name is " (Py.lower content) = true ->
    (Py.contains "my name is " content = false
     \/ exists pre post,
         Py.partition "my name is " content = Some (pre, post)
         /\ Py.blank post = true) ->
    exists w',
      add_message env "user" content emotion w
      = (inl (Exn IndexError "list index out of range"), w')
      /\ user_name (conversation w') = user_name (conversation w)
      /\ user_preferences (conversation w') = user_preferences (conversation w)
      /\ history w' = history w ++ [new_message env "user" content emotion w].
Proof.
  intros env content emotion w Hlow Hcase.
  assert (Hb : Py.blank content = false).
  { rewrite <- PyFacts.blank_lower.
    by apply (PyFacts.contains_not_blank "my name is "). }
  rewrite add_message_run, Hb.
  change (String.eqb "user" "assistant") with false. simpl andb. cbv iota.
  rewrite append_and_update_run. unfold bind.
  rewrite (meta_raises env content _ Hlow Hcase).
  eexists. split; [reflexivity|].
  unfold meta_base, appended, history. simpl.
  destruct (one_hour <? _)%Z; done.
Qed.

Lemma C10_capitalised_witness :
  Py.contains "my name is " (Py.lower "My name is Kwame") = true
  /\ Py.contains "my name is " "My name is Kwame" = false
  /\ exists w',
      add_message calm_env "user" "My name is Kwame" None (boot calm_env 15 Absent)
      = (inl (Exn IndexError "list index out of range"), w')
      /\ user_name (conversation w') = "User".
Proof.
  split; [reflexivity|]. split; [reflexivity|].
  destruct (C10_name_extraction_raises_IndexError calm_env "My name is Kwame"
              None (boot calm_env 15 Absent) eq_refl (or_introl eq_refl))
    as (w' & Hrun & Hname & _).
  exists w'. split; [exact Hrun|]. exact Hname.
Defined.

End BrainFacts.

(* ================================================================== *)
(** ** The detector beyond the claims: hysteresis, engine, fallback *)
(* ================================================================== *)

Module VadMoreFacts.
Import Vad VadSpec.

(** *** The hysteresis, frame by frame *)

Lemma update_true_spec d :
  let d' := update_speech_state true d in
  (3 <= length (speech_buffer d) ->
     is_speaking d' = true /\ length (speech_buffer d') = 3)
  /\ (length (speech_buffer d) < 3 ->
     is_speaking d' = is_speaking d
     /\ length (speech_buffer d') = S (length (speech_buffer d))).
Proof.
  unfold update_speech_state.
  assert (Hl : length (speech_buffer d ++ [true]) = S (length (speech_buffer d))).
  { rewrite length_app. simpl. lia. }
  destruct (Nat.ltb_spec 3 (length (speech_buffer d ++ [true]))) as [H|H];
    simpl; (split; [intros H3|intros H3]); try lia.
  - split; [done|]. rewrite (slice_from_last_k_length 3) by lia. lia.
  - split; [done|]. lia.
Qed.

Lemma update_true_keeps_speaking d :
  is_speaking d = true -> is_speaking (update_speech_state true d) = true.
Proof.
  intros H. unfold update_speech_state.
  destruct (_ <? _); simpl; [done|exact H].
Qed.

Lemma update_true_short d :
  length (speech_buffer (update_speech_state true d)) <= 3.
Proof.
  destruct (update_true_spec d) as [H1 H2].
  destruct (Nat.le_gt_cases 3 (length (speech_buffer d))) as [H|H].
  - destruct (H1 H) as [_ ->]. lia.
  - destruct (H2 H) as [_ ->]. lia.
Qed.

Lemma update_false_short d :
  length (speech_buffer d) < 5 ->
  is_speaking (update_speech_state false d) = is_speaking d
  /\ length (speech_buffer (update_speech_state false d))
     = S (length (speech_buffer d)).
Proof.
  intros H. unfold update_speech_state.
  assert (Hl : length (speech_buffer d ++ [false]) = S (length (speech_buffer d))).
  { rewrite length_app. simpl. lia. }
  destruct (Nat.ltb_spec 5 (length (speech_buffer d ++ [false]))); [lia|].
  simpl. split; [done|lia].
Qed.

Lemma smooth_cons d b rest :
  smooth d (b :: rest)
  = (fst (smooth (update_speech_state b d) rest),
     is_speaking (update_speech_state b d)
       :: snd (smooth (update_speech_state b d) rest)).
Proof. simpl. by destruct (smooth _ rest). Qed.

Lemma smooth_nil d : smooth d [] = (d, []).
Proof. reflexivity. Qed.

(** X1. Four positive frames in a row switch the output on, whatever the
    detector held before. *)
Theorem X_four_positives_switch_on :
  forall d, is_speaking (fst (smooth d [true; true; true; true])) = true.
Proof.
  intros d. rewrite !smooth_cons, smooth_nil. cbn [fst snd].
  set (d1 := update_speech_state true d).
  set (d2 := update_speech_state true d1).
  set (d3 := update_speech_state true d2).
  destruct (update_true_spec d) as [A1 B1].
  destruct (update_true_spec d1) as [A2 B2].
  destruct (update_true_spec d2) as [A3 B3].
  destruct (update_true_spec d3) as [A4 B4].
  fold d1 in A1, B1. fold d2 in A2, B2. fold d3 in A3, B3.
  destruct (Nat.le_gt_cases 3 (length (speech_buffer d3))) as [H|H];
    [by destruct (A4 H)|].
  exfalso.
  destruct (Nat.le_gt_cases 3 (length (speech_buffer d2))) as [H2|H2];
    [destruct (A3 H2); lia|].
  destruct (B3 H2) as [_ E3].
  destruct (Nat.le_gt_cases 3 (length (speech_buffer d1))) as [H1|H1];
    [destruct (A2 H1); lia|].
  destruct (B2 H1) as [_ E2].
  destruct (Nat.le_gt_cases 3 (length (speech_buffer d))) as [H0|H0];
    [destruct (A1 H0); lia|].
  destruct (B1 H0) as [_ E1]. lia.
Qed.

(** X2. While speaking, a positive frame followed by two silent ones never
    switches the output off. *)
Theorem X_short_pause_keeps_speaking :
  forall d, is_speaking d = true ->
    snd (smooth d [true; false; false]) = [true; true; true].
Proof.
  intros d Hd. rewrite !smooth_cons, smooth_nil. cbn [fst snd].
  set (d1 := update_speech_state true d).
  assert (H1 : is_speaking d1 = true) by by apply update_true_keeps_speaking.
  pose proof (update_true_short d) as L1. fold d1 in L1.
  destruct (update_false_short d1) as [H2 L2]; [lia|].
  destruct (update_false_short (update_speech_state false d1)) as [H3 L3]; [lia|].
  by rewrite H3, H2, H1.
Qed.

(** X3. From a buffer the detector can hold, six silent frames in a row leave
    the output off. *)
Theorem X_six_silent_frames_switch_off :
  forall d, buffer_ok (speech_buffer d) ->
    is_speaking (fst (smooth d (repeat false 6))) = false.
Proof.
  intros [sr sp buf fd spf v] [Hlen Htail]. simpl in Hlen, Htail.
  destruct buf as [|a [|b [|c [|x [|y [|z buf]]]]]]; simpl in Hlen; try lia;
    simpl in Htail;
    repeat match goal with
           | H : Forall _ (_ :: _) |- _ => inversion H; clear H; subst
           end;
    try reflexivity.
Qed.


(** *** The first calls of a detector *)

Lemma process_audio_short_buffer st f n :
  is_speaking (self st) = false -> length (speech_buffer (self st)) <= n ->
  n < 3 ->
  snd (process_audio st f) <> inr true
  /\ is_speaking (self (fst (process_audio st f))) = false
  /\ length (speech_buffer (self (fst (process_audio st f)))) <= S n.
Proof.
  intros Hs Hl Hn. unfold process_audio.
  destruct (raw_decision st f) as [e|[detected st1]] eqn:Hraw; simpl.
  { split; [done|]. split; [done|lia]. }
  assert (Hself : is_speaking (self st1) = false
                  /\ speech_buffer (self st1) = speech_buffer (self st)).
  { unfold raw_decision in Hraw. destruct (vad (self st)).
    - destruct (samples_per_frame (self st) =? 0)%Z; [done|].
      destruct (scan_chunks _ _ _ _ _) as [[] k]; inversion Hraw; subst; done.
    - inversion Hraw; subst; done. }
  destruct Hself as [Hs1 Hb1].
  destruct detected.
  - destruct (update_true_spec (self st1)) as [_ B].
    destruct B as [-> ->]; [rewrite Hb1; lia|].
    rewrite Hs1, Hb1. split; [done|]. split; [done|lia].
  - destruct (update_false_short (self st1)) as [-> ->]; [rewrite Hb1; lia|].
    rewrite Hs1, Hb1. split; [done|]. split; [done|lia].
Qed.

(** X4. A new detector never reports speech on its first three calls,
    whatever the frames and whatever the engine answers. *)
Theorem X_first_three_calls_are_silent :
  forall available engine rate f1 f2 f3,
    Forall (fun r => r <> inr true)
      (snd (process_all (init available engine rate) [f1; f2; f3])).
Proof.
  intros available engine rate f1 f2 f3.
  set (st0 := init available engine rate).
  assert (H0 : is_speaking (self st0) = false
               /\ length (speech_buffer (self st0)) <= 0).
  { unfold st0, init. destruct available, engine; simpl; split; done. }
  destruct H0 as [Hs0 Hl0]. simpl.
  destruct (process_audio_short_buffer st0 f1 0 Hs0 Hl0) as (R1 & Hs1 & Hl1); [lia|].
  destruct (process_audio st0 f1) as [st1 r1]. simpl in *.
  destruct (process_audio_short_buffer st1 f2 1 Hs1 Hl1) as (R2 & Hs2 & Hl2); [lia|].
  destruct (process_audio st1 f2) as [st2 r2]. simpl in *.
  destruct (process_audio_short_buffer st2 f3 2 Hs2 Hl2) as (R3 & _ & _); [lia|].
  destruct (process_audio st2 f3) as [st3 r3]. simpl in *.
  repeat constructor; done.
Qed.

(** *** The engine *)

Lemma chunks_bounded n (a : list Z) :
  Forall (fun frame => length frame <= n) (chunks n a).
Proof.
  unfold chunks. apply Forall_map, Forall_forall. intros k _.
  simpl. rewrite length_take. lia.
Qed.

Lemma scan_chunks_agree (clf1 clf2 : Classifier) rate n frames :
  Forall (fun frame => length frame <= n) frames ->
  (forall j frame, length frame = n -> clf1 j frame rate = clf2 j frame rate) ->
  forall k, scan_chunks clf1 rate n frames k = scan_chunks clf2 rate n frames k.
Proof.
  intros Hlen Hagree. induction Hlen as [|frame rest Hf _ IH]; intros k;
    simpl; [done|].
  destruct (Nat.ltb_spec (length frame) n) as [Hshort|Hfull]; [by apply IH|].
  rewrite (Hagree k frame) by lia.
  destruct (clf2 k frame rate) as [[]|]; [done|by apply IH|done].
Qed.

(** X5. Only chunks of exactly [samples_per_frame] samples reach the engine:
    what it would answer on any other frame does not change the scan. *)
Theorem X_engine_sees_full_chunks_only :
  forall (clf1 clf2 : Classifier) rate n (a : list Z) k,
    (forall j frame, length frame = n -> clf1 j frame rate = clf2 j frame rate) ->
    scan_chunks clf1 rate n (chunks n a) k
    = scan_chunks clf2 rate n (chunks n a) k.
Proof.
  intros. apply scan_chunks_agree; [apply chunks_bounded|done].
Qed.

Lemma chunks_short n (a : list Z) :
  length a < n -> chunks n a = [] \/ chunks n a = [a].
Proof.
  intros Hn. unfold chunks.
  destruct a as [|x a'].
  - left. simpl. rewrite Nat.div_small by lia. done.
  - right. set (a := x :: a') in *.
    assert (Hq : (length a + (n - 1)) / n = 1).
    { assert (0 < length a) by (unfold a; simpl; lia).
      replace (length a + (n - 1)) with (1 * n + (length a - 1)) by lia.
      rewrite Nat.div_add_l by lia. rewrite (Nat.div_small (length a - 1)) by lia.
      done. }
    rewrite Hq. simpl. rewrite ?drop_0. f_equal. apply take_ge. lia.
Qed.

(** X6. An input shorter than one engine frame is never passed to the engine
    and never counts as speech. *)
Theorem X_short_input_skips_the_engine :
  forall st clf a,
    vad (self st) = Some clf ->
    (0 < samples_per_frame (self st))%Z ->
    (Z.of_nat (length (as_int16 a)) < samples_per_frame (self st))%Z ->
    raw_decision st a = inr (false, st).
Proof.
  intros st clf a Hvad Hpos Hshort. unfold raw_decision. rewrite Hvad.
  destruct (Z.eqb_spec (samples_per_frame (self st)) 0) as [E|_]; [lia|].
  set (n := Z.to_nat (samples_per_frame (self st))).
  destruct (chunks_short n (as_int16 a)) as [->| ->]; [lia| |].
  - simpl. by destruct st.
  - simpl. destruct (Nat.ltb_spec (length (as_int16 a)) n); [|lia].
    by destruct st.
Qed.

(** *** One-way degradation *)

Lemma process_audio_without_engine st f :
  vad (self st) = None ->
  process_audio st f
  = (mkState (VAD_AVAILABLE st) (engine_calls st)
             (update_speech_state (energy_detect (as_int16 f)) (self st)),
     inr (is_speaking
            (update_speech_state (energy_detect (as_int16 f)) (self st)))).
Proof.
  intros Hvad. unfold process_audio, raw_decision. by rewrite Hvad.
Qed.

Lemma update_speech_state_engine b d :
  vad (update_speech_state b d) = vad d.
Proof.
  unfold update_speech_state.
  destruct b; repeat (destruct (_ <? _) || destruct (negb _)); done.
Qed.

Lemma process_all_without_engine frames : forall st,
  vad (self st) = None ->
  vad (self (fst (process_all st frames))) = None
  /\ engine_calls (fst (process_all st frames)) = engine_calls st
  /\ VAD_AVAILABLE (fst (process_all st frames)) = VAD_AVAILABLE st
  /\ Forall (fun r => exists b, r = inr b) (snd (process_all st frames)).
Proof.
  induction frames as [|f rest IH]; intros st Hvad; simpl; [by auto|].
  rewrite (process_audio_without_engine st f Hvad).
  set (st1 := mkState _ _ _).
  destruct (IH st1) as (H1 & H2 & H3 & H4).
  { simpl. by rewrite update_speech_state_engine. }
  destruct (process_all st1 rest) as [st2 rs]. simpl in *.
  repeat split; try done. constructor; [by eexists|done].
Qed.

Lemma scan_chunks_throw (clf : Classifier) rate n :
  forall frames k j frame,
    handed_to_engine n frames !! j = Some frame ->
    clf (k + j) frame rate = None ->
    (forall i fr, i < j -> handed_to_engine n frames !! i = Some fr ->
       clf (k + i) fr rate = Some false) ->
    scan_chunks clf rate n frames k = (Failed, S (k + j)).
Proof.
  unfold handed_to_engine.
  induction frames as [|fr0 rest IH]; intros k j frame Hj Hthrow Hbefore;
    [done|].
  simpl in *.
  destruct (Nat.ltb_spec (length fr0) n) as [Hshort|Hfull].
  - replace (n <=? length fr0) with false in *
      by (symmetry; apply Nat.leb_gt; lia).
    by eapply IH.
  - replace (n <=? length fr0) with true in *
      by (symmetry; apply Nat.leb_le; lia).
    destruct j as [|j'].
    + simpl in Hj. injection Hj as ->.
      rewrite Nat.add_0_r in Hthrow |- *. by rewrite Hthrow.
    + pose proof (Hbefore 0 fr0 ltac:(lia) eq_refl) as H0.
      rewrite Nat.add_0_r in H0. rewrite H0.
      replace (k + S j') with (S k + j') in * by lia.
      apply (IH (S k) j' frame); [done|done|].
      intros i fr Hi Hfr. replace (S k + i) with (k + S i) by lia.
      apply Hbefore; [lia|done].
Qed.

Lemma chunks_zero (a : list Z) : chunks 0 a = [].
Proof. reflexivity. Qed.

(** X7. When the engine throws on a chunk of a call, having answered no
    speech on the chunks handed to it before, the call takes the frame for
    silence, clears [VAD_AVAILABLE] and drops the engine; no later call of
    this detector reaches the engine again, and none raises. *)
Theorem X_engine_failure_is_final :
  forall st clf f frames j frame,
    vad (self st) = Some clf ->
    let n := Z.to_nat (samples_per_frame (self st)) in
    let handed := handed_to_engine n (chunks n (as_int16 f)) in
    handed !! j = Some frame ->
    clf (engine_calls st + j) frame (sample_rate (self st)) = None ->
    (forall i fr, i < j -> handed !! i = Some fr ->
       clf (engine_calls st + i) fr (sample_rate (self st)) = Some false) ->
    let st1 := fst (process_audio st f) in
    let st2 := fst (process_all st1 frames) in
    raw_only st f = inr false
    /\ VAD_AVAILABLE st1 = false
    /\ vad (self st1) = None
    /\ engine_calls st1 = S (engine_calls st + j)
    /\ vad (self st2) = None
    /\ engine_calls st2 = engine_calls st1
    /\ Forall (fun r => exists b, r = inr b) (snd (process_all st1 frames)).
Proof.
  intros st clf f frames j frame Hvad n handed Hj Hthrow Hbefore.
  assert (Hspf : (samples_per_frame (self st) =? 0)%Z = false).
  { apply Z.eqb_neq. intros E. subst handed n. rewrite E in Hj.
    by rewrite chunks_zero in Hj. }
  assert (Hraw : raw_decision st f
                 = inr (false, mkState false (S (engine_calls st + j))
                                       (drop_engine (self st)))).
  { unfold raw_decision. rewrite Hvad, Hspf. fold n.
    by rewrite (scan_chunks_throw clf _ n _ _ j frame Hj Hthrow Hbefore). }
  assert (Hst1 : vad (self (fst (process_audio st f))) = None
                 /\ VAD_AVAILABLE (fst (process_audio st f)) = false
                 /\ engine_calls (fst (process_audio st f))
                    = S (engine_calls st + j)).
  { unfold process_audio. rewrite Hraw. cbn [fst self VAD_AVAILABLE engine_calls].
    by rewrite update_speech_state_engine. }
  destruct Hst1 as (Hgone & Havail & Hcalls).
  destruct (process_all_without_engine frames _ Hgone) as (H1 & H2 & _ & H4).
  cbv zeta. unfold raw_only. rewrite Hraw. by auto 10.
Qed.


(** *** The energy fallback *)

Lemma wrapped_magnitudes (a : list Z) :
  Forall in_range a ->
  fold_right Z.add 0%Z (map (fun z => wrap16 (Z.abs z)) a) = total_magnitude a.
Proof.
  unfold total_magnitude. induction 1 as [|z a Hz _ IH]; simpl; [done|].
  rewrite IH. f_equal. unfold wrap16, in_range in *.
  assert (Ha : (0 <= Z.abs z <= 32767)%Z)
    by (split; [apply Z.abs_nonneg | apply Z.abs_le; lia]).
  generalize dependent (Z.abs z). intros n Hn.
  rewrite Z.mod_small; lia.
Qed.

Lemma energy_detect_integer_test a :
  Forall in_range a ->
  energy_detect a = (Z.of_nat (length a) <? 100 * total_magnitude a)%Z.
Proof.
  intros Ha. unfold energy_detect, mean_abs.
  rewrite (wrapped_magnitudes a Ha).
  assert (Hpos : (0 <= total_magnitude a)%Z).
  { unfold total_magnitude. clear Ha.
    induction a as [|z a IH]; simpl; [lia|].
    pose proof (Z.abs_nonneg z). lia. }
  destruct a as [|z a']; [reflexivity|].
  set (s := total_magnitude (z :: a')) in *.
  destruct (Z.of_nat (length (z :: a'))) as [|p|p] eqn:Hn;
    [simpl in Hn; lia| |simpl in Hn; lia].
  unfold Qle_bool, Qdiv, Qinv, Qmult. simpl. clearbody s.
  destruct (Z.leb_spec (s * 1 * 100) (1 * Z.pos (1 * p)));
    destruct (Z.ltb_spec (Z.pos p) (100 * s)); simpl; try reflexivity; lia.
Qed.

(** X8. On 16-bit samples the fallback is an integer test: speech exactly when
    a hundred times the sum of the magnitudes exceeds the number of
    samples; an empty frame is never speech. *)
Theorem X_fallback_is_an_integer_test :
  forall a, Forall in_range a ->
    energy_detect a = (Z.of_nat (length a) <? 100 * total_magnitude a)%Z.
Proof. exact energy_detect_integer_test. Qed.

Lemma round_half_even_nonneg a b :
  (0 <= a)%Z -> (0 <= round_half_even a b)%Z.
Proof.
  intros Ha. unfold round_half_even.
  assert (0 <= a / Z.pos b)%Z by (apply Z.div_pos; lia).
  destruct (2 * (a mod Z.pos b) ?= Z.pos b)%Z; [destruct (Z.even _)| |]; lia.
Qed.

Lemma round_half_even_le a b N :
  (0 <= a)%Z -> (a <= N * Z.pos b)%Z -> (round_half_even a b <= N)%Z.
Proof.
  intros Ha Hle. unfold round_half_even.
  pose proof (Z.div_mod a (Z.pos b) ltac:(lia)) as Hdm.
  pose proof (Z.mod_pos_bound a (Z.pos b) ltac:(lia)) as Hr.
  assert (Hq : (a / Z.pos b <= N)%Z).
  { apply Z.div_le_upper_bound; lia. }
  destruct (Z.eq_dec (a / Z.pos b)%Z N) as [HqN|HqN].
  - assert (Hr0 : (a mod Z.pos b = 0)%Z) by nia.
    rewrite Hr0. simpl. lia.
  - destruct (2 * (a mod Z.pos b) ?= Z.pos b)%Z; [destruct (Z.even _)| |]; lia.
Qed.

Lemma floor_log2_below_one n d :
  (Z.pos n < Z.pos d)%Z -> (floor_log2 n d <= -1)%Z.
Proof.
  intros Hlt. unfold floor_log2.
  pose proof (Z.log2_le_mono (Z.pos n) (Z.pos d) ltac:(lia)) as Hl.
  destruct (Z.leb_spec 0 (Z.log2 (Z.pos n) - Z.log2 (Z.pos d))) as [H0|H0].
  - replace (Z.log2 (Z.pos n) - Z.log2 (Z.pos d))%Z with 0%Z by lia.
    rewrite Z.pow_0_r, Z.mul_1_r.
    destruct (Z.ltb_spec (Z.pos n) (Z.pos d)); lia.
  - destruct (_ <? _)%Z; lia.
Qed.

(** A positive product of at most [1 - 2^-15] rounds to a float32 below
    one: that bound is a float32 itself, and rounding does not cross it. *)
Lemma float32_nearest_below_one n d :
  (Z.pos n * 32768 <= 32767 * Z.pos d)%Z ->
  Z.quot (Qnum (float32_nearest n d)) (Z.pos (Qden (float32_nearest n d))) = 0%Z.
Proof.
  intros Hle. unfold float32_nearest.
  pose proof (floor_log2_below_one n d ltac:(lia)) as He.
  set (e := Z.max (floor_log2 n d) (-126)).
  assert (He' : (-126 <= e <= -1)%Z) by (unfold e; lia).
  destruct (Z.leb_spec 0 (e - 23)) as [Hs|Hs]; [lia|].
  set (k := (- (e - 23))%Z). assert (Hk : (24 <= k)%Z) by (unfold k; lia).
  cbn [Qnum Qden].
  assert (Hpow : (2 ^ k = 2 ^ 15 * 2 ^ (k - 15))%Z).
  { rewrite <- Z.pow_add_r by lia. f_equal. lia. }
  assert (Hp : (0 < 2 ^ (k - 15))%Z) by (apply Z.pow_pos_nonneg; lia).
  rewrite Z2Pos.id by (rewrite Hpow; lia).
  apply Z.quot_small. split.
  - apply round_half_even_nonneg. lia.
  - apply Z.le_lt_trans with (32767 * 2 ^ (k - 15))%Z.
    + apply round_half_even_le; [lia|]. rewrite Hpow. nia.
    + rewrite Hpow. change (2 ^ 15)%Z with 32768%Z. lia.
Qed.

Lemma to_int16_small (x : Q) :
  (Qabs x <= 1 # 32768)%Q -> to_int16 x = 0%Z.
Proof.
  destruct x as [a b]. unfold Qle, Qabs, to_int16, float32_round, Qmult.
  cbn [Qnum Qden]. intros H.
  rewrite Pos.mul_1_r.
  destruct a as [|n|n].
  - reflexivity.
  - change (Z.abs (Z.pos n)) with (Z.pos n) in H.
    change (Z.pos n * 32767)%Z with (Z.pos (n * 32767)). cbv iota.
    rewrite float32_nearest_below_one; [reflexivity|].
    rewrite Pos2Z.inj_mul. lia.
  - change (Z.abs (Z.neg n)) with (Z.pos n) in H.
    change (Z.neg n * 32767)%Z with (Z.neg (n * 32767)). cbv iota.
    unfold Qopp. cbn [Qnum Qden].
    rewrite Z.quot_opp_l by lia.
    rewrite float32_nearest_below_one; [reflexivity|].
    rewrite Pos2Z.inj_mul. lia.
Qed.

(** The conversion on samples where rounding or range decide: a product
    just below one rounds up to one; an exact product is truncated; a
    product beyond 32 bits converts to zero. *)
Lemma to_int16_examples :
  map to_int16 [32769 # 1073741824; 1 # 1024; 1; -1; 1000000 # 1]%Q
  = [1; 31; 32767; -32767; 0]%Z.
Proof. vm_compute. reflexivity. Qed.

Lemma total_magnitude_zeros n : total_magnitude (repeat 0%Z n) = 0%Z.
Proof.
  unfold total_magnitude. induction n as [|n IH]; [done|].
  simpl. by rewrite IH.
Qed.

(** X9. Without an engine, a float32 frame whose samples all stay within
    1/32768 in magnitude is silence for the fallback: each product with
    32767, rounded to float32, stays below one, and the cast truncates it
    to zero. *)
Theorem X_fallback_ignores_sub_lsb_frames :
  forall st xs,
    vad (self st) = None ->
    Forall (fun x => (Qabs x <= 1 # 32768)%Q) xs ->
    raw_decision st (Float xs) = inr (false, st).
Proof.
  intros st xs Hvad Hxs. unfold raw_decision. rewrite Hvad. simpl.
  assert (Hz : map to_int16 xs = repeat 0%Z (length xs)).
  { induction Hxs as [|x xs Hx _ IH]; simpl; [done|].
    by rewrite IH, to_int16_small. }
  rewrite Hz, energy_detect_integer_test.
  - rewrite total_magnitude_zeros. do 2 f_equal.
    apply Z.ltb_ge. apply Nat2Z.is_nonneg.
  - clear. induction (length xs) as [|n IH]; simpl; constructor;
      [unfold in_range; lia|done].
Qed.

(** *** Concrete runs *)

Lemma X_short_pause_witness :
  is_speaking (mkVad 16000 true [] 30 480 None) = true
  /\ snd (smooth (mkVad 16000 true [] 30 480 None) [true; false; false])
     = [true; true; true].
Proof.
  split; [reflexivity|].
  apply X_short_pause_keeps_speaking. reflexivity.
Defined.

Lemma X_six_silent_witness :
  buffer_ok (speech_buffer (mkVad 16000 true [true; true; true] 30 480 None))
  /\ is_speaking (fst (smooth (mkVad 16000 true [true; true; true] 30 480 None)
                         (repeat false 6))) = false.
Proof.
  assert (H : buffer_ok
                (speech_buffer (mkVad 16000 true [true; true; true] 30 480 None))).
  { split; [simpl; lia|simpl; constructor]. }
  split; [exact H|].
  apply X_six_silent_frames_switch_off. exact H.
Defined.

Lemma X_full_chunks_witness :
  (forall (j : nat) (frame : list Z), length frame = 2 ->
     (fun _ _ _ => Some false) j frame 16000%Z
     = (fun (_ : nat) (fr : list Z) (_ : Z) =>
          if length fr =? 2 then Some false else None) j frame 16000%Z)
  /\ scan_chunks (fun _ _ _ => Some false) 16000 2 (chunks 2 [1; 2; 3]%Z) 0
     = scan_chunks (fun (_ : nat) (fr : list Z) (_ : Z) =>
                      if length fr =? 2 then Some false else None)
                   16000 2 (chunks 2 [1; 2; 3]%Z) 0.
Proof.
  assert (H : forall (j : nat) (frame : list Z), length frame = 2 ->
     (fun _ _ _ => Some false) j frame 16000%Z
     = (fun (_ : nat) (fr : list Z) (_ : Z) =>
          if length fr =? 2 then Some false else None) j frame 16000%Z).
  { intros j frame Hlen. simpl. rewrite Hlen. reflexivity. }
  split; [exact H|].
  apply (X_engine_sees_full_chunks_only _ _ 16000%Z 2 [1; 2; 3]%Z 0 H).
Defined.

Lemma X_short_input_witness :
  vad (self (init true (Some (fun _ _ _ => Some true)) 16000))
  = Some (fun _ _ _ => Some true)
  /\ (0 < samples_per_frame
            (self (init true (Some (fun _ _ _ => Some true)) 16000)))%Z
  /\ (Z.of_nat (length (as_int16 loud))
      < samples_per_frame
          (self (init true (Some (fun _ _ _ => Some true)) 16000)))%Z
  /\ raw_decision (init true (Some (fun _ _ _ => Some true)) 16000) loud
     = inr (false, init true (Some (fun _ _ _ => Some true)) 16000).
Proof.
  split; [reflexivity|]. split; [reflexivity|]. split; [reflexivity|].
  apply (X_short_input_skips_the_engine _ (fun _ _ _ => Some true));
    reflexivity.
Defined.

Lemma X_engine_failure_witness :
  let clf : Classifier := fun k _ _ => if k =? 0 then Some false else None in
  let st := init true (Some clf) 16000 in
  let f := Int16 (repeat 0%Z 960) in
  vad (self st) = Some clf
  /\ handed_to_engine 480 (chunks 480 (as_int16 f)) !! 1
     = Some (repeat 0%Z 480)
  /\ clf (engine_calls st + 1) (repeat 0%Z 480) (sample_rate (self st)) = None
  /\ raw_only st f = inr false
  /\ VAD_AVAILABLE (fst (process_audio st f)) = false
  /\ vad (self (fst (process_audio st f))) = None
  /\ engine_calls (fst (process_all (fst (process_audio st f)) [loud; loud]))
     = 2.
Proof.
  intros clf st f.
  assert (H1 : vad (self st) = Some clf) by reflexivity.
  assert (H2 : handed_to_engine 480 (chunks 480 (as_int16 f)) !! 1
               = Some (repeat 0%Z 480)) by (vm_compute; reflexivity).
  assert (H3 : clf (engine_calls st + 1) (repeat 0%Z 480)
                   (sample_rate (self st)) = None) by reflexivity.
  assert (H4 : forall i fr, i < 1 ->
            handed_to_engine 480 (chunks 480 (as_int16 f)) !! i = Some fr ->
            clf (engine_calls st + i) fr (sample_rate (self st)) = Some false).
  { intros i fr Hi _. assert (i = 0) as -> by lia. reflexivity. }
  destruct (X_engine_failure_is_final st clf f [loud; loud] 1 (repeat 0%Z 480)
              H1 H2 H3 H4)
    as (Hraw & Havail & Hgone & Hcalls & _ & Hlater & _).
  split; [exact H1|]. split; [exact H2|]. split; [exact H3|].
  split; [exact Hraw|]. split; [exact Havail|]. split; [exact Hgone|].
  rewrite Hlater. exact Hcalls.
Defined.

Lemma X_integer_test_witness :
  Forall in_range [1000; -3; 0]%Z
  /\ energy_detect [1000; -3; 0]%Z
     = (Z.of_nat (length [1000; -3; 0]%Z)
        <? 100 * total_magnitude [1000; -3; 0]%Z)%Z.
Proof.
  assert (H : Forall in_range [1000; -3; 0]%Z)
    by (repeat constructor; unfold in_range; lia).
  split; [exact H|].
  apply X_fallback_is_an_integer_test. exact H.
Defined.

Lemma X_sub_lsb_witness :
  vad (self (init false None 16000)) = None
  /\ Forall (fun x => (Qabs x <= 1 # 32768)%Q) [1 # 32768; - (1 # 65536)]%Q
  /\ raw_decision (init false None 16000) (Float [1 # 32768; - (1 # 65536)]%Q)
     = inr (false, init false None 16000).
Proof.
  assert (H : Forall (fun x => (Qabs x <= 1 # 32768)%Q)
                     [1 # 32768; - (1 # 65536)]%Q).
  { repeat constructor; unfold Qle; simpl; lia. }
  split; [reflexivity|]. split; [exact H|].
  apply X_fallback_ignores_sub_lsb_frames; [reflexivity|exact H].
Defined.

End VadMoreFacts.

(* ================================================================== *)
(** ** Recording until silence *)
(* ================================================================== *)

Module RecorderFacts.
Import Vad Recorder.

Lemma audio_callback_cases r indata :
  let '(r', res) := audio_callback r indata in
  match res with
  | inl _ => audio_buffer r' = audio_buffer r /\ silent_frames r' = silent_frames r
  | inr true =>
      audio_buffer r' = audio_buffer r ++ [indata] /\ silent_frames r' = 0
      /\ indata <> []
  | inr false =>
      if 0 <? length (audio_buffer r)
      then audio_buffer r' = audio_buffer r ++ [indata]
           /\ silent_frames r' = S (silent_frames r)
      else audio_buffer r' = audio_buffer r /\ silent_frames r' = silent_frames r
  end.
Proof.
  unfold audio_callback.
  destruct indata as [|x xs].
  - simpl. destruct (0 <? length (audio_buffer r)); done.
  - change (0 <? length (x :: xs)) with true. cbv iota.
    destruct (process_audio (detector r) (Float (x :: xs))) as [st [e|[]]];
      [done|done|].
    destruct (0 <? length (audio_buffer r)); done.
Qed.

Lemma leading_quiet_snoc flags b :
  leading_quiet (flags ++ [b])
  = if existsb id flags then leading_quiet flags
    else length flags + (if b then 0 else 1).
Proof.
  induction flags as [|[] flags IH]; simpl; [by destruct b|done|].
  rewrite IH. destruct (existsb id flags); lia.
Qed.

Lemma trailing_quiet_cons b flags :
  trailing_quiet (b :: flags)
  = if existsb id flags then trailing_quiet flags
    else length flags + (if b then 0 else 1).
Proof.
  unfold trailing_quiet. simpl. rewrite leading_quiet_snoc.
  rewrite length_rev.
  assert (E : existsb id (rev flags) = existsb id flags).
  { clear. induction flags as [|x flags IH]; simpl; [done|].
    rewrite existsb_app, IH. simpl. destruct x, (existsb id flags); done. }
  by rewrite E.
Qed.

Lemma leading_quiet_length flags : leading_quiet flags <= length flags.
Proof. induction flags as [|[] flags IH]; simpl; lia. Qed.

Lemma leading_quiet_all flags :
  existsb id flags = false <-> leading_quiet flags = length flags.
Proof.
  induction flags as [|[] flags IH]; simpl; [done| |].
  - split; [done|]. pose proof (leading_quiet_length flags). lia.
  - rewrite IH. lia.
Qed.

(** What a run of callbacks leaves in a recording that may already have
    started. *)
Lemma run_callbacks_spec blocks : forall r,
  let '(r', flags) := run_callbacks r blocks in
  length flags <= length blocks
  /\ audio_buffer r'
     = audio_buffer r
       ++ (if 0 <? length (audio_buffer r) then take (length flags) blocks
           else drop (leading_quiet flags) (take (length flags) blocks))
  /\ silent_frames r'
     = (if existsb id flags then trailing_quiet flags
        else if 0 <? length (audio_buffer r)
             then silent_frames r + length flags else silent_frames r)
  /\ (forall i, flags !! i = Some true -> exists b, blocks !! i = Some b /\ b <> []).
Proof.
  induction blocks as [|indata rest IH]; intros r.
  - simpl. destruct (0 <? length (audio_buffer r)); simpl;
      rewrite ?app_nil_r, ?Nat.add_0_r; repeat split; done.
  - simpl. pose proof (audio_callback_cases r indata) as Hcb.
    destruct (audio_callback r indata) as [r1 [e|is_speech]].
    + destruct Hcb as [-> ->]. simpl.
      destruct (0 <? length (audio_buffer r)); simpl;
        rewrite ?app_nil_r, ?Nat.add_0_r; repeat split; (done || lia).
    + specialize (IH r1). destruct (run_callbacks r1 rest) as [r2 flags].
      destruct IH as (Hlen & Hbuf & Hsil & Hne).
      rewrite trailing_quiet_cons. simpl length.
      destruct is_speech.
      * destruct Hcb as (Hb1 & Hs1 & Hin).
        rewrite Hb1 in Hbuf. rewrite length_app in Hbuf. simpl in Hbuf.
        replace (0 <? length (audio_buffer r) + 1) with true in Hbuf
          by (symmetry; apply Nat.ltb_lt; lia).
        rewrite Hb1, length_app in Hsil. simpl in Hsil.
        replace (0 <? length (audio_buffer r) + 1) with true in Hsil
          by (symmetry; apply Nat.ltb_lt; lia).
        split; [lia|]. split; [|split].
        -- rewrite Hbuf, <- app_assoc. simpl. by destruct (0 <? _).
        -- rewrite Hsil, Hs1. simpl. destruct (existsb id flags); lia.
        -- intros [|i] Hi; simpl in *; [by eexists|by apply Hne].
      * destruct (Nat.ltb_spec 0 (length (audio_buffer r))) as [Hstarted|Hnot].
        -- destruct Hcb as (Hb1 & Hs1).
           rewrite Hb1, length_app in Hbuf, Hsil. simpl in Hbuf, Hsil.
           replace (0 <? length (audio_buffer r) + 1) with true in Hbuf, Hsil
             by (symmetry; apply Nat.ltb_lt; lia).
           split; [lia|]. split; [|split].
           ++ rewrite Hbuf, <- app_assoc. done.
           ++ rewrite Hsil, Hs1. simpl. destruct (existsb id flags); lia.
           ++ intros [|i] Hi; simpl in *; [done|by apply Hne].
        -- destruct Hcb as (Hb1 & Hs1).
           rewrite Hb1 in Hbuf, Hsil.
           replace (0 <? length (audio_buffer r)) with false in Hbuf, Hsil
             by (symmetry; apply Nat.ltb_ge; lia).
           split; [lia|]. split; [|split].
           ++ rewrite Hbuf. done.
           ++ rewrite Hsil, Hs1. simpl. destruct (existsb id flags) eqn:E; [done|].
              done.
           ++ intros [|i] Hi; simpl in *; [done|by apply Hne].
Qed.


Lemma leading_quiet_hit flags :
  leading_quiet flags < length flags ->
  flags !! leading_quiet flags = Some true.
Proof.
  induction flags as [|[] flags IH]; simpl; [lia|done|].
  intros H. apply IH. lia.
Qed.

(** X10. The recording keeps every block from the first one reported as speech
    on, and none before it. *)
Theorem X_recording_starts_at_first_speech :
  forall st blocks,
    audio_buffer (fst (run_callbacks (start st) blocks))
    = drop (leading_quiet (snd (run_callbacks (start st) blocks)))
           (take (length (snd (run_callbacks (start st) blocks))) blocks).
Proof.
  intros st blocks. pose proof (run_callbacks_spec blocks (start st)) as H.
  destruct (run_callbacks (start st) blocks) as [r flags].
  destruct H as (_ & Hbuf & _). exact Hbuf.
Qed.

(** X11. [silent_frames] counts the blocks since the last one reported as
    speech, and stays at zero until speech has been reported. *)
Theorem X_silent_frames_counts_the_pause :
  forall st blocks,
    let flags := snd (run_callbacks (start st) blocks) in
    silent_frames (fst (run_callbacks (start st) blocks))
    = if existsb id flags then trailing_quiet flags else 0.
Proof.
  intros st blocks. pose proof (run_callbacks_spec blocks (start st)) as H.
  destruct (run_callbacks (start st) blocks) as [r flags].
  destruct H as (_ & _ & Hsil & _). exact Hsil.
Qed.

(** X12. Neither stop condition of the polling loop can hold before a block has
    been reported as speech: the duration limit counts kept blocks, not
    elapsed ones. *)
Theorem X_no_stop_before_speech :
  forall st blocks frames_before_silence max_frames,
    should_stop frames_before_silence max_frames
      (fst (run_callbacks (start st) blocks)) = true ->
    existsb id (snd (run_callbacks (start st) blocks)) = true.
Proof.
  intros st blocks fbs mf Hstop.
  pose proof (run_callbacks_spec blocks (start st)) as H.
  destruct (run_callbacks (start st) blocks) as [r flags].
  destruct H as (_ & Hbuf & _). simpl in Hbuf, Hstop |- *.
  destruct (existsb id flags) eqn:E; [done|exfalso].
  apply leading_quiet_all in E. rewrite E in Hbuf.
  rewrite drop_ge in Hbuf by (rewrite length_take; lia).
  unfold should_stop in Hstop. rewrite Hbuf in Hstop. simpl in Hstop.
  rewrite andb_false_r in Hstop. simpl in Hstop.
  apply andb_true_iff in Hstop as [H1 H2].
  apply Z.ltb_lt in H1. apply Z.leb_le in H2. lia.
Qed.

(** X13. The array returned is empty, and [record_voice] returns [None],
    exactly when no block was reported as speech. *)
Theorem X_recording_empty_iff_no_speech :
  forall st blocks filename,
    let run := run_callbacks (start st) blocks in
    (recorded (fst run) = [] <-> existsb id (snd run) = false)
    /\ (record_voice filename (recorded (fst run)) = None
        <-> existsb id (snd run) = false).
Proof.
  intros st blocks filename run. subst run.
  pose proof (run_callbacks_spec blocks (start st)) as H.
  destruct (run_callbacks (start st) blocks) as [r flags].
  destruct H as (Hlen & Hbuf & _ & Hne). simpl in Hbuf |- *.
  assert (Hmain : recorded r = [] <-> existsb id flags = false).
  { unfold recorded. rewrite Hbuf. split.
    - intros Hempty. apply leading_quiet_all.
      destruct (Nat.lt_ge_cases (leading_quiet flags) (length flags)) as [Hlt|Hge];
        [exfalso|pose proof (leading_quiet_length flags); lia].
      destruct (Hne _ (leading_quiet_hit flags Hlt)) as (b & Hb & Hnonempty).
      assert (Hd : drop (leading_quiet flags) (take (length flags) blocks)
                   !! 0 = Some b).
      { rewrite lookup_drop, Nat.add_0_r, lookup_take_lt by lia. done. }
      destruct (drop _ _) as [|b' tl]; [done|].
      simpl in Hd. inversion Hd; subst. simpl in Hempty.
      by destruct b.
    - intros E%leading_quiet_all. rewrite E.
      rewrite drop_ge by (rewrite length_take; lia). done. }
  split; [exact Hmain|].
  rewrite <- Hmain. unfold record_voice.
  destruct (recorded r); simpl; split; done.
Qed.

Lemma X_no_stop_witness :
  should_stop 15 1
    (fst (run_callbacks (start (init false None 16000))
            (repeat [1 # 2]%Q 4))) = true
  /\ existsb id (snd (run_callbacks (start (init false None 16000))
                        (repeat [1 # 2]%Q 4))) = true.
Proof.
  assert (H : should_stop 15 1
    (fst (run_callbacks (start (init false None 16000))
            (repeat [1 # 2]%Q 4))) = true) by (vm_compute; reflexivity).
  split; [exact H|].
  apply (X_no_stop_before_speech _ _ 15%Z 1%Z H).
Defined.

End RecorderFacts.

(* ================================================================== *)
(** ** More on the strings *)
(* ================================================================== *)

Module PyMoreFacts.
Import Py.

Lemma map_string_app (f : ascii -> ascii) (a b : string) :
  map_string f (a +:+ b) = map_string f a +:+ map_string f b.
Proof.
  induction a as [|c a IH]; [reflexivity|].
  rewrite PyFacts.append_cons. simpl. by rewrite PyFacts.append_cons, IH.
Qed.

Lemma lower_app (a b : string) : lower (a +:+ b) = lower a +:+ lower b.
Proof. apply map_string_app. Qed.

Lemma length_take_string n : forall s, String.length (take_string n s) <= n.
Proof.
  induction n as [|n IH]; intros [|c s]; simpl; try lia.
  specialize (IH s). lia.
Qed.

Lemma length_lstrip_by p s : String.length (lstrip_by p s) <= String.length s.
Proof.
  induction s as [|c s IH]; simpl; [lia|]. destruct (p c); simpl; lia.
Qed.

Lemma length_rstrip_by p s : String.length (rstrip_by p s) <= String.length s.
Proof.
  induction s as [|c s IH]; simpl; [lia|].
  destruct (rstrip_by p s); [destruct (p c)|]; simpl in *; lia.
Qed.

Lemma length_strip s : String.length (strip s) <= String.length s.
Proof.
  unfold strip.
  pose proof (length_rstrip_by isspace (lstrip_by isspace s)).
  pose proof (length_lstrip_by isspace s). lia.
Qed.

End PyMoreFacts.

(* ================================================================== *)
(** ** The conversation beyond the claims *)
(* ================================================================== *)

Module BrainMoreFacts.
Import Brain BrainFacts BrainMore.

Section More.

Variable env : Env.

(** *** The emotion words and the humanizer *)

Lemma trait_fillers : trait "fillers" = raise (Exn KeyError "'fillers'").
Proof. reflexivity. Qed.
Lemma trait_thinking :
  trait "thinking_phrases" = raise (Exn KeyError "'thinking_phrases'").
Proof. reflexivity. Qed.
Lemma trait_acks :
  trait "acknowledgments" = raise (Exn KeyError "'acknowledgments'").
Proof. reflexivity. Qed.

Lemma get_random_emotion_spec emotion_type w :
  exists r w',
    get_random_emotion env emotion_type w = (inr r, w')
    /\ r ∈ EMOTIONS
    /\ conversation w' = conversation w
    /\ (emotion_type ∈ EMOTIONS -> r = emotion_type /\ w' = w).
Proof.
  unfold get_random_emotion. rewrite trait_emotions, bind_ret.
  fold EMOTIONS.
  destruct (bool_decide (emotion_type ∈ EMOTIONS)) eqn:E.
  - apply bool_decide_eq_true in E. exists emotion_type, w. by auto.
  - apply bool_decide_eq_false in E. unfold random_choice.
    destruct (EMOTIONS !! (choice_index env (n_choice w) mod length EMOTIONS))
      as [x|] eqn:Hx.
    + eexists _, _. split; [reflexivity|]. split; [|split; [done|done]].
      by eapply list_elem_of_lookup_2.
    + apply lookup_ge_None in Hx.
      pose proof (Nat.mod_upper_bound (choice_index env (n_choice w))
                    (length EMOTIONS)).
      simpl in *. lia.
Qed.

(** X14. [get_random_emotion] never raises and always answers with one of the
    seven words of [EMOTIONS]; on one of them it is the identity and
    draws nothing. *)
Theorem X_random_emotion_is_a_listed_word :
  forall emotion_type w,
    exists r w',
      get_random_emotion env emotion_type w = (inr r, w')
      /\ r ∈ EMOTIONS
      /\ (emotion_type ∈ EMOTIONS -> r = emotion_type /\ w' = w).
Proof.
  intros e w. destruct (get_random_emotion_spec e w) as (r & w' & H1 & H2 & _ & H3).
  by exists r, w'.
Qed.


Lemma emotion_word_not_empty e : e ∈ EMOTIONS -> String.eqb e "" = false.
Proof.
  unfold EMOTIONS. intros H.
  repeat (apply elem_of_cons in H as [->|H]; [reflexivity|]).
  by apply elem_of_nil in H.
Qed.

Lemma humanize_text_run text emotion w :
  Py.blank text = false ->
  let r k := random env (k + n_random w) in
  humanize_text env text emotion w =
  if Qlt_bool (r 0) (1 # 10)
  then (inl (Exn KeyError "'fillers'"), drawn 1 w)
  else if Qlt_bool (r 1) (5 # 100) && (5 <? word_count text)
  then (inl (Exn KeyError "'thinking_phrases'"), drawn 2 w)
  else if Qlt_bool (r 2) (5 # 100) && (8 <? word_count text)
  then (inl (Exn KeyError "'acknowledgments'"), drawn 3 w)
  else if Qlt_bool (r 3) (2 # 10)
  then bind (get_random_emotion env emotion)
            (fun emoji => if String.eqb emoji "" then ret text
                          else ret (text +:+ " " +:+ emoji)) (drawn 4 w)
  else (inr text, drawn 4 w).
Proof.
  intros Hb r. unfold humanize_text. rewrite Hb.
  rewrite trait_fillers, trait_thinking, trait_acks.
  unfold word_count, drawn, r.
  cbv [bind random_random ret raise]. cbn [n_random conversation n_choice n_now history_file ai_thoughts_log error_log Nat.add].
  destruct (Qlt_bool _ (1 # 10)); [reflexivity|].
  destruct (Qlt_bool _ (5 # 100) && _); [reflexivity|].
  destruct (Qlt_bool _ (5 # 100) && _); [reflexivity|].
  destruct (Qlt_bool _ (2 # 10)); reflexivity.
Qed.

Lemma humanize_text_outcomes :
  forall text emotion w,
    let r k := random env (k + n_random w) in
    match fst (humanize_text env text emotion w) with
    | inl e => reaches_missing_trait text (r 0) (r 1) (r 2) = true
               /\ exn_cls e = KeyError
    | inr t => reaches_missing_trait text (r 0) (r 1) (r 2) = false
               /\ decorated text t
    end.
Proof.
  intros text emotion w r. unfold reaches_missing_trait.
  destruct (Py.blank text) eqn:Hb.
  - unfold humanize_text. rewrite Hb. simpl. split; [done|by left].
  - rewrite (humanize_text_run _ _ _ Hb). subst r. cbv beta. cbn [negb andb].
    destruct (Qlt_bool (random env (0 + _)) (1 # 10));
      [simpl; split; reflexivity|].
    destruct (Qlt_bool (random env (1 + _)) (5 # 100) && _);
      [simpl; split; reflexivity|].
    destruct (Qlt_bool (random env (2 + _)) (5 # 100) && _);
      [simpl; split; reflexivity|].
    cbn [orb].
    destruct (Qlt_bool (random env (3 + _)) (2 # 10));
      [|simpl; split; [done|by left]].
    destruct (get_random_emotion_spec emotion (drawn 4 w))
      as (e & w' & Hrun & Hin & _).
    unfold bind. rewrite Hrun. rewrite (emotion_word_not_empty _ Hin).
    simpl. split; [done|]. right. by exists e.
Qed.

(** X15. [humanize_text] raises exactly on the runs that reach a trait that
    [HUMAN_TRAITS] lacks, and then with a [KeyError]; on every other run
    it returns the text as it came, or followed by a space and one of the
    words of [EMOTIONS]. *)
Theorem X_humanizer_outcomes :
  forall text emotion w,
    let r k := random env (k + n_random w) in
    match fst (humanize_text env text emotion w) with
    | inl e => reaches_missing_trait text (r 0) (r 1) (r 2) = true
               /\ exn_cls e = KeyError
    | inr t => reaches_missing_trait text (r 0) (r 1) (r 2) = false
               /\ decorated text t
    end.
Proof. exact humanize_text_outcomes. Qed.

(** *** The system message *)

Lemma system_first_frame {A} (m : M A) :
  preserves conversation m -> establishes system_first system_first m.
Proof.
  intros Hm w Hw. unfold system_first, history in *. by rewrite Hm.
Qed.

Lemma add_message_system_first role content emotion :
  establishes system_first system_first (add_message env role content emotion).
Proof.
  intros w Hw. unfold system_first in *.
  destruct (add_message_keeps_head env role content emotion w) as [H _].
  - intros E. by rewrite E in Hw.
  - by rewrite H.
Qed.

Lemma after_user_message_system_first sentiment answer :
  establishes system_first system_first (after_user_message env sentiment answer).
Proof.
  unfold after_user_message.
  eapply establishes_bind; [apply system_first_frame; frame|done|intros _].
  eapply establishes_bind; [apply system_first_frame|done|intros raw].
  { destruct answer as [text| |e]; [destruct (Py.blank text)| |]; frame. }
  eapply establishes_bind;
    [apply system_first_frame, extract_response_conversation|done|intros r].
  eapply establishes_bind; [apply system_first_frame; frame|done|intros c].
  eapply establishes_bind; [|intros ? H; exact H|intros _].
  { destruct (3 <? _); [|apply system_first_frame; frame].
    intros w Hw. exact Hw. }
  eapply establishes_bind;
    [apply add_message_system_first|done|intros _].
  apply system_first_frame. frame.
Qed.

Lemma get_response_system_first user_text answer :
  establishes system_first system_first (get_response env user_text answer).
Proof.
  intros w Hw. rewrite get_response_unfold.
  assert (H0 : system_first (assign_mood (_analyze_sentiment user_text) w))
    by exact Hw.
  revert H0. generalize (assign_mood (_analyze_sentiment user_text) w).
  change (establishes system_first system_first
    (try_catch
       (add_message env "user" user_text None;;
        after_user_message env (_analyze_sentiment user_text) answer)
       (handle env))).
  eapply establishes_try_catch; [|done|].
  - eapply establishes_bind; [apply add_message_system_first|done|intros _].
    apply after_user_message_system_first.
  - intros e. apply system_first_frame, handle_conversation.
Qed.

Lemma get_responses_system_first turns : forall w,
  system_first w -> system_first (snd (get_responses env turns w)).
Proof.
  induction turns as [|[u a] turns IH]; intros w Hw; [exact Hw|].
  simpl. pose proof (get_response_system_first u a w Hw) as H1.
  destruct (get_response env u a w) as [r w1]. simpl in H1.
  specialize (IH w1 H1). destruct (get_responses env turns w1). exact IH.
Qed.

Lemma boot_system_first mh file : system_first (boot env mh file).
Proof. unfold system_first. by rewrite boot_history. Qed.

(** X16. Whatever the saved file, the depth, the turns and the answers of the
    completion service, the system message stays the first entry of the
    history through any sequence of [get_response] calls after start-up. *)
Theorem X_system_message_stays_first :
  forall mh file turns,
    head (history (snd (get_responses env turns (boot env mh file))))
    = Some system_message.
Proof.
  intros mh file turns.
  apply get_responses_system_first, boot_system_first.
Qed.

(** *** The bound after a call that returns *)

(** X17. A call of [add_message] with text that is not blank, at a depth of at
    least one, leaves the history within [2 * max_history + 1] entries
    whenever it returns, however long the history was before. *)
Theorem X_returning_call_restores_the_bound :
  forall role content emotion w,
    Py.blank content = false ->
    (1 <= depth w)%Z ->
    fst (add_message env role content emotion w) = inr tt ->
    (Z.of_nat (length (history (snd (add_message env role content emotion w))))
     <= depth w * 2 + 1)%Z.
Proof.
  intros role content emotion w Hb Hd. rewrite add_message_run, Hb.
  assert (Hstep : forall c w1, depth w1 = depth w ->
    fst (append_and_update env role c emotion w1) = inr tt ->
    (Z.of_nat (length (history (snd (append_and_update env role c emotion w1))))
     <= depth w * 2 + 1)%Z).
  { intros c w1 Hd1 Hret.
    destruct (append_and_update_history env role c emotion w1)
      as [_ [[-> Hle]|(_ & _ & ->)]]; rewrite <- Hd1.
    - by apply Hle.
    - rewrite length_app, length_take.
      pose proof (slice_from_depth_length (depth w1)
        (history w1 ++ [new_message env role c emotion w1])). lia. }
  destruct (String.eqb role "assistant" && _).
  - pose proof (humanize_text_conversation env content
                  (conversation_mood (conversation w)) w) as Hc.
    destruct (humanize_text env content _ w) as [[e|c] w1]; [done|].
    simpl in Hc. apply Hstep. unfold depth. by rewrite Hc.
  - by apply Hstep.
Qed.

(** *** The mood and the clock *)

(** X18. [_update_conversation_meta] always stamps the time it read; it turns
    the mood to warm exactly when more than an hour has passed since the
    last stamp, and leaves it alone otherwise; it never touches the
    history. *)
Theorem X_mood_warms_after_an_hour :
  forall content role w,
    let w' := snd (_update_conversation_meta env content role w) in
    let t := now env (n_now w) in
    let elapsed := (t - last_interaction_time (conversation w))%Z in
    last_interaction_time (conversation w') = t
    /\ conversation_mood (conversation w')
       = (if (one_hour <? elapsed)%Z then "warm"
          else conversation_mood (conversation w))
    /\ history w' = history w.
Proof.
  intros content role w. cbv zeta. rewrite meta_run.
  assert (Hbase :
    last_interaction_time (conversation (meta_base env w)) = now env (n_now w)
    /\ conversation_mood (conversation (meta_base env w))
       = (if (one_hour <? now env (n_now w)
                          - last_interaction_time (conversation w))%Z
          then "warm" else conversation_mood (conversation w))
    /\ history (meta_base env w) = history w).
  { unfold meta_base, history. simpl. by destruct (one_hour <? _)%Z. }
  revert Hbase. generalize (meta_base env w). intros w1 Hbase.
  destruct (String.eqb role "user"); [|exact Hbase].
  destruct (Py.contains _ _); [|exact Hbase].
  unfold bind, index, ret, raise.
  destruct (Py.split1 "my name is " content !! 1) as [after|]; [|exact Hbase].
  destruct (Py.split after !! 0) as [token|]; [|exact Hbase].
  destruct (negb _ && _); exact Hbase.
Qed.

(** *** The name rule *)

Lemma exact_phrase_is_found content pre post :
  Py.partition "my name is " content = Some (pre, post) ->
  Py.contains "my name is " (Py.lower content) = true
  /\ Py.blank content = false.
Proof.
  intros Hp. split.
  - apply PyFacts.contains_spec. exists (Py.lower pre), (Py.lower post).
    rewrite (PyFacts.partition_sound _ _ _ _ Hp).
    by rewrite !PyMoreFacts.lower_app.
  - apply (PyFacts.contains_not_blank "my name is "); [reflexivity|].
    unfold Py.contains. by rewrite Hp.
Qed.

(** X19. When the text of a user message holds the phrase in lower case and a
    word follows it, [add_message] returns, and the word less its
    trailing punctuation becomes the user's name and the [name]
    preference if it has two characters or more; otherwise both stay. *)
Theorem X_name_is_taken_from_the_exact_phrase :
  forall content emotion w pre post token rest,
    Py.partition "my name is " content = Some (pre, post) ->
    Py.split post = token :: rest ->
    let name := Py.rstrip_chars ".,!?" token in
    exists w',
      add_message env "user" content emotion w = (inr tt, w')
      /\ user_name (conversation w')
         = (if acceptable_name name then name else user_name (conversation w))
      /\ user_preferences (conversation w') !! "name"
         = (if acceptable_name name then Some name
            else user_preferences (conversation w) !! "name").
Proof.
  intros content emotion w pre post token rest Hp Hs name.
  destruct (exact_phrase_is_found _ _ _ Hp) as [Hlow Hb].
  rewrite add_message_run, Hb.
  change (String.eqb "user" "assistant" && _) with false. cbv iota.
  rewrite append_and_update_run. unfold bind at 1.
  rewrite (meta_extracts env content _ pre post token rest Hlow Hp Hs).
  fold name. fold (acceptable_name name).
  set (w1 := appended env "user" content emotion w).
  set (w2 := if acceptable_name name
             then snd (modify_conversation (with_name name) (meta_base env w1))
             else meta_base env w1).
  assert (Hh : history w2 <> []).
  { assert (history w2 = history w ++ [new_message env "user" content emotion w])
      as ->.
    { unfold w2, w1, appended, meta_base, history. simpl.
      destruct (acceptable_name name); simpl; by destruct (one_hour <? _)%Z. }
    by destruct (history w). }
  destruct (truncate_run w2 Hh) as (w' & Hrun & _ & Hn & Hpref & _).
  exists w'. split; [exact Hrun|]. rewrite Hn, Hpref.
  unfold w2, w1, appended, meta_base. simpl.
  destruct (acceptable_name name); simpl.
  - split; [done|]. by rewrite lookup_insert.
  - by destruct (one_hour <? _)%Z.
Qed.

(** *** Saving and reloading *)

(** X20. Saving a history that starts with the system message and is within
    the bound, and starting again at the same depth, gives the same
    history back. *)
Theorem X_reload_is_lossless_within_the_bound :
  forall mh w,
    history_file_writable env = true ->
    (1 <= mh)%Z ->
    head (history w) = Some system_message ->
    (Z.of_nat (length (history w)) <= mh * 2 + 1)%Z ->
    history (save_and_reload env mh w) = history w.
Proof.
  intros mh w Hw Hmh Hhead Hlen.
  rewrite (save_then_restore env mh w Hw).
  destruct (history w) as [|m rest]; [done|].
  simpl in Hhead. injection Hhead as ->. simpl in *.
  rewrite drop_0, (slice_from_depth mh rest Hmh).
  replace (length rest - Z.to_nat (mh * 2)) with 0 by lia.
  by rewrite drop_0.
Qed.

(** *** Clearing *)

(** X21. [clear_conversation] leaves a history that starts with the system
    message with that message alone, and leaves the name, the topics and
    the mood as they were; a later start finds no saved turns when the
    file could be removed, and the old ones when it could not. *)
Theorem X_clear_keeps_only_the_system_message :
  forall deletable mh w,
    head (history w) = Some system_message ->
    let w' := snd (clear_conversation deletable w) in
    history w' = [system_message]
    /\ user_name (conversation w') = user_name (conversation w)
    /\ conversation_topics (conversation w') = conversation_topics (conversation w)
    /\ conversation_mood (conversation w') = conversation_mood (conversation w)
    /\ history (boot env mh (history_file w'))
       = (if deletable then [system_message]
          else history (boot env mh (history_file w))).
Proof.
  intros deletable mh w Hhead. cbv zeta. rewrite !boot_history.
  unfold clear_conversation, history in *. simpl.
  destruct (conversation_history (conversation w)) as [|m rest]; [done|].
  simpl in Hhead. injection Hhead as ->.
  repeat split. destruct (history_file w), deletable; reflexivity.
Qed.

(** *** The handlers *)

Lemma handle_run e :
  handle env e =
  (emo <- get_random_emotion env (hint (exn_cls e)) ;;
   log_error env (error_category (exn_cls e)) e ;;
   humanize_text env (apology (exn_cls e) emo) (tone (exn_cls e)))%py.
Proof. unfold handle. destruct (exn_cls e); reflexivity. Qed.

Lemma get_random_emotion_clock emotion :
  preserves n_now (get_random_emotion env emotion).
Proof. unfold get_random_emotion, trait. frame. Qed.

Lemma get_random_emotion_error_log emotion :
  preserves error_log (get_random_emotion env emotion).
Proof. unfold get_random_emotion, trait. frame. Qed.

Lemma humanize_text_error_log text emotion :
  preserves error_log (humanize_text env text emotion).
Proof. unfold humanize_text, get_random_emotion, trait. frame. Qed.

Lemma add_message_error_log role content emotion :
  preserves error_log (add_message env role content emotion).
Proof.
  unfold add_message, _update_conversation_meta, humanize_text,
    get_random_emotion, trait, index.
  frame.
Qed.

Lemma handle_error_log e w :
  error_log (snd (handle env e w))
  = if error_log_writable env
    then error_log w ++ [error_record (now env (n_now w)) e (history w)]
    else error_log w.
Proof.
  rewrite handle_run. unfold bind at 1.
  pose proof (get_random_emotion_clock (hint (exn_cls e)) w) as Hn.
  pose proof (get_random_emotion_error_log (hint (exn_cls e)) w) as Hl.
  pose proof (get_random_emotion_conversation env (hint (exn_cls e)) w) as Hc.
  destruct (get_random_emotion_spec (hint (exn_cls e)) w)
    as (emo & w1 & Hrun & _).
  rewrite Hrun in *. simpl in Hn, Hl, Hc.
  unfold bind at 1.
  assert (Hlog : exists w2,
    log_error env (error_category (exn_cls e)) e w1 = (inr tt, w2)
    /\ error_log w2
       = if error_log_writable env
         then error_log w ++ [error_record (now env (n_now w)) e (history w)]
         else error_log w).
  { unfold log_error, bind, datetime_now, error_record, history.
    rewrite Hn, Hl, Hc.
    destruct (error_log_writable env); eexists; split; reflexivity || done. }
  destruct Hlog as (w2 & -> & <-).
  apply humanize_text_error_log.
Qed.

(** X22. Every handler of [get_response] appends exactly one record to the
    error log before it builds its apology, whether or not the apology
    is then returned: the category of the exception, its message, the
    content of the newest entry of the history and the length of the
    history.  When the log cannot be written it stays as it was. *)
Theorem X_handler_logs_one_record :
  forall e w,
    error_log (snd (handle env e w))
    = if error_log_writable env
      then error_log w ++ [error_record (now env (n_now w)) e (history w)]
      else error_log w.
Proof. exact handle_error_log. Qed.

Lemma after_user_message_fails sentiment answer e w :
  failure_of answer = Some e ->
  after_user_message env sentiment answer w = (inl e, tick w).
Proof.
  intros H. unfold after_user_message, bind, datetime_now, tick.
  destruct answer as [text| |e']; simpl in H.
  - destruct (Py.blank text); [|done]. by injection H as <-.
  - by injection H as <-.
  - by injection H as <-.
Qed.

(** X23. When the completion fails (an exception, a value that is not a
    string, or a blank reply) after the user's message went in, the
    history ends with that message and no assistant message follows it,
    and the error log gains one record that quotes the user's text. *)
Theorem X_failed_completion_is_logged_not_answered :
  forall user_text answer e w,
    failure_of answer = Some e ->
    Py.blank user_text = false ->
    Py.contains "my name is " (Py.lower user_text) = false ->
    (1 <= depth w)%Z ->
    error_log_writable env = true ->
    let w' := snd (get_response env user_text answer w) in
    (exists m, last (history w') = Some m
               /\ role m = "user" /\ content m = user_text)
    /\ (exists ctx, error_log w' = error_log w ++ [ctx]
                    /\ error_type ctx = error_category (exn_cls e)
                    /\ error_message ctx = exn_msg e
                    /\ last_user_message ctx = user_text).
Proof.
  intros u answer e w Hfail Hb Hname Hd Hlog. cbv zeta.
  rewrite get_response_unfold.
  set (w0 := assign_mood (_analyze_sentiment u) w).
  assert (Hd0 : (1 <= depth w0)%Z) by exact Hd.
  pose proof (add_message_user_last env u None w0 Hb Hd0) as [_ Hlast].
  pose proof (add_message_error_log "user" u None w0) as Hel.
  assert (Hret : exists w1, add_message env "user" u None w0 = (inr tt, w1)).
  { rewrite add_message_run, Hb.
    change (String.eqb "user" "assistant" && _) with false. cbv iota.
    destruct (append_and_update_returns env "user" u None) with (w := w0)
      as ([] & w1 & ->); [by rewrite Hname|]. by exists w1. }
  destruct Hret as (w1 & Hrun). rewrite Hrun in Hlast, Hel. simpl in Hlast, Hel.
  unfold try_catch, bind. rewrite Hrun.
  rewrite (after_user_message_fails _ _ _ _ Hfail).
  pose proof (handle_conversation env e (tick w1)) as Hc.
  pose proof (handle_error_log e (tick w1)) as Hl.
  destruct (handle env e (tick w1)) as [r w']. simpl in *.
  split.
  - exists (new_message env "user" u None w0).
    unfold history. rewrite Hc. split; [exact Hlast|done].
  - rewrite Hlog in Hl. eexists. split; [rewrite Hl, Hel; reflexivity|].
    unfold error_record. simpl.
    change (history (tick w1)) with (history w1). by rewrite Hlast.
Qed.

(** X24. With draws that never fall below 0.1 every handler returns its
    apology: the sentence of its class around one of the words of
    [EMOTIONS], as it is or followed by a space and such a word. *)
Theorem X_apology_is_returned_when_calm :
  forall e w,
    calm_draws env ->
    exists emo t w',
      handle env e w = (inr t, w')
      /\ emo ∈ EMOTIONS
      /\ decorated (apology (exn_cls e) emo) t.
Proof.
  intros e w Hcalm. rewrite handle_run. unfold bind at 1.
  destruct (get_random_emotion_spec (hint (exn_cls e)) w)
    as (emo & w1 & -> & Hin & _).
  unfold bind at 1.
  destruct (log_error_returns env (error_category (exn_cls e)) e w1)
    as ([] & w2 & ->).
  pose proof (humanize_text_outcomes (apology (exn_cls e) emo)
                (tone (exn_cls e)) w2) as H.
  cbv zeta in H.
  destruct (humanize_text env _ _ w2) as [[x|t] w3]; simpl in H.
  - destruct H as [H _]. unfold reaches_missing_trait in H.
    rewrite !(calm_not_below _ 1 10), !(calm_not_below _ 5 100) in H
      by (done || lia).
    simpl in H. by rewrite andb_false_r in H.
  - exists emo, t, w3. by destruct H.
Qed.

(** *** The topics *)

Lemma topics_frame {A} (m : M A) :
  preserves conversation m -> preserves topics m.
Proof. intros H w. unfold topics. by rewrite H. Qed.

Lemma meta_topics content role :
  preserves topics (_update_conversation_meta env content role).
Proof.
  intros w. rewrite meta_run.
  assert (Hbase : topics (meta_base env w) = topics w).
  { unfold meta_base, topics. simpl. by destruct (one_hour <? _)%Z. }
  revert Hbase. generalize (meta_base env w). intros w1 Hbase.
  destruct (String.eqb role "user"); [|exact Hbase].
  destruct (Py.contains _ _); [|exact Hbase].
  unfold bind, index, ret, raise.
  destruct (Py.split1 "my name is " content !! 1) as [after|]; [|exact Hbase].
  destruct (Py.split after !! 0) as [token|]; [|exact Hbase].
  destruct (negb _ && _); exact Hbase.
Qed.

Lemma truncate_topics : preserves topics truncate.
Proof.
  intros w. unfold truncate, bind, get_conversation. cbv beta iota zeta.
  destruct (_ <? _)%Z; [|reflexivity].
  unfold index. by destruct (conversation_history (conversation w)).
Qed.

Lemma append_and_update_topics role content emotion :
  preserves topics (append_and_update env role content emotion).
Proof.
  intros w. rewrite append_and_update_run. unfold bind.
  pose proof (meta_topics content role (appended env role content emotion w))
    as H.
  destruct (_update_conversation_meta env content role _) as [[e|[]] w1];
    simpl in H; [exact H|].
  by rewrite truncate_topics.
Qed.

Lemma add_message_topics role content emotion :
  preserves topics (add_message env role content emotion).
Proof.
  intros w. rewrite add_message_run.
  destruct (Py.blank content); [reflexivity|].
  destruct (String.eqb role "assistant" && _);
    [|apply append_and_update_topics].
  pose proof (topics_frame _ (humanize_text_conversation env content
                (conversation_mood (conversation w))) w) as H.
  destruct (humanize_text env content _ w) as [[e|c] w1]; simpl in H;
    [exact H|].
  by rewrite append_and_update_topics.
Qed.

Lemma topics_short_frame {A} (m : M A) :
  preserves topics m -> establishes topics_short topics_short m.
Proof.
  intros Hm w Hw. unfold topics_short in *.
  change (conversation_topics (conversation (m w).2)) with (topics (m w).2).
  by rewrite Hm.
Qed.

Lemma with_topic_short ai_response :
  establishes topics_short topics_short
    (modify_conversation
       (with_topic (Py.strip (Py.take_string 30 ai_response)))).
Proof.
  intros w Hw t.
  cbv [modify_conversation bind get_conversation set_conversation with_topic].
  cbn [snd conversation conversation_topics].
  intros [->%elem_of_singleton|Ht]%elem_of_union.
  - pose proof (PyMoreFacts.length_strip (Py.take_string 30 ai_response)).
    pose proof (PyMoreFacts.length_take_string 30 ai_response). lia.
  - by apply Hw.
Qed.

Lemma after_user_message_topics sentiment answer :
  establishes topics_short topics_short
    (after_user_message env sentiment answer).
Proof.
  unfold after_user_message.
  eapply establishes_bind;
    [apply topics_short_frame, topics_frame; frame|done|intros _].
  eapply establishes_bind;
    [apply topics_short_frame, topics_frame|done|intros raw].
  { destruct answer as [text| |e]; [destruct (Py.blank text)| |]; frame. }
  eapply establishes_bind;
    [apply topics_short_frame, topics_frame, extract_response_conversation
    |done|intros r].
  eapply establishes_bind;
    [apply topics_short_frame, topics_frame; frame|done|intros c].
  eapply establishes_bind; [|intros ? H; exact H|intros _].
  { destruct (3 <? _); [apply with_topic_short|].
    apply topics_short_frame, topics_frame. frame. }
  eapply establishes_bind;
    [apply topics_short_frame, add_message_topics|done|intros _].
  apply topics_short_frame, topics_frame. frame.
Qed.

Lemma get_response_topics user_text answer :
  establishes topics_short topics_short (get_response env user_text answer).
Proof.
  intros w Hw. rewrite get_response_unfold.
  assert (H0 : topics_short (assign_mood (_analyze_sentiment user_text) w))
    by exact Hw.
  revert H0. generalize (assign_mood (_analyze_sentiment user_text) w).
  change (establishes topics_short topics_short
    (try_catch
       (add_message env "user" user_text None;;
        after_user_message env (_analyze_sentiment user_text) answer)
       (handle env))).
  eapply establishes_try_catch; [|done|].
  - eapply establishes_bind;
      [apply topics_short_frame, add_message_topics|done|intros _].
    apply after_user_message_topics.
  - intros e. apply topics_short_frame, topics_frame, handle_conversation.
Qed.

Lemma get_responses_topics turns : forall w,
  topics_short w -> topics_short (snd (get_responses env turns w)).
Proof.
  induction turns as [|[u a] turns IH]; intros w Hw; [exact Hw|].
  simpl. pose proof (get_response_topics u a w Hw) as H1.
  destruct (get_response env u a w) as [r w1]. simpl in H1.
  specialize (IH w1 H1). destruct (get_responses env turns w1). exact IH.
Qed.

Lemma boot_topics mh file : topics (boot env mh file) = ∅.
Proof. by destruct file. Qed.

(** X25. Through any sequence of [get_response] calls after start-up, every
    topic the conversation has collected has at most thirty characters. *)
Theorem X_topics_have_at_most_thirty_characters :
  forall mh file turns t,
    t ∈ topics (snd (get_responses env turns (boot env mh file))) ->
    String.length t <= 30.
Proof.
  intros mh file turns t. apply (get_responses_topics turns).
  intros x Hx. change (x ∈ topics (boot env mh file)) in Hx.
  rewrite boot_topics in Hx. by apply elem_of_empty in Hx.
Qed.

End More.

(** *** Concrete runs *)

Lemma X_topics_witness :
  "Hello there" ∈ topics (snd (get_responses calm_env
                                 [("Hello", Reply example_payload);
                                  ("Hello", Reply example_payload)]
                                 (boot calm_env 15 Absent)))
  /\ String.length "Hello there" <= 30.
Proof.
  assert (H : "Hello there" ∈ topics (snd (get_responses calm_env
                                 [("Hello", Reply example_payload);
                                  ("Hello", Reply example_payload)]
                                 (boot calm_env 15 Absent)))).
  { refine (@bool_decide_unpack _ _ _). vm_compute. exact I. }
  split; [exact H|].
  exact (X_topics_have_at_most_thirty_characters calm_env 15 Absent _ _ H).
Defined.

Lemma X_random_emotion_witness :
  "joy" ∈ EMOTIONS
  /\ get_random_emotion calm_env "joy" (boot calm_env 15 Absent)
     = (inr "joy", boot calm_env 15 Absent).
Proof.
  assert (H : "joy" ∈ EMOTIONS).
  { unfold EMOTIONS. do 3 apply list_elem_of_further. apply list_elem_of_here. }
  split; [exact H|].
  destruct (X_random_emotion_is_a_listed_word calm_env "joy"
              (boot calm_env 15 Absent)) as (r & w' & Hrun & _ & Hid).
  destruct (Hid H) as [Hr Hw]. rewrite Hr, Hw in Hrun. exact Hrun.
Defined.

Lemma X_bound_restored_witness :
  let call := ("user", "My name is Kwame", None) in
  let w := snd (add_messages calm_env [call; call; call]
                  (boot calm_env 1 Absent)) in
  Py.blank "hi" = false
  /\ (1 <= depth w)%Z
  /\ fst (add_message calm_env "user" "hi" None w) = inr tt
  /\ length (history w) = 4
  /\ (Z.of_nat (length (history (snd (add_message calm_env "user" "hi" None w))))
      <= depth w * 2 + 1)%Z.
Proof.
  intros call w.
  assert (H1 : Py.blank "hi" = false) by reflexivity.
  assert (H2 : (1 <= depth w)%Z) by (vm_compute; discriminate).
  assert (H3 : fst (add_message calm_env "user" "hi" None w) = inr tt)
    by (vm_compute; reflexivity).
  split; [exact H1|]. split; [exact H2|]. split; [exact H3|].
  split; [vm_compute; reflexivity|].
  exact (X_returning_call_restores_the_bound calm_env "user" "hi" None w
           H1 H2 H3).
Defined.

Lemma X_name_witness :
  Py.partition "my name is " "Hi, my name is Kwame." = Some ("Hi, ", "Kwame.")
  /\ Py.split "Kwame." = ["Kwame."]
  /\ exists w',
      add_message calm_env "user" "Hi, my name is Kwame." None
        (boot calm_env 15 Absent) = (inr tt, w')
      /\ user_name (conversation w') = "Kwame"
      /\ user_preferences (conversation w') !! "name" = Some "Kwame".
Proof.
  split; [reflexivity|]. split; [reflexivity|].
  destruct (X_name_is_taken_from_the_exact_phrase calm_env
              "Hi, my name is Kwame." None (boot calm_env 15 Absent)
              "Hi, " "Kwame." "Kwame." [] eq_refl eq_refl)
    as (w' & Hrun & Hname & Hpref).
  exists w'. split; [exact Hrun|]. split; [exact Hname|exact Hpref].
Defined.

Lemma X_reload_witness :
  let w := snd (add_message calm_env "user" "hi" None (boot calm_env 15 Absent)) in
  history_file_writable calm_env = true
  /\ (1 <= 15)%Z
  /\ head (history w) = Some system_message
  /\ (Z.of_nat (length (history w)) <= 15 * 2 + 1)%Z
  /\ history (save_and_reload calm_env 15 w) = history w.
Proof.
  intros w.
  assert (H3 : head (history w) = Some system_message)
    by (vm_compute; reflexivity).
  assert (H4 : (Z.of_nat (length (history w)) <= 15 * 2 + 1)%Z)
    by (vm_compute; discriminate).
  split; [reflexivity|]. split; [lia|]. split; [exact H3|]. split; [exact H4|].
  apply X_reload_is_lossless_within_the_bound;
    [reflexivity|lia|exact H3|exact H4].
Defined.

Lemma X_clear_witness :
  let w := snd (save_conversation calm_env
                  (snd (add_message calm_env "user" "hi" None
                          (boot calm_env 15 Absent)))) in
  head (history w) = Some system_message
  /\ length (history w) = 2
  /\ history (snd (clear_conversation true w)) = [system_message]
  /\ history (boot calm_env 15 (history_file (snd (clear_conversation true w))))
     = [system_message].
Proof.
  intros w.
  assert (H : head (history w) = Some system_message)
    by (vm_compute; reflexivity).
  destruct (X_clear_keeps_only_the_system_message calm_env true 15 w H)
    as (Hh & _ & _ & _ & Hboot).
  split; [exact H|]. split; [vm_compute; reflexivity|].
  split; [exact Hh|exact Hboot].
Defined.

Lemma X_failed_completion_witness :
  let e := Exn APIError "Connection error." in
  let w := boot calm_env 15 Absent in
  failure_of (Fails e) = Some e
  /\ Py.blank "Hello" = false
  /\ Py.contains "my name is " (Py.lower "Hello") = false
  /\ (1 <= depth w)%Z
  /\ error_log_writable calm_env = true
  /\ (exists m, last (history (snd (get_response calm_env "Hello" (Fails e) w)))
                = Some m
                /\ role m = "user" /\ content m = "Hello")
  /\ (exists ctx, error_log (snd (get_response calm_env "Hello" (Fails e) w))
                  = error_log w ++ [ctx]
                  /\ error_type ctx = "API Error"
                  /\ error_message ctx = "Connection error."
                  /\ last_user_message ctx = "Hello").
Proof.
  intros e w.
  assert (H4 : (1 <= depth w)%Z) by (vm_compute; discriminate).
  destruct (X_failed_completion_is_logged_not_answered calm_env "Hello"
              (Fails e) e w eq_refl eq_refl eq_refl H4 eq_refl) as [Hm Hctx].
  split; [reflexivity|]. split; [reflexivity|]. split; [reflexivity|].
  split; [exact H4|]. split; [reflexivity|]. split; [exact Hm|exact Hctx].
Defined.

Lemma X_apology_witness :
  calm_draws calm_env
  /\ exists emo t w',
      handle calm_env (Exn ValueError "Empty or invalid AI response received")
             (boot calm_env 15 Absent) = (inr t, w')
      /\ emo ∈ EMOTIONS
      /\ decorated (apology ValueError emo) t.
Proof.
  split; [exact calm_env_is_calm|].
  exact (X_apology_is_returned_when_calm calm_env
           (Exn ValueError "Empty or invalid AI response received")
           (boot calm_env 15 Absent) calm_env_is_calm).
Defined.

End BrainMoreFacts.

(* ================================================================== *)
(** ** The catalogue of recorded responses and the speaking functions *)
(* ================================================================== *)

Module VoiceFacts.
Import Voice.

Lemma first_in_list_find q l :
  first_in_list (Py.lower q) l = List.find (matches q) l.
Proof.
  induction l as [|r l IH]; [reflexivity|].
  simpl. unfold matches at 1. by rewrite IH.
Qed.

Lemma find_app {A} (f : A -> bool) l1 l2 :
  List.find f (l1 ++ l2)
  = match List.find f l1 with
    | Some x => Some x
    | None => List.find f l2
    end.
Proof.
  induction l1 as [|a l1 IH]; [reflexivity|].
  simpl. by destruct (f a).
Qed.

Lemma first_in_sublists_find q subs :
  first_in_sublists (Py.lower q) subs
  = List.find (matches q) (flat_map snd subs).
Proof.
  induction subs as [|[k l] subs IH]; [reflexivity|].
  simpl. by rewrite find_app, first_in_list_find, IH.
Qed.

Lemma find_matching_response_find self q :
  find_matching_response self q = List.find (matches q) (all_responses self).
Proof.
  unfold find_matching_response, all_responses.
  induction self as [|[k [l|subs]] self IH]; [reflexivity| |]; simpl;
    rewrite find_app, IH.
  - by rewrite first_in_list_find.
  - by rewrite first_in_sublists_find.
Qed.

(** X26. [find_matching_response] returns the first response, in the order of
    the categories, of the sub-categories and of their lists, whose
    lowered text contains the lowered query, and [None] when there is
    none. *)
Theorem X_search_returns_the_first_match :
  forall self query,
    find_matching_response self query
    = List.find (matches query) (all_responses self).
Proof. exact find_matching_response_find. Qed.

(** X27. The empty query occurs in every text: it finds the first response of
    the catalogue, whatever the catalogue holds. *)
Theorem X_empty_query_finds_the_first_response :
  forall self, find_matching_response self "" = head (all_responses self).
Proof.
  intros self. rewrite find_matching_response_find.
  destruct (all_responses self) as [|r l]; [reflexivity|].
  simpl. unfold matches.
  assert (H : Py.contains (Py.lower "") (Py.lower (text r)) = true).
  { apply PyFacts.contains_spec. exists "", (Py.lower (text r)).
    by rewrite !PyFacts.append_nil_l. }
  by rewrite H.
Qed.

Lemma dict_get_In {A} key (d : list (string * A)) v :
  dict_get key d = Some v -> In (key, v) d.
Proof.
  induction d as [|[k x] d IH]; [done|]. simpl.
  destruct (String.eqb_spec k key) as [->|_].
  - intros [= ->]. by left.
  - intros H. right. by apply IH.
Qed.

Lemma choice_In {A} i (l : list A) x : choice i l = Some x -> In x l.
Proof.
  unfold choice. intros H. apply list_elem_of_In.
  by eapply list_elem_of_lookup_2.
Qed.

Lemma get_emotion_response_In self i emotion r :
  get_emotion_response self i emotion = Some r -> In r (all_responses self).
Proof.
  unfold get_emotion_response.
  destruct (dict_get "emotions" self) as [[l|emotions]|] eqn:Hc; try done.
  destruct (dict_get emotion emotions) as [[|r0 l]|] eqn:He; try done.
  intros Hr%choice_In.
  apply dict_get_In in Hc. apply dict_get_In in He.
  unfold all_responses. apply in_flat_map.
  exists ("emotions", Nested emotions). split; [exact Hc|].
  simpl. apply in_flat_map. by exists (emotion, r0 :: l).
Qed.

Lemma find_matching_response_In self q r :
  find_matching_response self q = Some r -> In r (all_responses self).
Proof.
  rewrite find_matching_response_find. intros H.
  by apply find_some in H as [H _].
Qed.

(** X28. [speak_text] answers [True] only when a file of the catalogue exists
    and was played through; with nothing of the catalogue chosen (no
    match, and the emotion neutral or without responses) it answers
    [False]. *)
Theorem X_speak_text_plays_catalogue_files_only :
  forall self audio i text_ emotion,
    speak_text self audio i text_ emotion = true ->
    exists r,
      In r (all_responses self)
      /\ path_exists audio (file r) = true
      /\ playback_succeeds audio (file r) = true.
Proof.
  intros self audio i text_ emotion. unfold speak_text.
  assert (Hplay : forall r, In r (all_responses self) ->
            play_response audio r = true ->
            exists r, In r (all_responses self)
                      /\ path_exists audio (file r) = true
                      /\ playback_succeeds audio (file r) = true).
  { intros r Hin Hp. exists r. split; [exact Hin|].
    unfold play_response, play_audio_file in Hp.
    by destruct (path_exists audio (file r)). }
  destruct (find_matching_response self text_) as [r|] eqn:Hf.
  - apply Hplay. by eapply find_matching_response_In.
  - destruct (negb (String.eqb emotion "neutral")); [|done].
    destruct (get_emotion_response self i emotion) as [r|] eqn:He; [|done].
    apply Hplay. by eapply get_emotion_response_In.
Qed.

(** X29. With the fallback switched off, [speak] of text_to_speech.py and
    [speak_text] of audio_utils.py give the same answer, whatever the
    synthesiser would do. *)
Theorem X_speak_without_fallback_is_speak_text :
  forall self audio tts i text_ emotion,
    speak self audio tts i text_ emotion false
    = speak_text self audio i text_ emotion.
Proof.
  intros. unfold speak, speak_text.
  destruct (find_matching_response self text_); [reflexivity|].
  destruct (negb (String.eqb emotion "neutral")); [|reflexivity].
  by destruct (get_emotion_response self i emotion).
Qed.

(** X30. When a response matches the text but its file cannot be played,
    [speak] answers [False]: the synthesiser is not tried, even with the
    fallback switched on. *)
Theorem X_failed_playback_is_not_rescued :
  forall self audio tts i text_ emotion use_tts_fallback r,
    find_matching_response self text_ = Some r ->
    play_audio_file audio (file r) = false ->
    speak self audio tts i text_ emotion use_tts_fallback = false.
Proof.
  intros self audio tts i text_ emotion fb r Hf Hp.
  unfold speak. by rewrite Hf.
Qed.

Lemma X_speak_text_witness :
  speak_text voice_responses (mkAudio (fun _ => true) (fun _ => true)) 0
             "good morning" "neutral" = true
  /\ exists r,
      In r (all_responses voice_responses)
      /\ path_exists (mkAudio (fun _ => true) (fun _ => true)) (file r) = true
      /\ playback_succeeds (mkAudio (fun _ => true) (fun _ => true)) (file r)
         = true.
Proof.
  split; [vm_compute; reflexivity|].
  apply (X_speak_text_plays_catalogue_files_only voice_responses _ 0
           "good morning" "neutral").
  vm_compute. reflexivity.
Defined.

Lemma X_failed_playback_witness :
  find_matching_response voice_responses "Good Morning"
  = Some (mkResponse "wav/anglo_greeting_003.wav" "Good morning.")
  /\ play_audio_file (mkAudio (fun _ => false) (fun _ => true))
       "wav/anglo_greeting_003.wav" = false
  /\ speak voice_responses (mkAudio (fun _ => false) (fun _ => true))
       (mkTts true (fun _ => true)) 0 "Good Morning" "neutral" true = false.
Proof.
  split; [vm_compute; reflexivity|]. split; [reflexivity|].
  apply (X_failed_playback_is_not_rescued voice_responses _ _ 0 "Good Morning"
           "neutral" true
           (mkResponse "wav/anglo_greeting_003.wav" "Good morning.")).
  - vm_compute. reflexivity.
  - reflexivity.
Defined.

End VoiceFacts.
